(** * FormMaster: the order, stock and billing workflow, embedded and verified

    The Python sources (Django models and views under [apps/]) are
    translated into Rocq functions over explicit database states.  Each
    module below embeds one source file or one group of functions; the
    properties proved about them follow the modules. *)

From Stdlib Require Import ZArith String Ascii List Lia Bool.
From Stdlib Require Import Floats.SpecFloat.
From stdpp Require Import base tactics option list gmap strings.

Local Open Scope string_scope.
Local Open Scope Z_scope.
Local Open Scope list_scope.

(** ** Python exceptions and results *)

Inductive exn : Type :=
| TypeError
| OverflowError
| ValueError
| DoesNotExist
| IntegrityError
| AttributeError.

Inductive result (A : Type) : Type :=
| Ok (a : A)
| Raise (e : exn).

Arguments Ok {A} a.
Arguments Raise {A} e.

Definition bind {A B : Type} (r : result A) (k : A -> result B) : result B :=
  match r with
  | Ok a => k a
  | Raise e => Raise e
  end.

Notation "'do' x <- r ; k" := (bind r (fun x => k))
  (at level 10, x name, r at level 100, k at level 200).

#[global] Instance exn_eq_dec : EqDecision exn.
Proof. solve_decision. Defined.

(** ** Python numbers: [int], [decimal.Decimal] and [float]

    Money columns are [DecimalField]s, so values read from the database
    are [Decimal]s; [settings.TAX_RATE] is produced by
    [config('TAX_RATE', default=0.15, cast=float)] and the fallback in
    [calculate_totals] is the literal [0.15]: both are [float]s.  The
    arithmetic below follows Python's dispatch on the operand types. *)

Module PyNum.

(** A finite [Decimal]: [dec_coef * 10 ^ dec_exp]. *)
Record decimal : Type := Dec { dec_coef : Z; dec_exp : Z }.

#[global] Instance decimal_eq_dec : EqDecision decimal.
Proof. solve_decision. Defined.

(** Number of decimal digits of a non-negative coefficient. *)
Fixpoint ndigits_fuel (fuel : nat) (n : Z) : Z :=
  match fuel with
  | O => 0
  | S fuel' => if n <=? 0 then 0 else 1 + ndigits_fuel fuel' (n / 10)
  end.

Definition ndigits (n : Z) : Z :=
  ndigits_fuel (S (Z.to_nat (Z.log2 (Z.abs n)))) (Z.abs n).

(** The default context: 28 significant digits, ROUND_HALF_EVEN. *)
Definition context_prec : Z := 28.

Definition round_half_even (c : Z) (k : Z) : Z :=
  let p := 10 ^ k in
  let q := Z.abs c / p in
  let r := Z.abs c mod p in
  let q' := if (2 * r <? p) then q
            else if (p <? 2 * r) then q + 1
            else if Z.even q then q else q + 1 in
  Z.sgn c * q'.

Definition round_ctx_step (d : decimal) : decimal :=
  let n := ndigits (dec_coef d) in
  if n <=? context_prec then d
  else let k := n - context_prec in
       Dec (round_half_even (dec_coef d) k) (dec_exp d + k).

(** Rounding may carry into a 29th digit; a second step removes it. *)
Definition round_ctx (d : decimal) : decimal :=
  round_ctx_step (round_ctx_step d).

Definition dec_of_int (z : Z) : decimal := Dec z 0.

Definition dec_add (a b : decimal) : decimal :=
  let e := Z.min (dec_exp a) (dec_exp b) in
  round_ctx (Dec (dec_coef a * 10 ^ (dec_exp a - e)
                  + dec_coef b * 10 ^ (dec_exp b - e)) e).

Definition dec_mul (a b : decimal) : decimal :=
  round_ctx (Dec (dec_coef a * dec_coef b) (dec_exp a + dec_exp b)).

(** IEEE-754 binary64, as the Standard Library specifies it. *)
Definition fprec : Z := 53.
Definition femax : Z := 1024.

Definition float : Type := spec_float.

(** [float(z)] for an [int]: correctly rounded, [OverflowError] when the
    integer is too large for a double. *)
Definition float_of_int (z : Z) : result float :=
  match binary_normalize fprec femax z 0 false with
  | S754_infinity _ => Raise OverflowError
  | f => Ok f
  end.

Inductive pynum : Type :=
| PInt (z : Z)
| PDecimal (d : decimal)
| PFloat (f : float).

(** [a + b].  [Decimal.__add__] accepts an [int] and returns
    [NotImplemented] for a [float], as does [float.__radd__] for a
    [Decimal]: the interpreter then raises [TypeError]. *)
Definition add (a b : pynum) : result pynum :=
  match a, b with
  | PInt x, PInt y => Ok (PInt (x + y))
  | PInt x, PDecimal d => Ok (PDecimal (dec_add (dec_of_int x) d))
  | PDecimal d, PInt y => Ok (PDecimal (dec_add d (dec_of_int y)))
  | PDecimal d, PDecimal d' => Ok (PDecimal (dec_add d d'))
  | PInt x, PFloat f => do fx <- float_of_int x; Ok (PFloat (SFadd fprec femax fx f))
  | PFloat f, PInt y => do fy <- float_of_int y; Ok (PFloat (SFadd fprec femax f fy))
  | PFloat f, PFloat g => Ok (PFloat (SFadd fprec femax f g))
  | PDecimal _, PFloat _ => Raise TypeError
  | PFloat _, PDecimal _ => Raise TypeError
  end.

(** [a * b], with the same dispatch. *)
Definition mul (a b : pynum) : result pynum :=
  match a, b with
  | PInt x, PInt y => Ok (PInt (x * y))
  | PInt x, PDecimal d => Ok (PDecimal (dec_mul (dec_of_int x) d))
  | PDecimal d, PInt y => Ok (PDecimal (dec_mul d (dec_of_int y)))
  | PDecimal d, PDecimal d' => Ok (PDecimal (dec_mul d d'))
  | PInt x, PFloat f => do fx <- float_of_int x; Ok (PFloat (SFmul fprec femax fx f))
  | PFloat f, PInt y => do fy <- float_of_int y; Ok (PFloat (SFmul fprec femax f fy))
  | PFloat f, PFloat g => Ok (PFloat (SFmul fprec femax f g))
  | PDecimal _, PFloat _ => Raise TypeError
  | PFloat _, PDecimal _ => Raise TypeError
  end.

(** The builtin [sum(iterable)]: starts from the [int] 0 and adds from
    left to right. *)
Fixpoint sum_from (acc : pynum) (xs : list pynum) : result pynum :=
  match xs with
  | [] => Ok acc
  | x :: xs' => do acc' <- add acc x; sum_from acc' xs'
  end.

Definition sum (xs : list pynum) : result pynum := sum_from (PInt 0) xs.

(** The double nearest to 0.15, i.e. the Python literal [0.15]:
    [5404319552844595 * 2^-55]. *)
Definition float_0_15 : float := S754_finite false 5404319552844595 (-55).

(** [d < f] for a [Decimal] and a [float]: Python compares the exact
    values. *)
Definition dec_lt_float (d : decimal) (f : float) : bool :=
  match f with
  | S754_zero _ => dec_coef d <? 0
  | S754_infinity negative => negb negative
  | S754_nan => false
  | S754_finite negative m e =>
    let mantissa := if negative then Z.neg m else Z.pos m in
    dec_coef d * 10 ^ Z.max (dec_exp d) 0 * 2 ^ Z.max (- e) 0
    <? mantissa * 2 ^ Z.max e 0 * 10 ^ Z.max (- dec_exp d) 0
  end.

(** [MinValueValidator(limit)] with a [float] limit, on a [Decimal]:
    the value is refused when [value < limit]. *)
Definition MinValueValidator (limit : float) (d : decimal) : bool :=
  negb (dec_lt_float d limit).

(** [DecimalValidator(max_digits, decimal_places)] on a finite
    [Decimal], whose digit tuple has at least one digit. *)
Definition DecimalValidator (max_digits decimal_places : Z) (d : decimal)
    : bool :=
  let len := Z.max 1 (ndigits (dec_coef d)) in
  let exponent := dec_exp d in
  let digits :=
    if 0 <=? exponent
    then (if dec_coef d =? 0 then len else len + exponent)
    else if len <? - exponent then - exponent else len in
  let decimals := if 0 <=? exponent then 0 else - exponent in
  let whole_digits := digits - decimals in
  negb (max_digits <? digits) && negb (decimal_places <? decimals)
  && negb (max_digits - decimal_places <? whole_digits).

(** A [Decimal] with at most two decimal places, in hundredths. *)
Definition hundredths (d : decimal) : Z :=
  dec_coef d * 10 ^ (dec_exp d + 2).

End PyNum.

(** ** [apps/accounts/models.py] *)

Module Accounts.

(** [is_authenticated] is [False] for the anonymous user. *)
Record User : Type := {
  user_id : nat;
  role : string;
  is_authenticated : bool
}.

Definition is_admin (u : User) : bool := bool_decide (role u = "ADMIN").
Definition is_fsm (u : User) : bool := bool_decide (role u = "FSM").
Definition is_hce (u : User) : bool := bool_decide (role u = "HCE").
Definition is_scaffolder (u : User) : bool := bool_decide (role u = "SCAFFOLDER").

(** [is_admin], [is_fsm], [is_hce] and [is_scaffolder] are methods.  The
    function views of [hiring] and [inventory] test
    [request.user.is_hce] without calling it; the value tested is then
    the bound method object, whose truth value is [True] for every
    user. *)
Definition attribute_truth (method : User -> bool) (u : User) : bool := true.

End Accounts.

(** ** Requests and responses *)

Inductive http_method : Type := GET | POST.

Inductive level : Type := msg_error | msg_warning | msg_success.

Inductive Response : Type :=
| Redirect (flash : option level) (to : string)
| Render (template : string)
| Http404
| Http403
| ApiResponse (status_code : Z).

#[global] Instance level_eq_dec : EqDecision level.
Proof. solve_decision. Defined.

#[global] Instance Response_eq_dec : EqDecision Response.
Proof. solve_decision. Defined.

Record Request : Type := {
  user : Accounts.User;
  method : http_method;
  (** [timezone.now().date()], as a day number *)
  today : Z
}.

(** The decorator [@login_required]: an anonymous request is sent to
    the login page and the view does not run. *)
Definition login_required {S R : Type} (request : Request) (db : S)
    (to_login : R) (view : R * S) : R * S :=
  if Accounts.is_authenticated (user request) then view else (to_login, db).

(** ** [apps/inventory/models.py] and the stock adjustment view *)

Module Inventory.
Import Accounts.

Record Material : Type := {
  total_quantity : Z;
  available_quantity : Z;
  hired_quantity : Z;
  minimum_stock_level : Z
}.

Definition set_available (v : Z) (m : Material) : Material :=
  {| total_quantity := total_quantity m; available_quantity := v;
     hired_quantity := hired_quantity m;
     minimum_stock_level := minimum_stock_level m |}.

Definition set_hired (v : Z) (m : Material) : Material :=
  {| total_quantity := total_quantity m;
     available_quantity := available_quantity m; hired_quantity := v;
     minimum_stock_level := minimum_stock_level m |}.

Definition set_total (v : Z) (m : Material) : Material :=
  {| total_quantity := v; available_quantity := available_quantity m;
     hired_quantity := hired_quantity m;
     minimum_stock_level := minimum_stock_level m |}.

Definition is_low_stock (m : Material) : bool :=
  available_quantity m <=? minimum_stock_level m.

(** [Material.save]: the instance is capped before it is written. *)
Definition capped (m : Material) : Material :=
  if total_quantity m <? available_quantity m
  then set_available (total_quantity m) m
  else m.

Definition Material_save (pk : nat) (m : Material)
    (materials : gmap nat Material) : gmap nat Material :=
  <[pk := capped m]> materials.

(** [MaterialAdjustmentForm]: the posted values, already typed. *)
Record MaterialAdjustmentForm : Type := {
  adjustment_type : string;
  quantity : Z;
  reason : string
}.

(** [str.isspace] on the ASCII range: TAB to CR, FS to US, space. *)
Definition is_space (c : ascii) : bool :=
  let n := nat_of_ascii c in
  ((9 <=? n) && (n <=? 13) || (28 <=? n) && (n <=? 32))%nat.

Fixpoint blank (s : string) : bool :=
  match s with
  | EmptyString => true
  | String c s' => is_space c && blank s'
  end.

(** [form.is_valid()]: a choice among ['ADD'] and ['REMOVE'], an integer
    with [min_value=1], a required text (stripped before the test). *)
Definition is_valid (f : MaterialAdjustmentForm) : bool :=
  bool_decide (adjustment_type f ∈ ["ADD"; "REMOVE"])
  && (1 <=? quantity f)
  && negb (blank (reason f)).

(** [material_adjust_stock(request, pk)].  The entry written to the
    admin log after the save is not part of the stock tables. *)
Definition material_adjust_stock (request : Request) (pk : nat)
    (form : MaterialAdjustmentForm) (materials : gmap nat Material)
    : Response * gmap nat Material :=
  login_required request materials (Redirect None "login") $
  if negb (attribute_truth is_fsm (user request))
     && negb (attribute_truth is_admin (user request))
  then (Redirect (Some msg_error) "inventory:material_detail", materials)
  else
    match materials !! pk with
    | None => (Http404, materials)
    | Some material =>
      match method request with
      | POST =>
        if is_valid form then
          if bool_decide (adjustment_type form = "ADD") then
            let material :=
              set_available (available_quantity material + quantity form)
                (set_total (total_quantity material + quantity form) material) in
            (Redirect (Some msg_success) "inventory:material_detail",
             Material_save pk material materials)
          else
            if available_quantity material <? quantity form then
              (Redirect (Some msg_error) "inventory:material_adjust_stock",
               materials)
            else
              let material :=
                set_available (available_quantity material - quantity form)
                  (set_total (total_quantity material - quantity form) material) in
              (Redirect (Some msg_success) "inventory:material_detail",
               Material_save pk material materials)
        else (Render "inventory/material_adjust_stock.html", materials)
      | GET => (Render "inventory/material_adjust_stock.html", materials)
      end
    end.

End Inventory.

(** ** Document numbers

    Every [save] that assigns a number ([Client], [RequestForQuotation],
    [Quotation], [HireOrder], [LeaseAgreement], [Invoice], [Payment],
    [Expense], [CreditNote], [TransportRequest], [Delivery],
    [DeliveryNote], [GoodsReceivedVoucher]) runs the same lines with its
    own prefix; [generate] embeds them once.  [GeneratedDocument.save]
    runs them with the month added to the prefix; [generate_document]
    embeds that.  [existing] is the number column of the table.  The
    prefix test and the ordering are those of a binary collation. *)

Module Numbering.

Definition digit_char (d : Z) : ascii := ascii_of_nat (48 + Z.to_nat d).

Fixpoint digits_fuel (fuel : nat) (n : Z) (acc : string) : string :=
  match fuel with
  | O => acc
  | S fuel' =>
    let acc' := String (digit_char (n mod 10)) acc in
    if n <? 10 then acc' else digits_fuel fuel' (n / 10) acc'
  end.

(** The decimal numeral of a non-negative [int]. *)
Definition digits (n : Z) : string :=
  digits_fuel (S (Z.to_nat (Z.log2 n))) n "".

(** [str(n)], as in [f'{year}']. *)
Definition str (n : Z) : string :=
  if n <? 0 then "-" +:+ digits (- n) else digits n.

Fixpoint zeros (k : nat) : string :=
  match k with
  | O => ""
  | S k' => String "0"%char (zeros k')
  end.

Definition zfill (width : nat) (s : string) : string :=
  zeros (width - String.length s) +:+ s.

(** [f'{n:04d}']: at least four characters, sign included. *)
Definition format_04d (n : Z) : string :=
  if n <? 0 then "-" +:+ zfill 3 (digits (- n)) else zfill 4 (digits n).

(** [s.split('-')[-1]] *)
Fixpoint last_segment_from (acc s : string) : string :=
  match s with
  | EmptyString => acc
  | String c s' =>
    if Ascii.eqb c "-"%char then last_segment_from "" s'
    else last_segment_from (acc +:+ String c "") s'
  end.

Definition last_segment (s : string) : string := last_segment_from "" s.

(** [int(s)] on ASCII text: surrounding white space, an optional sign,
    digits with single underscores between them. *)
Definition digit_value (c : ascii) : option Z :=
  let n := nat_of_ascii c in
  if ((48 <=? n) && (n <=? 57))%nat then Some (Z.of_nat n - 48) else None.

Fixpoint parse_digits (s : string) (acc : Z) (after_digit : bool) : option Z :=
  match s with
  | EmptyString => if after_digit then Some acc else None
  | String c s' =>
    match digit_value c with
    | Some d => parse_digits s' (10 * acc + d) true
    | None =>
      if Ascii.eqb c "_"%char && after_digit
      then parse_digits s' acc false
      else None
    end
  end.

Fixpoint lstrip (s : string) : string :=
  match s with
  | String c s' => if Inventory.is_space c then lstrip s' else s
  | EmptyString => s
  end.

Fixpoint rev_string (acc s : string) : string :=
  match s with
  | EmptyString => acc
  | String c s' => rev_string (String c acc) s'
  end.

Definition strip (s : string) : string :=
  rev_string "" (lstrip (rev_string "" (lstrip s))).

(** [ProhibitNullCharactersValidator], a default validator of the
    form's [CharField]: no character of the text is NUL. *)
Fixpoint no_null_characters (s : string) : bool :=
  match s with
  | EmptyString => true
  | String c s' => negb (Ascii.eqb c "000"%char) && no_null_characters s'
  end.

(** [CharField.clean] for a required field: the text is stripped, must
    not be empty nor hold a NUL, and is at most [max_length] characters
    long when a length is given. *)
Definition required_text (max_length : option Z) (s : string) : bool :=
  negb (String.eqb (strip s) "")
  && no_null_characters s
  && match max_length with
     | Some n => Z.of_nat (String.length (strip s)) <=? n
     | None => true
     end.

Definition int (s : string) : result Z :=
  let parsed :=
    match strip s with
    | String "-"%char s' => option_map Z.opp (parse_digits s' 0 false)
    | String "+"%char s' => parse_digits s' 0 false
    | s' => parse_digits s' 0 false
    end in
  match parsed with
  | Some z => Ok z
  | None => Raise ValueError
  end.

(** [.order_by(field).last()]: the greatest number of the query. *)
Definition later (a b : string) : string :=
  match String.compare a b with
  | Gt => a
  | _ => b
  end.

Fixpoint last_by_order (l : list string) : option string :=
  match l with
  | [] => None
  | s :: l' =>
    match last_by_order l' with
    | None => Some s
    | Some t => Some (later s t)
    end
  end.

(** The numbering lines of [save], for a prefix such as ["QT"]. *)
Definition generate (prefix : string) (year : Z) (existing : list string)
    : result string :=
  let stem := prefix +:+ "-" +:+ str year in
  match last_by_order (List.filter (String.prefix stem) existing) with
  | Some last_ =>
    do last_number <- int (last_segment last_);
    let new_number := last_number + 1 in
    Ok (stem +:+ "-" +:+ format_04d new_number)
  | None =>
    let new_number := 1 in
    Ok (stem +:+ "-" +:+ format_04d new_number)
  end.

(** A record is created (its number is appended to the column) or
    deleted. *)
Definition create (prefix : string) (year : Z) (existing : list string)
    : result (string * list string) :=
  do number <- generate prefix year existing;
  Ok (number, (existing ++ [number])%list).

Definition delete (number : string) (existing : list string) : list string :=
  List.filter (fun s => negb (String.eqb s number)) existing.

(** The shape [PREFIX-YYYY-NNNN] of the specification. *)
Definition stem (prefix : string) (year : Z) : string :=
  prefix +:+ "-" +:+ str year.

Definition number_of (prefix : string) (year : Z) (n : Z) : string :=
  stem prefix year +:+ "-" +:+ format_04d n.

(** Four decimal digits, written out. *)
Definition four_digits (n : Z) : string :=
  String (digit_char (n / 1000))
    (String (digit_char (n / 100 mod 10))
       (String (digit_char (n / 10 mod 10))
          (String (digit_char (n mod 10)) ""))).

(** What is checked, by evaluation, of every sequence below 10000: the
    format gives the four digits, and [int] reads them back. *)
Definition reads_back (k : nat) : bool :=
  String.eqb (format_04d (Z.of_nat k)) (four_digits (Z.of_nat k))
  && match int (format_04d (Z.of_nat k)) with
     | Ok z => z =? Z.of_nat k
     | Raise _ => false
     end.

(** [f'{month:02d}'] *)
Definition format_02d (n : Z) : string :=
  if n <? 0 then "-" +:+ zfill 1 (digits (- n)) else zfill 2 (digits n).

(** The prefix that [GeneratedDocument.save] takes for a document type:
    the [dict] and the default of [.get]. *)
Definition document_prefix (document_type : string) : string :=
  if String.eqb document_type "QUOTATION" then "QT"
  else if String.eqb document_type "INVOICE" then "INV"
  else if String.eqb document_type "LEASE_AGREEMENT" then "LA"
  else if String.eqb document_type "DELIVERY_NOTE" then "DN"
  else if String.eqb document_type "GOODS_RECEIVED_VOUCHER" then "GRV"
  else if String.eqb document_type "REQUEST_FOR_QUOTATION" then "RFQ"
  else if String.eqb document_type "RECEIPT" then "RCT"
  else "DOC".

(** The numbering lines of [GeneratedDocument.save]. *)
Definition generate_document (document_type : string) (year month : Z)
    (existing : list string) : result string :=
  let prefix := document_prefix document_type in
  let stem := prefix +:+ "-" +:+ str year +:+ "-" +:+ format_02d month in
  match last_by_order (List.filter (String.prefix stem) existing) with
  | Some last_ =>
    do last_number <- int (last_segment last_);
    let new_number := last_number + 1 in
    Ok (stem +:+ "-" +:+ format_04d new_number)
  | None =>
    let new_number := 1 in
    Ok (stem +:+ "-" +:+ format_04d new_number)
  end.

(** The stem of a document number and the number with sequence [n]. *)
Definition document_stem (document_type : string) (year month : Z) : string :=
  document_prefix document_type +:+ "-" +:+ str year +:+ "-" +:+ format_02d month.

Definition sequence (stem : string) (n : Z) : string :=
  stem +:+ "-" +:+ format_04d n.

(** What [generate] and [generate_document] share: the lines after the
    stem is formed. *)
Definition next_number (stem : string) (existing : list string) : result string :=
  match last_by_order (List.filter (String.prefix stem) existing) with
  | Some last_ =>
    do last_number <- int (last_segment last_);
    Ok (sequence stem (last_number + 1))
  | None => Ok (sequence stem 1)
  end.

(** [timezone.now().year] and [.month] for a day number.  Days are
    counted from 1 January 1970, in the Gregorian calendar (day 20000 is
    4 October 2024). *)
Definition civil_from_days (day : Z) : Z * Z :=
  let z := day + 719468 in
  let era := z / 146097 in
  let doe := z - era * 146097 in
  let yoe := (doe - doe / 1460 + doe / 36524 - doe / 146096) / 365 in
  let doy := doe - (365 * yoe + yoe / 4 - yoe / 100) in
  let mp := (5 * doy + 2) / 153 in
  let m := if mp <? 10 then mp + 3 else mp - 9 in
  (yoe + era * 400 + (if m <=? 2 then 1 else 0), m).

Definition year_of_day (day : Z) : Z := fst (civil_from_days day).

Definition month_of_day (day : Z) : Z := snd (civil_from_days day).

(** A new row's number: [save] generates one while the attribute is
    empty, and the INSERT is refused when the number is in the column
    already (the column is unique). *)
Definition number_for (prefix : string) (today : Z) (number : string)
    (existing : list string) : result string :=
  do number <-
    (if String.eqb number "" then generate prefix (year_of_day today) existing
     else Ok number);
  if bool_decide (number ∈ existing) then Raise IntegrityError else Ok number.

End Numbering.

(** ** [apps/hiring/models.py] *)

Module Hiring.
Import Accounts PyNum.
Export Inventory.

(** The part of [django.conf.settings] read by the models: [TAX_RATE] is
    a [float] when the settings module defines it. *)
Record Settings : Type := { TAX_RATE : option float }.

Record QuotationItem : Type := {
  qi_quotation : nat;
  qi_material : nat;
  quantity : Z;
  daily_rate : decimal;
  duration_days : Z;
  line_total : decimal
}.

(** [QuotationItem.save]:
    [line_total = daily_rate * quantity * duration_days]
    ([Decimal * int * int]). *)
Definition QuotationItem_save (it : QuotationItem) : QuotationItem :=
  {| qi_quotation := qi_quotation it; qi_material := qi_material it;
     quantity := quantity it; daily_rate := daily_rate it;
     duration_days := duration_days it;
     line_total :=
       dec_mul (dec_mul (daily_rate it) (dec_of_int (quantity it)))
               (dec_of_int (duration_days it)) |}.

(** A [Quotation] instance.  [transport_cost] holds what the attribute
    holds: a [Decimal] when the instance comes from a form or from the
    database, the [int] default [0] otherwise. *)
Record Quotation : Type := {
  q_client : nat;
  q_status : string;
  q_hire_duration_days : Z;
  transport_cost : pynum;
  subtotal : pynum;
  tax_amount : pynum;
  total_amount : pynum
}.

Definition set_q_status (s : string) (q : Quotation) : Quotation :=
  {| q_client := q_client q; q_status := s;
     q_hire_duration_days := q_hire_duration_days q;
     transport_cost := transport_cost q; subtotal := subtotal q;
     tax_amount := tax_amount q; total_amount := total_amount q |}.

Definition set_totals (sub tax tot : pynum) (q : Quotation) : Quotation :=
  {| q_client := q_client q; q_status := q_status q;
     q_hire_duration_days := q_hire_duration_days q;
     transport_cost := transport_cost q; subtotal := sub;
     tax_amount := tax; total_amount := tot |}.

(** [Quotation.calculate_totals]; [items] is [self.items.all()], whose
    rows come from the database. *)
Definition calculate_totals (settings : Settings) (self : Quotation)
    (items : list QuotationItem) : result Quotation :=
  do subtotal <- sum (map (fun item => PDecimal (line_total item)) items);
  do subtotal <- add subtotal (transport_cost self);
  let tax_rate := PFloat (default float_0_15 (TAX_RATE settings)) in
  do tax_amount <- mul subtotal tax_rate;
  do total_amount <- add subtotal tax_amount;
  Ok (set_totals subtotal tax_amount total_amount self).

(** A [HireOrder] instance.  [quotation], [client] and
    [hire_duration_days] are declared without [null=True]: the columns
    are NOT NULL, while the attribute of a fresh instance is [None]
    until the view assigns it.  [order_number] is empty until [save]
    generates it; the column is unique. *)
Record HireOrder : Type := {
  order_number : string;
  quotation : option nat;
  client : option nat;
  hire_duration_days : option Z;
  start_date : Z;
  expected_return_date : Z;
  actual_return_date : option Z;
  status : string
}.

Definition set_status (s : string) (o : HireOrder) : HireOrder :=
  {| order_number := order_number o;
     quotation := quotation o; client := client o;
     hire_duration_days := hire_duration_days o;
     start_date := start_date o;
     expected_return_date := expected_return_date o;
     actual_return_date := actual_return_date o; status := s |}.

Definition set_actual_return_date (d : option Z) (o : HireOrder) : HireOrder :=
  {| order_number := order_number o;
     quotation := quotation o; client := client o;
     hire_duration_days := hire_duration_days o;
     start_date := start_date o;
     expected_return_date := expected_return_date o;
     actual_return_date := d; status := status o |}.

Definition set_order_number (number : string) (o : HireOrder) : HireOrder :=
  {| order_number := number;
     quotation := quotation o; client := client o;
     hire_duration_days := hire_duration_days o;
     start_date := start_date o;
     expected_return_date := expected_return_date o;
     actual_return_date := actual_return_date o; status := status o |}.

Record HireOrderItem : Type := {
  hire_order : nat;
  material : nat;
  quantity_ordered : Z;
  quantity_dispatched : Z;
  quantity_returned : Z
}.

Definition set_quantity_dispatched (v : Z) (it : HireOrderItem) : HireOrderItem :=
  {| hire_order := hire_order it; material := material it;
     quantity_ordered := quantity_ordered it; quantity_dispatched := v;
     quantity_returned := quantity_returned it |}.

(** The tables.  An order's primary key is its position in [orders]
    (orders are never deleted by the code embedded here). *)
Record DB : Type := {
  materials : gmap nat Material;
  quotations : gmap nat Quotation;
  quotation_items : list QuotationItem;
  orders : list HireOrder;
  order_items : list HireOrderItem
}.

Definition with_materials (v : gmap nat Material) (db : DB) : DB :=
  {| materials := v; quotations := quotations db;
     quotation_items := quotation_items db; orders := orders db;
     order_items := order_items db |}.

Definition with_quotations (v : gmap nat Quotation) (db : DB) : DB :=
  {| materials := materials db; quotations := v;
     quotation_items := quotation_items db; orders := orders db;
     order_items := order_items db |}.

Definition with_orders (v : list HireOrder) (db : DB) : DB :=
  {| materials := materials db; quotations := quotations db;
     quotation_items := quotation_items db; orders := v;
     order_items := order_items db |}.

Definition with_order_items (v : list HireOrderItem) (db : DB) : DB :=
  {| materials := materials db; quotations := quotations db;
     quotation_items := quotation_items db; orders := orders db;
     order_items := v |}.

(** [quotation.items.all()] and [order.items.all()]. *)
Definition Quotation_items (pk : nat) (db : DB) : list QuotationItem :=
  filter (fun it => qi_quotation it = pk) (quotation_items db).

Definition HireOrder_items (pk : nat) (db : DB) : list HireOrderItem :=
  filter (fun it => hire_order it = pk) (order_items db).

(** [Quotation.save] on a stored quotation (its number exists already):
    the totals are recomputed, then the row is written. *)
Definition Quotation_save (settings : Settings) (pk : nat)
    (self : Quotation) (db : DB) : result DB :=
  do self' <- calculate_totals settings self (Quotation_items pk db);
  Ok (with_quotations (<[pk := self']> (quotations db)) db).

(** The column [order_number]. *)
Definition order_numbers (db : DB) : list string :=
  order_number <$> orders db.

(** [HireOrder.save] on a new instance, on the day [today]: the number
    is generated, then the row is inserted; the INSERT is refused when
    the number is in the table already and while a NOT NULL column is
    [None]. *)
Definition HireOrder_insert (today : Z) (o : HireOrder) (db : DB)
    : result (nat * DB) :=
  do number <-
    Numbering.number_for "OR" today (order_number o) (order_numbers db);
  let o := set_order_number number o in
  match quotation o, client o, hire_duration_days o with
  | Some _, Some _, Some _ =>
      Ok (length (orders db), with_orders (orders db ++ [o]) db)
  | _, _, _ => Raise IntegrityError
  end.

(** The UPDATE issued by [HireOrder.save] on a stored instance (its
    number exists already). *)
Definition HireOrder_update (pk : nat) (o : HireOrder) (db : DB) : DB :=
  with_orders (<[pk := o]> (orders db)) db.

(** [HireOrderItem.objects.create(hire_order=..., material=...,
    quantity_ordered=...)]: the other quantities default to 0. *)
Definition new_order_item (order_pk material_pk : nat) (q : Z) : HireOrderItem :=
  {| hire_order := order_pk; material := material_pk;
     quantity_ordered := q; quantity_dispatched := 0;
     quantity_returned := 0 |}.

(** The loop shape shared by every stock update:
    [for item in items: material = item.material; ...; material.save()].
    [item.material] is fetched when it is first read, so each round
    sees the rows written by the rounds before it.  [body] returns
    [None] when the round does not save. *)
Fixpoint for_each_material {I : Type} (material_of : I -> nat)
    (body : I -> Material -> option Material) (items : list I)
    (materials : gmap nat Material) : result unit * gmap nat Material :=
  match items with
  | [] => (Ok tt, materials)
  | item :: rest =>
    match materials !! material_of item with
    | None => (Raise DoesNotExist, materials)
    | Some m =>
      let materials' :=
        match body item m with
        | Some m' => Material_save (material_of item) m' materials
        | None => materials
        end in
      for_each_material material_of body rest materials'
    end
  end.

(** A material with [da] added to its available and [dh] to its hired
    quantity: what the round of a loop writes when the cap of
    [Material.save] does not apply. *)
Definition shifted (da dh : Z) (m : Material) : Material :=
  {| total_quantity := total_quantity m;
     available_quantity := available_quantity m + da;
     hired_quantity := hired_quantity m + dh;
     minimum_stock_level := minimum_stock_level m |}.

(** The sum of [f] over the lines of [items] that are on material [k]. *)
Fixpoint total_on {I : Type} (material_of : I -> nat) (f : I -> Z) (k : nat)
    (items : list I) : Z :=
  match items with
  | [] => 0
  | item :: rest =>
    (if bool_decide (material_of item = k) then f item else 0)
    + total_on material_of f k rest
  end.

(** The bodies of the loops. *)
Definition reserve (q : Z) (m : Material) : Material :=
  set_hired (hired_quantity m + q) (set_available (available_quantity m - q) m).

Definition release_returned (item : HireOrderItem) (m : Material) : option Material :=
  Some (set_available (available_quantity m + quantity_returned item)
          (set_hired (hired_quantity m - quantity_dispatched item) m)).

Definition release_completed (item : HireOrderItem) (m : Material) : option Material :=
  if quantity_returned item <? quantity_dispatched item
  then Some (set_hired (hired_quantity m
                        - (quantity_dispatched item - quantity_returned item)) m)
  else None.

Definition release_dispatched (item : HireOrderItem) (m : Material) : option Material :=
  Some (set_hired (hired_quantity m - quantity_dispatched item)
          (set_available (available_quantity m + quantity_dispatched item) m)).

End Hiring.

(** ** [apps/hiring/forms.py] and [apps/hiring/views.py] *)

Module HiringViews.
Import Accounts.
Export Hiring.

(** [HireOrderForm]: the two posted dates ([None] when a field is
    missing or is not a date). *)
Record HireOrderForm : Type := {
  form_start_date : option Z;
  form_expected_return_date : option Z
}.

(** [HireOrderForm.is_valid()]: both fields are required, and [clean]
    wants [start_date < expected_return_date] and at most 365 days. *)
Definition HireOrderForm_is_valid (f : HireOrderForm) : bool :=
  match form_start_date f, form_expected_return_date f with
  | Some s, Some e => negb (e <=? s) && negb (365 <? e - s)
  | _, _ => false
  end.

(** [form.save(commit=False)]: only the form's fields are set. *)
Definition HireOrderForm_instance (f : HireOrderForm) : HireOrder :=
  {| order_number := "";
     quotation := None; client := None; hire_duration_days := None;
     start_date := default 0 (form_start_date f);
     expected_return_date := default 0 (form_expected_return_date f);
     actual_return_date := None; status := "ORDERED" |}.

(** One form of [HireOrderItemFormSet]: [cleaned_data] is empty for a
    form left blank.  The [material] of a cleaned form is the instance
    that validation fetched. *)
Record HireOrderItemData : Type := {
  data_material : nat;
  data_quantity_ordered : Z;
  DELETE : bool
}.

Definition HireOrderItemForm : Type := option HireOrderItemData.

(** [formset.is_valid()]: the material exists and the model validator
    [MinValueValidator(1)] holds for every filled form. *)
Definition formset_is_valid (formset : list HireOrderItemForm) (db : DB) : bool :=
  forallb (fun f =>
    match f with
    | None => true
    | Some d => bool_decide (is_Some (materials db !! data_material d))
                && (1 <=? data_quantity_ordered d)
    end) formset.

(** The availability loop of [create_order_from_quotation] (and of the
    API action): [Ok false] at the first item that asks for more than
    is available. *)
Fixpoint check_availability (items : list QuotationItem)
    (materials : gmap nat Material) : result bool :=
  match items with
  | [] => Ok true
  | item :: rest =>
    match materials !! qi_material item with
    | None => Raise DoesNotExist
    | Some m =>
      if available_quantity m <? quantity item then Ok false
      else check_availability rest materials
    end
  end.

Definition order_exists (quotation_pk : nat) (db : DB) : bool :=
  existsb (fun o => bool_decide (quotation o = Some quotation_pk)) (orders db).

(** [create_order_from_quotation(request, quotation_pk)] *)
Definition create_order_from_quotation (request : Request)
    (form : HireOrderForm) (quotation_pk : nat) (db : DB)
    : result Response * DB :=
  login_required request db (Ok (Redirect None "login")) $
  if negb (attribute_truth is_hce (user request))
     && negb (attribute_truth is_admin (user request))
  then (Ok (Redirect (Some msg_error) "hiring:quotation_detail"), db)
  else
    match quotations db !! quotation_pk with
    | None => (Ok Http404, db)
    | Some quotation_ =>
      if order_exists quotation_pk db
      then (Ok (Redirect (Some msg_warning) "hiring:quotation_detail"), db)
      else if negb (bool_decide (q_status quotation_ = "ACCEPTED"))
      then (Ok (Redirect (Some msg_warning) "hiring:quotation_detail"), db)
      else
        match check_availability (Quotation_items quotation_pk db) (materials db) with
        | Raise e => (Raise e, db)
        | Ok false => (Ok (Redirect (Some msg_error) "hiring:quotation_detail"), db)
        | Ok true =>
          match method request with
          | POST =>
            if HireOrderForm_is_valid form then
              let order :=
                {| order_number := "";
                   quotation := Some quotation_pk;
                   client := Some (q_client quotation_);
                   hire_duration_days := Some (q_hire_duration_days quotation_);
                   start_date := default 0 (form_start_date form);
                   expected_return_date := default 0 (form_expected_return_date form);
                   actual_return_date := None; status := "ORDERED" |} in
              match HireOrder_insert (today request) order db with
              | Raise e => (Raise e, db)
              | Ok (order_pk, db1) =>
                let created :=
                  map (fun qi => new_order_item order_pk (qi_material qi) (quantity qi))
                      (Quotation_items quotation_pk db1) in
                let db2 := with_order_items (order_items db1 ++ created) db1 in
                let '(r, materials') :=
                  for_each_material material
                    (fun item m => Some (reserve (quantity_ordered item) m))
                    (HireOrder_items order_pk db2) (materials db2) in
                let db3 := with_materials materials' db2 in
                match r with
                | Raise e => (Raise e, db3)
                | Ok _ => (Ok (Redirect (Some msg_success) "hiring:order_detail"), db3)
                end
              end
            else (Ok (Render "hiring/order_form.html"), db)
          | GET => (Ok (Render "hiring/order_form.html"), db)
          end
        end
    end.

(** The item loop of [order_create] (lines 696-707).  Each form carries
    the [Material] instance fetched when the formset was validated, so
    every round starts from the row as it was in [validated]. *)
Fixpoint order_create_items (order_pk : nat) (formset : list HireOrderItemForm)
    (validated : gmap nat Material) (db : DB) : result unit * DB :=
  match formset with
  | [] => (Ok tt, db)
  | None :: rest => order_create_items order_pk rest validated db
  | Some d :: rest =>
    if DELETE d then order_create_items order_pk rest validated db
    else
      match validated !! data_material d with
      | None => (Raise DoesNotExist, db)
      | Some m =>
        let item := new_order_item order_pk (data_material d) (data_quantity_ordered d) in
        let db1 := with_order_items (order_items db ++ [item]) db in
        let db2 :=
          with_materials
            (Material_save (data_material d)
               (reserve (quantity_ordered item) m) (materials db1)) db1 in
        order_create_items order_pk rest validated db2
      end
  end.

(** [order_create(request)] *)
Definition order_create (request : Request) (form : HireOrderForm)
    (formset : list HireOrderItemForm) (db : DB) : result Response * DB :=
  login_required request db (Ok (Redirect None "login")) $
  if negb (attribute_truth is_hce (user request))
     && negb (attribute_truth is_admin (user request))
  then (Ok (Redirect (Some msg_error) "hiring:order_list"), db)
  else
    match method request with
    | POST =>
      if HireOrderForm_is_valid form && formset_is_valid formset db then
        let order := HireOrderForm_instance form in
        match HireOrder_insert (today request) order db with
        | Raise e => (Raise e, db)
        | Ok (order_pk, db1) =>
          match order_create_items order_pk formset (materials db) db1 with
          | (Raise e, db2) => (Raise e, db2)
          | (Ok _, db2) => (Ok (Redirect (Some msg_success) "hiring:order_detail"), db2)
          end
        end
      else (Ok (Render "hiring/order_form.html"), db)
    | GET => (Ok (Render "hiring/order_form.html"), db)
    end.

(** The table of [order_update_status]. *)
Definition valid_transitions : gmap string (list string) :=
  <["ORDERED" := ["APPROVED"; "CANCELLED"]]>
  (<["APPROVED" := ["DISPATCHED"; "CANCELLED"]]>
  (<["DISPATCHED" := ["ACTIVE"]]>
  (<["ACTIVE" := ["RETURNED"]]>
  (<["RETURNED" := ["COMPLETED"]]> ∅)))).

(** [order_update_status(request, pk, status)] *)
Definition order_update_status (request : Request) (pk : nat)
    (new_status : string) (db : DB) : result Response * DB :=
  login_required request db (Ok (Redirect None "login")) $
  if negb (attribute_truth is_hce (user request))
     && negb (attribute_truth is_fsm (user request))
     && negb (attribute_truth is_admin (user request))
  then (Ok (Redirect (Some msg_error) "hiring:order_detail"), db)
  else
    match orders db !! pk with
    | None => (Ok Http404, db)
    | Some order =>
      let current_status := status order in
      if negb (bool_decide
                 (new_status ∈ default [] (valid_transitions !! current_status)))
      then (Ok (Redirect (Some msg_error) "hiring:order_detail"), db)
      else
        let order := set_status new_status order in
        if bool_decide (new_status = "RETURNED") then
          let order := set_actual_return_date (Some (today request)) order in
          let '(r, materials') :=
            for_each_material material release_returned
              (HireOrder_items pk db) (materials db) in
          let db1 := with_materials materials' db in
          match r with
          | Raise e => (Raise e, db1)
          | Ok _ => (Ok (Redirect (Some msg_success) "hiring:order_detail"),
                     HireOrder_update pk order db1)
          end
        else if bool_decide (new_status = "COMPLETED") then
          let '(r, materials') :=
            for_each_material material release_completed
              (HireOrder_items pk db) (materials db) in
          let db1 := with_materials materials' db in
          match r with
          | Raise e => (Raise e, db1)
          | Ok _ => (Ok (Redirect (Some msg_success) "hiring:order_detail"),
                     HireOrder_update pk order db1)
          end
        else
          (Ok (Redirect (Some msg_success) "hiring:order_detail"),
           HireOrder_update pk order db)
    end.

End HiringViews.

(** ** [apps/api/views.py]

    The module takes [timezone], [timedelta], [models] and
    [HireOrderItem] from [from .serializers import *]; [serializers.py]
    is not among the sources, and the names are taken to resolve.

    [HireOrderViewSet] names one of its actions [dispatch].  The
    function that a viewset's [as_view] returns ends, for every route,
    in [self.dispatch(request, *args, **kwargs)]; in this class that
    attribute is the action, not [APIView.dispatch].  So every request
    to the viewset runs the body of the action, with the [HttpRequest]
    that Django passed (it is never wrapped in the framework's
    [Request]) and without [initial], where authentication and
    permissions are checked; no other handler of the class is called. *)

Module Api.
Import Accounts.
Export Hiring.
Import HiringViews.

(** [self.get_object()] in [HireOrderViewSet]; [pk] is the keyword
    argument of the URL.  The queryset is filtered before the lookup,
    and [DjangoFilterBackend] reads [request.query_params], an attribute
    that an [HttpRequest] does not have: the call raises
    [AttributeError] before the table is read. *)
Definition get_object (pk : option nat) (db : DB) : result (nat * HireOrder) :=
  Raise AttributeError.

(** The statements of [HireOrderViewSet.dispatch] after [get_object]. *)
Definition dispatch_order (pk : nat) (order : HireOrder) (db : DB)
    : result Response * DB :=
  if negb (bool_decide (status order ∈ ["ORDERED"; "APPROVED"]))
  then (Ok (ApiResponse 400), db)
  else
    let order := set_status "DISPATCHED" order in
    let db1 := HireOrder_update pk order db in
    let items' :=
      map (fun item =>
             if bool_decide (hire_order item = pk)
             then set_quantity_dispatched (quantity_ordered item) item
             else item) (order_items db1) in
    (Ok (ApiResponse 200), with_order_items items' db1).

(** [HireOrderViewSet.dispatch(request, pk=None)] *)
Definition dispatch (request : Request) (pk : option nat) (db : DB)
    : result Response * DB :=
  match get_object pk db with
  | Raise e => (Raise e, db)
  | Ok (pk, order) => dispatch_order pk order db
  end.

(** The statements of [HireOrderViewSet.return_order] after
    [get_object]. *)
Definition return_order_lines (today : Z) (pk : nat) (order : HireOrder)
    (db : DB) : result Response * DB :=
  if negb (bool_decide (status order = "ACTIVE"))
  then (Ok (ApiResponse 400), db)
  else
    let order :=
      set_actual_return_date (Some today) (set_status "RETURNED" order) in
    let db1 := HireOrder_update pk order db in
    let '(r, materials') :=
      for_each_material material release_dispatched
        (HireOrder_items pk db1) (materials db1) in
    let db2 := with_materials materials' db1 in
    match r with
    | Raise e => (Raise e, db2)
    | Ok _ => (Ok (ApiResponse 200), db2)
    end.

(** [HireOrderViewSet.return_order(request, pk=None)] *)
Definition return_order (request : Request) (pk : option nat) (db : DB)
    : result Response * DB :=
  match get_object pk db with
  | Raise e => (Raise e, db)
  | Ok (pk, order) => return_order_lines (today request) pk order db
  end.

(** A request to a route of [HireOrderViewSet]: [action] is the handler
    that the route names (["list"], ["retrieve"], ["update"],
    ["dispatch"], ["return_order"], ...), [pk] the key in the URL of a
    detail route.  Whatever the route, the function called is the action
    [dispatch]. *)
Definition HireOrderViewSet (request : Request) (action : string)
    (pk : option nat) (db : DB) : result Response * DB :=
  dispatch request pk db.

(** The second loop of [convert_to_order]: an order item is created and
    the stock reserved for each quotation item in turn. *)
Fixpoint convert_items (order_pk : nat) (items : list QuotationItem)
    (db : DB) : result unit * DB :=
  match items with
  | [] => (Ok tt, db)
  | quotation_item :: rest =>
    match materials db !! qi_material quotation_item with
    | None => (Raise DoesNotExist, db)
    | Some m =>
      let item :=
        new_order_item order_pk (qi_material quotation_item)
          (quantity quotation_item) in
      let db1 := with_order_items (order_items db ++ [item]) db in
      let db2 :=
        with_materials
          (Material_save (qi_material quotation_item)
             (reserve (quantity quotation_item) m) (materials db1)) db1 in
      convert_items order_pk rest db2
    end
  end.

(** [QuotationViewSet.convert_to_order] *)
Definition convert_to_order (settings : Settings) (request : Request)
    (pk : nat) (db : DB) : result Response * DB :=
  if negb (is_authenticated (user request)) then (Ok (ApiResponse 403), db)
  else
    match quotations db !! pk with
    | None => (Ok Http404, db)
    | Some quotation_ =>
      if negb (bool_decide (q_status quotation_ = "ACCEPTED"))
      then (Ok (ApiResponse 400), db)
      else
        match check_availability (Quotation_items pk db) (materials db) with
        | Raise e => (Raise e, db)
        | Ok false => (Ok (ApiResponse 400), db)
        | Ok true =>
          let order :=
            {| order_number := "";
               quotation := Some pk;
               client := Some (q_client quotation_);
               hire_duration_days := Some (q_hire_duration_days quotation_);
               start_date := today request;
               expected_return_date :=
                 today request + q_hire_duration_days quotation_;
               actual_return_date := None; status := "ORDERED" |} in
          match HireOrder_insert (today request) order db with
          | Raise e => (Raise e, db)
          | Ok (order_pk, db1) =>
            match convert_items order_pk (Quotation_items pk db1) db1 with
            | (Raise e, db2) => (Raise e, db2)
            | (Ok _, db2) =>
              let quotation_ := set_q_status "CONVERTED" quotation_ in
              match Quotation_save settings pk quotation_ db2 with
              | Raise e => (Raise e, db2)
              | Ok db3 => (Ok (ApiResponse 201), db3)
              end
            end
          end
        end
    end.

End Api.

(** ** [apps/finance/models.py]

    Invoice and payment amounts are [DecimalField(max_digits=12,
    decimal_places=2)] columns.  They are kept here as integers counting
    hundredths: the code only adds, subtracts and compares them, which is
    exact on [Decimal]s of that size. *)

Module Finance.

Record Invoice : Type := {
  due_date : Z;
  total_amount : Z;
  amount_paid : Z;
  balance_due : Z;
  payment_status : string
}.

Definition set_amount_paid (v : Z) (i : Invoice) : Invoice :=
  {| due_date := due_date i; total_amount := total_amount i;
     amount_paid := v; balance_due := balance_due i;
     payment_status := payment_status i |}.

Definition set_balance_due (v : Z) (i : Invoice) : Invoice :=
  {| due_date := due_date i; total_amount := total_amount i;
     amount_paid := amount_paid i; balance_due := v;
     payment_status := payment_status i |}.

Definition set_payment_status (s : string) (i : Invoice) : Invoice :=
  {| due_date := due_date i; total_amount := total_amount i;
     amount_paid := amount_paid i; balance_due := balance_due i;
     payment_status := s |}.

(** [payment_number] is empty until [save] generates it; the column is
    unique. *)
Record Payment : Type := {
  payment_number : string;
  invoice : nat;
  amount : Z;
  confirmed : bool;
  confirmed_by : option nat;
  confirmation_date : option Z
}.

Record DB : Type := {
  invoices : gmap nat Invoice;
  payments : gmap nat Payment
}.

(** [Invoice.save] on a stored invoice (its number exists already). *)
Definition Invoice_save (today : Z) (pk : nat) (self : Invoice)
    (invoices : gmap nat Invoice) : gmap nat Invoice :=
  let self := set_balance_due (total_amount self - amount_paid self) self in
  let self :=
    if total_amount self <=? amount_paid self
    then set_payment_status "PAID" self
    else if 0 <? amount_paid self
    then set_payment_status "PARTIAL" self
    else if (due_date self <? today)
            && bool_decide (payment_status self = "SENT")
    then set_payment_status "OVERDUE" self
    else self in
  <[pk := self]> invoices.

(** [sum(p.amount for p in invoice.payments.filter(confirmed=True))] *)
Definition total_confirmed (invoice_pk : nat) (payments : gmap nat Payment) : Z :=
  map_fold (fun _ p acc =>
              if confirmed p && bool_decide (invoice p = invoice_pk)
              then acc + amount p else acc) 0 payments.

(** The first three assignments of [confirm_payment]. *)
Definition confirmed_instance (now : Z) (self : Payment) (user : nat) : Payment :=
  {| payment_number := payment_number self;
     invoice := invoice self; amount := amount self; confirmed := true;
     confirmed_by := Some user; confirmation_date := Some now |}.

(** [Payment.confirm_payment(user)] on the stored payment [pk] (its
    number exists already, so [save] generates none).  [now]
    is [timezone.now()] in seconds and [today] its date.  The instance
    as the method leaves it is returned with the tables. *)
Definition confirm_payment (now today : Z) (pk : nat) (self : Payment)
    (user : nat) (db : DB) : result Payment * DB :=
  let self := confirmed_instance now self user in
  let db1 := {| invoices := invoices db;
                payments := <[pk := self]> (payments db) |} in
  match invoices db1 !! invoice self with
  | None => (Raise DoesNotExist, db1)
  | Some invoice_ =>
    let total_paid := total_confirmed (invoice self) (payments db1) in
    let invoice_ := set_amount_paid total_paid invoice_ in
    let invoice_ :=
      if total_amount invoice_ <=? total_paid
      then set_payment_status "PAID" invoice_
      else if 0 <? total_paid
      then set_payment_status "PARTIAL" invoice_
      else invoice_ in
    (Ok self,
     {| invoices := Invoice_save today (invoice self) invoice_ (invoices db1);
        payments := payments db1 |})
  end.

(** The invoice row after a reconciliation on the day [today] that
    found the sum [t]: the assignments of [confirm_payment] followed by
    those of [Invoice.save], on one row. *)
Definition settled (today t : Z) (inv : Invoice) : Invoice :=
  {| due_date := due_date inv; total_amount := total_amount inv;
     amount_paid := t; balance_due := total_amount inv - t;
     payment_status :=
       if total_amount inv <=? t then "PAID"
       else if 0 <? t then "PARTIAL"
       else if (due_date inv <? today)
               && bool_decide (payment_status inv = "SENT")
       then "OVERDUE"
       else payment_status inv |}.

(** The invoice row after a reconciliation that found the positive sum
    [t]: used to state what [confirm_payment] stores. *)
Definition reconciled (t : Z) (inv : Invoice) : Invoice :=
  {| due_date := due_date inv; total_amount := total_amount inv;
     amount_paid := t; balance_due := total_amount inv - t;
     payment_status := if total_amount inv <=? t then "PAID" else "PARTIAL" |}.

End Finance.

(** ** [apps/clients/models.py]: balances and credit notes

    Amounts in hundredths, as in [Finance]. *)

Module Clients.

Record Client : Type := {
  credit_limit : Z;
  current_balance : Z
}.

Record CreditNote : Type := {
  client : nat;
  amount : Z;
  status : string;
  applied_to_invoice : option nat;
  applied_date : option Z;
  applied_by : option nat
}.

Record DB : Type := {
  clients : gmap nat Client;
  credit_notes : gmap nat CreditNote;
  (** the [client] column of [finance.Invoice], read only *)
  invoice_client : gmap nat nat
}.

Definition available_credit (c : Client) : Z :=
  Z.max (credit_limit c - current_balance c) 0.

(** [Client.update_balance(amount)] on the stored client [pk]. *)
Definition update_balance (pk : nat) (self : Client) (amount : Z)
    (clients : gmap nat Client) : gmap nat Client :=
  <[pk := {| credit_limit := credit_limit self;
             current_balance := current_balance self + amount |}]> clients.

(** [CreditNote.apply_to_invoice(invoice, user)] on the stored note
    [pk]; [self.client] is read from the clients table. *)
Definition apply_to_invoice (today : Z) (pk : nat) (self : CreditNote)
    (invoice user : nat) (db : DB) : result CreditNote * DB :=
  let self :=
    {| client := client self; amount := amount self; status := "APPLIED";
       applied_to_invoice := Some invoice; applied_date := Some today;
       applied_by := Some user |} in
  let db1 := {| clients := clients db;
                credit_notes := <[pk := self]> (credit_notes db);
                invoice_client := invoice_client db |} in
  match clients db1 !! client self with
  | None => (Raise DoesNotExist, db1)
  | Some c =>
    (Ok self,
     {| clients := update_balance (client self) c (- amount self) (clients db1);
        credit_notes := credit_notes db1;
        invoice_client := invoice_client db1 |})
  end.

(** [ApplyCreditNoteView.post]; [invoice_id] is the posted field, [None]
    when it is absent or empty. *)
Definition ApplyCreditNoteView_post (request : Request) (pk : nat)
    (invoice_id : option nat) (db : DB) : result Response * DB :=
  login_required request db (Ok (Redirect None "login")) $
  if negb (Accounts.is_fsm (user request) || Accounts.is_admin (user request))
  then (Ok Http403, db)
  else
    match credit_notes db !! pk with
    | None => (Ok Http404, db)
    | Some credit_note =>
      match invoice_id with
      | None => (Ok (Redirect (Some msg_error) "clients:client_credit_notes"), db)
      | Some invoice_id =>
        if bool_decide (invoice_client db !! invoice_id = Some (client credit_note))
        then
          match apply_to_invoice (today request) pk credit_note invoice_id
                  (Accounts.user_id (user request)) db with
          | (Raise e, db') => (Raise e, db')
          | (Ok _, db') =>
            (Ok (Redirect (Some msg_success) "clients:client_credit_notes"), db')
          end
        else (Ok (Redirect (Some msg_error) "clients:client_credit_notes"), db)
      end
    end.

End Clients.

(** ** [apps/delivery/models.py], [signals.py] and [DeliveryCreateView]

    Primary keys are positions in the tables.  [apps.py], where the
    signal module would be imported, is not among the sources: whether
    the receiver is connected is the parameter [signals_connected]. *)

Module Delivery.
Import Accounts.

(** [delivery_number] and [note_number] are empty until [save]
    generates them; both columns are unique. *)
Record Delivery : Type := {
  delivery_number : string;
  hire_order : nat;
  delivery_type : string;
  status : string
}.

Record DeliveryNote : Type := {
  note_number : string;
  delivery : nat;
  signed_by_driver : bool;
  signed_by_scaffolder : bool;
  signed_by_security : bool;
  signed_by_client : bool
}.

Record DeliveryNoteItem : Type := {
  delivery_note : nat;
  material : nat;
  quantity : Z;
  condition : string
}.

Record DB : Type := {
  deliveries : list Delivery;
  delivery_notes : list DeliveryNote;
  delivery_note_items : list DeliveryNoteItem;
  (** the [HireOrderItem] table of [hiring], read only *)
  order_items : list Hiring.HireOrderItem
}.

Definition with_deliveries (v : list Delivery) (db : DB) : DB :=
  {| deliveries := v; delivery_notes := delivery_notes db;
     delivery_note_items := delivery_note_items db;
     order_items := order_items db |}.

Definition with_delivery_notes (v : list DeliveryNote) (db : DB) : DB :=
  {| deliveries := deliveries db; delivery_notes := v;
     delivery_note_items := delivery_note_items db;
     order_items := order_items db |}.

Definition with_delivery_note_items (v : list DeliveryNoteItem) (db : DB) : DB :=
  {| deliveries := deliveries db; delivery_notes := delivery_notes db;
     delivery_note_items := v; order_items := order_items db |}.

Definition is_fully_signed (n : DeliveryNote) : bool :=
  signed_by_driver n && signed_by_scaffolder n && signed_by_security n.

(** [DeliveryNote.objects.create(delivery=...)] on the day [today]:
    [DeliveryNote.save] generates the number, then the row is inserted. *)
Definition DeliveryNote_create (today : Z) (delivery_pk : nat) (db : DB)
    : result (nat * DB) :=
  do number <-
    Numbering.number_for "DN" today "" (note_number <$> delivery_notes db);
  Ok (length (delivery_notes db),
      with_delivery_notes
        (delivery_notes db ++
         [{| note_number := number; delivery := delivery_pk;
             signed_by_driver := false; signed_by_scaffolder := false;
             signed_by_security := false; signed_by_client := false |}])
        db).

(** [create_delivery_note_on_delivery_creation]: [instance.hire_order]
    is a model instance, hence true.  An exception of the [create]
    leaves the tables as they are. *)
Definition create_delivery_note_on_delivery_creation (today : Z)
    (instance_pk : nat) (instance : Delivery) (created : bool) (db : DB)
    : result unit * DB :=
  if created && true then
    match List.find (fun n => bool_decide (delivery n = instance_pk))
                    (delivery_notes db) with
    | Some existing_note => (Ok tt, db)
    | None =>
      match DeliveryNote_create today instance_pk db with
      | Raise e => (Raise e, db)
      | Ok (_, db') => (Ok tt, db')
      end
    end
  else (Ok tt, db).

(** [Delivery.save] on a new instance: the number is generated and the
    row inserted, then [post_save] is sent.  The row is stored by the
    time a receiver runs, and stays when the receiver raises. *)
Definition Delivery_save (signals_connected : bool) (today : Z)
    (instance : Delivery) (db : DB) : result nat * DB :=
  match Numbering.number_for "DEL" today (delivery_number instance)
          (delivery_number <$> deliveries db) with
  | Raise e => (Raise e, db)
  | Ok number =>
    let pk := length (deliveries db) in
    let instance :=
      {| delivery_number := number; hire_order := hire_order instance;
         delivery_type := delivery_type instance;
         status := status instance |} in
    let db1 := with_deliveries (deliveries db ++ [instance]) db in
    if signals_connected then
      match create_delivery_note_on_delivery_creation today pk instance true db1 with
      | (Raise e, db2) => (Raise e, db2)
      | (Ok _, db2) => (Ok pk, db2)
      end
    else (Ok pk, db1)
  end.

(** [DeliveryNoteItem.objects.create(delivery_note=..., material=...,
    quantity=...)]: [condition] defaults to ['GOOD']. *)
Definition note_item_of (note_pk : nat) (order_item : Hiring.HireOrderItem)
    : DeliveryNoteItem :=
  {| delivery_note := note_pk; material := Hiring.material order_item;
     quantity := Hiring.quantity_ordered order_item; condition := "GOOD" |}.

(** [DeliveryCreateView.form_valid]; [instance] is [form.instance]. *)
Definition form_valid (signals_connected : bool) (today : Z)
    (instance : Delivery) (db : DB) : result Response * DB :=
  match Delivery_save signals_connected today instance db with
  | (Raise e, db1) => (Raise e, db1)
  | (Ok pk, db1) =>
    match DeliveryNote_create today pk db1 with
    | Raise e => (Raise e, db1)
    | Ok (note_pk, db2) =>
      let items :=
        map (note_item_of note_pk)
            (filter (fun it => Hiring.hire_order it = hire_order instance)
                    (order_items db2)) in
      (Ok (Redirect (Some msg_success) "delivery:delivery_detail"),
       with_delivery_note_items (delivery_note_items db2 ++ items) db2)
    end
  end.

(** [DeliveryCreateView] on POST: [LoginRequiredMixin], [test_func]
    (here the role methods are called), then the form; [form] is [None]
    when the posted data do not validate. *)
Definition DeliveryCreateView_post (signals_connected : bool)
    (request : Request) (form : option Delivery) (db : DB)
    : result Response * DB :=
  login_required request db (Ok (Redirect None "login")) $
  if negb (is_hce (user request) || is_scaffolder (user request)
           || is_admin (user request))
  then (Ok Http403, db)
  else
    match form with
    | Some instance => form_valid signals_connected (today request) instance db
    | None => (Ok (Render "delivery/delivery_create.html"), db)
    end.

(** The notes attached to a delivery and the items of a note. *)
Definition notes_of (delivery_pk : nat) (db : DB) : list DeliveryNote :=
  filter (fun n => delivery n = delivery_pk) (delivery_notes db).

Definition items_of (note_pk : nat) (db : DB) : list DeliveryNoteItem :=
  filter (fun it => delivery_note it = note_pk) (delivery_note_items db).

End Delivery.

(** ** The formulas of the specification, beside the code *)

Module Spec.
Import PyNum.

(** Derived totals as the specification words them:
    [subtotal = sum(line_total) + transport_cost],
    [tax_amount = subtotal * tax_rate],
    [total_amount = subtotal + tax_amount], on [Decimal]s. *)
Definition spec_totals (tax_rate : decimal) (line_totals : list decimal)
    (transport_cost : decimal) : decimal * decimal * decimal :=
  let subtotal :=
    dec_add (fold_left dec_add line_totals (dec_of_int 0)) transport_cost in
  let tax_amount := dec_mul subtotal tax_rate in
  (subtotal, tax_amount, dec_add subtotal tax_amount).

(** The stock invariant of the specification. *)
Definition stock_invariant (m : Inventory.Material) : Prop :=
  Inventory.available_quantity m + Inventory.hired_quantity m
    = Inventory.total_quantity m
  ∧ 0 <= Inventory.available_quantity m <= Inventory.total_quantity m
  ∧ 0 <= Inventory.hired_quantity m.

(** The numbers stored under a stem ([PREFIX-YYYY], or [PREFIX-YYYY-MM]
    for a generated document) are well formed: the stem, a dash and a
    sequence of four digits. *)
Definition well_formed (stem : string) (existing : list string) : Prop :=
  ∀ s, s ∈ existing → String.prefix stem s = true →
       ∃ n, 0 <= n <= 9999 ∧ s = Numbering.sequence stem n.

(** The numbering of the specification: [issued] is the stem with the
    sequence 1 when no number is stored under the stem, and with the
    highest stored sequence plus one otherwise; the number is new, and
    its sequence has four digits up to 9999. *)
Definition next_in_sequence (stem : string) (existing : list string)
    (issued : result string) : Prop :=
  ∃ n, 1 <= n <= 10000
       ∧ issued = Ok (Numbering.sequence stem n)
       ∧ (Numbering.sequence stem n ∉ existing)
       ∧ ((∀ s, s ∈ existing → String.prefix stem s = false) → n = 1)
       ∧ (∀ m, 0 <= m <= 9999 → Numbering.sequence stem m ∈ existing →
               (∀ k, 0 <= k <= 9999 → Numbering.sequence stem k ∈ existing →
                     k <= m) →
               n = m + 1)
       ∧ (n <= 9999 → Numbering.format_04d n = Numbering.four_digits n).

(** "The sum of all confirmed payments" of an invoice, as the
    specification words it: the amounts of the rows of the payment
    table that are confirmed and belong to the invoice, added up. *)
Definition sum_of_confirmed_payments (invoice_pk : nat)
    (payments : gmap nat Finance.Payment) : Z :=
  foldr Z.add 0
    (Finance.amount
       <$> filter (fun p => Finance.confirmed p = true
                            ∧ Finance.invoice p = invoice_pk)
             (snd <$> map_to_list payments)).

(** What the aging report is to divide by due date: the balance due of
    the invoices whose status is PENDING or PARTIAL and whose due date
    has the property [P], added up over the rows of the table. *)
Definition outstanding_balance (P : Z → Prop) `{!∀ due, Decision (P due)}
    (invoices : gmap nat Finance.Invoice) : Z :=
  foldr Z.add 0
    (Finance.balance_due
       <$> filter (fun i => (Finance.payment_status i = "PENDING"
                             ∨ Finance.payment_status i = "PARTIAL")
                            ∧ P (Finance.due_date i))
             (snd <$> map_to_list invoices)).

End Spec.

(** ** Concrete states used by the examples *)

Module Scenarios.
Import Accounts PyNum Hiring HiringViews.

Definition hce : User :=
  {| user_id := 1; role := "HCE"; is_authenticated := true |}.

Definition fsm : User :=
  {| user_id := 2; role := "FSM"; is_authenticated := true |}.

Definition post (u : User) : Request :=
  {| user := u; method := POST; today := 20000 |}.

(** The quotation line of the worked example: 100 units at 5.00 a day
    for 30 days, saved. *)
Definition example_item : QuotationItem :=
  QuotationItem_save
    {| qi_quotation := 1; qi_material := 1; quantity := 100;
       daily_rate := Dec 500 (-2); duration_days := 30;
       line_total := Dec 0 (-2) |}.

(** Its quotation, with transport cost 500.00. *)
Definition example_quotation : Quotation :=
  {| q_client := 1; q_status := "ACCEPTED"; q_hire_duration_days := 30;
     transport_cost := PDecimal (Dec 50000 (-2));
     subtotal := PDecimal (Dec 0 (-2)); tax_amount := PDecimal (Dec 0 (-2));
     total_amount := PDecimal (Dec 0 (-2)) |}.

Definition default_settings : Settings := {| TAX_RATE := None |}.

(** A fresh instance without lines: [transport_cost] is the [int]
    default. *)
Definition blank_quotation : Quotation :=
  {| q_client := 1; q_status := "DRAFT"; q_hire_duration_days := 30;
     transport_cost := PInt 0; subtotal := PInt 0; tax_amount := PInt 0;
     total_amount := PInt 0 |}.

Definition order_in (s : string) : HireOrder :=
  {| order_number := "OR-2024-0001";
     quotation := Some 1%nat; client := Some 1%nat;
     hire_duration_days := Some 30; start_date := 20000;
     expected_return_date := 20030; actual_return_date := None;
     status := s |}.

Definition stock (total available hired : Z) : Material :=
  {| total_quantity := total; available_quantity := available;
     hired_quantity := hired; minimum_stock_level := 0 |}.

Definition order_line (ordered dispatched returned : Z) : HireOrderItem :=
  {| hire_order := 0; material := 1; quantity_ordered := ordered;
     quantity_dispatched := dispatched; quantity_returned := returned |}.

(** One material, one order (primary key 0) with one line. *)
Definition one_order (m : Material) (s : string) (line : HireOrderItem) : DB :=
  {| materials := {[ 1%nat := m ]}; quotations := {[ 1%nat := example_quotation ]};
     quotation_items := [example_item]; orders := [order_in s];
     order_items := [line] |}.

(** One accepted quotation asking for [q] units, no order yet. *)
Definition accepted_quotation (m : Material) (q : Z) : DB :=
  {| materials := {[ 1%nat := m ]};
     quotations := {[ 1%nat := example_quotation ]};
     quotation_items :=
       [{| qi_quotation := 1; qi_material := 1; quantity := q;
           daily_rate := Dec 500 (-2); duration_days := 30;
           line_total := Dec (15000 * q) (-2) |}];
     orders := []; order_items := [] |}.

Definition dates : HireOrderForm :=
  {| form_start_date := Some 20001; form_expected_return_date := Some 20031 |}.

(** A client owing 1000.00 and a credit note of 200.00 issued to it;
    invoice 7 belongs to the client. *)
Definition credit_note_200 : Clients.CreditNote :=
  {| Clients.client := 1; Clients.amount := 20000; Clients.status := "ISSUED";
     Clients.applied_to_invoice := None; Clients.applied_date := None;
     Clients.applied_by := None |}.

Definition client_owing_1000 : Clients.DB :=
  {| Clients.clients :=
       {[ 1%nat := {| Clients.credit_limit := 500000;
                      Clients.current_balance := 100000 |} ]};
     Clients.credit_notes := {[ 1%nat := credit_note_200 ]};
     Clients.invoice_client := {[ 7%nat := 1%nat ]} |}.

(** The note is applied to invoice 7 by user 2, then the resulting
    (APPLIED) note is applied again. *)
Definition first_application : result Clients.CreditNote * Clients.DB :=
  Clients.apply_to_invoice 20000 1 credit_note_200 7 2 client_owing_1000.

Definition applied_note_200 : Clients.CreditNote :=
  {| Clients.client := 1; Clients.amount := 20000; Clients.status := "APPLIED";
     Clients.applied_to_invoice := Some 7%nat; Clients.applied_date := Some 20000;
     Clients.applied_by := Some 2%nat |}.

Definition second_application : result Clients.CreditNote * Clients.DB :=
  Clients.apply_to_invoice 20001 1 applied_note_200 7 2 (snd first_application).

(** An invoice of 17825.00, sent and not yet due, with one recorded
    payment of 5000.00 waiting for confirmation. *)
Definition payment_5000 : Finance.Payment :=
  {| Finance.payment_number := "PAY-2024-0001";
     Finance.invoice := 7; Finance.amount := 500000; Finance.confirmed := false;
     Finance.confirmed_by := None; Finance.confirmation_date := None |}.

(** A payment of nothing, stored by a call of [Payment.objects.create]:
    the validator of [amount] runs in forms only. *)
Definition payment_of_nothing : Finance.Payment :=
  {| Finance.payment_number := "PAY-2024-0001";
     Finance.invoice := 7; Finance.amount := 0; Finance.confirmed := false;
     Finance.confirmed_by := None; Finance.confirmation_date := None |}.

(** An invoice that is due on day 20030, and that payment. *)
Definition invoice_with_nothing_paid : Finance.DB :=
  {| Finance.invoices :=
       {[ 7%nat := {| Finance.due_date := 20030; Finance.total_amount := 1782500;
                      Finance.amount_paid := 0; Finance.balance_due := 1782500;
                      Finance.payment_status := "SENT" |} ]};
     Finance.payments := {[ 3%nat := payment_of_nothing ]} |}.

Definition invoice_sent : Finance.DB :=
  {| Finance.invoices :=
       {[ 7%nat := {| Finance.due_date := 20030; Finance.total_amount := 1782500;
                      Finance.amount_paid := 0; Finance.balance_due := 1782500;
                      Finance.payment_status := "SENT" |} ]};
     Finance.payments := {[ 3%nat := payment_5000 ]} |}.

(** No delivery yet; the order 0 has one line of 40 units. *)
Definition outgoing : Delivery.Delivery :=
  {| Delivery.delivery_number := "";
     Delivery.hire_order := 0; Delivery.delivery_type := "OUTGOING";
     Delivery.status := "SCHEDULED" |}.

Definition no_deliveries : Delivery.DB :=
  {| Delivery.deliveries := []; Delivery.delivery_notes := [];
     Delivery.delivery_note_items := [];
     Delivery.order_items := [order_line 40 0 0] |}.

(** The order 0 has two lines and the order 1 one; the order 1 went
    out earlier in the year, with a note for its line. *)
Definition one_delivery : Delivery.DB :=
  {| Delivery.deliveries :=
       [{| Delivery.delivery_number := "DEL-2024-0001";
           Delivery.hire_order := 1; Delivery.delivery_type := "OUTGOING";
           Delivery.status := "DELIVERED" |}];
     Delivery.delivery_notes :=
       [{| Delivery.note_number := "DN-2024-0001"; Delivery.delivery := 0;
           Delivery.signed_by_driver := true;
           Delivery.signed_by_scaffolder := true;
           Delivery.signed_by_security := true;
           Delivery.signed_by_client := false |}];
     Delivery.delivery_note_items :=
       [{| Delivery.delivery_note := 0; Delivery.material := 2;
           Delivery.quantity := 5; Delivery.condition := "GOOD" |}];
     Delivery.order_items :=
       [order_line 40 0 0;
        {| hire_order := 1; material := 2; quantity_ordered := 5;
           quantity_dispatched := 5; quantity_returned := 0 |};
        {| hire_order := 0; material := 3; quantity_ordered := 12;
           quantity_dispatched := 0; quantity_returned := 0 |}] |}.

(** Two quotations of 2025 among numbers of other years and kinds. *)
Definition numbers_2025 : list string :=
  ["QT-2025-0001"; "QT-2025-0007"; "QT-2024-0100"; "INV-2025-0009"].

(** The documents generated so far: two invoices of March 2025, one of
    February and a quotation. *)
Definition documents_2025 : list string :=
  ["INV-2025-03-0006"; "INV-2025-03-0007"; "INV-2025-02-0011";
   "QT-2025-03-0002"].

(** The order 0 with two lines on the same material. *)
Definition two_line_order (m : Material) (s : string)
    (line1 line2 : HireOrderItem) : DB :=
  {| materials := {[ 1%nat := m ]}; quotations := {[ 1%nat := example_quotation ]};
     quotation_items := [example_item]; orders := [order_in s];
     order_items := [line1; line2] |}.

(** A direct order for 11 units of a material of which 10 are available,
    and for exactly the 10. *)
Definition ten_available : DB :=
  {| materials := {[ 1%nat := stock 100 10 90 ]}; quotations := ∅;
     quotation_items := []; orders := []; order_items := [] |}.

Definition ask (q : Z) : list HireOrderItemForm :=
  [Some {| data_material := 1; data_quantity_ordered := q; DELETE := false |}].

(** An accepted quotation for 40 of 100 available units, converted
    through the web view, or through the API action. *)
Definition forty_of_hundred : DB := accepted_quotation (stock 100 100 0) 40.

Definition after_web : result Response * DB :=
  create_order_from_quotation (post hce) dates 1 forty_of_hundred.

Definition after_api : result Response * DB :=
  Api.convert_to_order default_settings (post hce) 1 forty_of_hundred.

End Scenarios.

(** ** [apps/hiring/models.py]: the methods of [HireOrder] and
    [HireOrderItem] *)

Module HireOrders.
Import PyNum.
Export Hiring.

(** [HireOrder.days_overdue()]; [today] is [timezone.now().date()].  A
    [date] is always true, so the first test is on [None] only. *)
Definition days_overdue (self : HireOrder) (today : Z) : Z :=
  let otherwise :=
    if bool_decide (status self = "ACTIVE") && (expected_return_date self <? today)
    then today - expected_return_date self
    else 0 in
  match actual_return_date self with
  | Some returned =>
    if expected_return_date self <? returned
    then returned - expected_return_date self
    else otherwise
  | None => otherwise
  end.

(** [settings.LATE_RETURN_PENALTY_RATE], a [float] when it is defined;
    the fallback is the literal [50.00], the double [50 = 25 * 2^1]. *)
Record PenaltySettings : Type := { LATE_RETURN_PENALTY_RATE : option float }.

Definition float_50 : float := S754_finite false 7036874417766400 (-47).

(** [HireOrder.calculate_late_penalty()]: [int * float], or the [int]
    0. *)
Definition calculate_late_penalty (settings : PenaltySettings)
    (self : HireOrder) (today : Z) : result pynum :=
  let days_overdue := days_overdue self today in
  if 0 <? days_overdue then
    let penalty_rate :=
      PFloat (default float_50 (LATE_RETURN_PENALTY_RATE settings)) in
    mul (PInt days_overdue) penalty_rate
  else Ok (PInt 0).

(** [HireOrder.get_total_amount()].  [quotation] is a foreign key
    without [null=True]: reading the attribute fetches the row, and
    raises when there is none; the instance it returns is true. *)
Definition get_total_amount (self : HireOrder) (db : DB) : result pynum :=
  match quotation self with
  | None => Raise DoesNotExist
  | Some quotation_pk =>
    match quotations db !! quotation_pk with
    | None => Raise DoesNotExist
    | Some quotation_ => Ok (total_amount quotation_)
    end
  end.

Definition get_pending_dispatch (self : HireOrderItem) : Z :=
  quantity_ordered self - quantity_dispatched self.

Definition get_pending_return (self : HireOrderItem) : Z :=
  quantity_dispatched self - quantity_returned self.

Definition is_fully_dispatched (self : HireOrderItem) : bool :=
  quantity_ordered self <=? quantity_dispatched self.

Definition is_fully_returned (self : HireOrderItem) : bool :=
  quantity_dispatched self <=? quantity_returned self.

End HireOrders.

(** ** [apps/core/tasks.py]: the overdue reminders *)

Module Tasks.
Export Hiring.

Inductive notification : Type :=
| FIRST_REMINDER
| SECOND_REMINDER
| FINAL_WARNING.

#[global] Instance notification_eq_dec : EqDecision notification.
Proof. solve_decision. Defined.

(** The [if]/[elif] chain on [days_overdue]. *)
Definition reminder (days_overdue : Z) : option notification :=
  if days_overdue =? 1 then Some FIRST_REMINDER
  else if days_overdue =? 3 then Some SECOND_REMINDER
  else if days_overdue =? 7 then Some FINAL_WARNING
  else None.

(** The query of [check_overdue_returns]. *)
Definition overdue (today : Z) (order : HireOrder) : bool :=
  bool_decide (status order = "ACTIVE") && (expected_return_date order <? today).

(** [check_overdue_returns()]: the calls of
    [send_overdue_notification.delay], in the order of the table, and
    the number of overdue orders that the task reports. *)
Definition check_overdue_returns (today : Z) (orders : list HireOrder)
    : list (nat * notification) * nat :=
  let overdue_orders :=
    filter (fun row => overdue today row.2 = true) (imap pair orders) in
  (omap (fun row =>
           pair row.1 <$> reminder (today - expected_return_date row.2))
        overdue_orders,
   length overdue_orders).

(** [send_overdue_notification(order_id, notification_type)].  The
    messages of the second and of the final notice format
    [days_overdue], a name that the function does not define: the
    [NameError] is caught by [except Exception] like the missing order,
    and the task returns [False]. *)
Definition send_overdue_notification (order_id : nat)
    (notification_type : notification) (orders : list HireOrder) : bool :=
  match orders !! order_id with
  | None => false
  | Some order =>
    match notification_type with
    | FIRST_REMINDER => true
    | SECOND_REMINDER => false
    | FINAL_WARNING => false
    end
  end.

End Tasks.

(** ** Sequences of requests to [order_update_status] *)

Module Workflow.
Export HiringViews.

(** The requests [order_update_status(request, pk, s)] for the statuses
    [s] of a list, one after the other. *)
Definition run_transitions (request : Request) (pk : nat)
    (statuses : list string) (db : DB) : DB :=
  fold_left (fun db status => snd (order_update_status request pk status db))
            statuses db.

(** The statuses of an order's life after ORDERED, in the order of the
    table. *)
Definition lifecycle : list string :=
  ["APPROVED"; "DISPATCHED"; "ACTIVE"; "RETURNED"; "COMPLETED"].

End Workflow.

(** ** [apps/hiring/views.py]: the quotation views

    The columns of [Quotation] that the embedded code does not read
    ([approved_by], [prepared_by], [valid_until], [notes]) are not in
    the record. *)

Module QuotationViews.
Import Accounts PyNum.
Export HiringViews.

(** [quotation_approve(request, pk)] *)
Definition quotation_approve (settings : Settings) (request : Request)
    (pk : nat) (db : DB) : result Response * DB :=
  login_required request db (Ok (Redirect None "login")) $
  if negb (attribute_truth is_fsm (user request))
     && negb (attribute_truth is_admin (user request))
  then (Ok (Redirect (Some msg_error) "hiring:quotation_detail"), db)
  else
    match quotations db !! pk with
    | None => (Ok Http404, db)
    | Some quotation_ =>
      if negb (bool_decide (q_status quotation_ = "DRAFT"))
      then (Ok (Redirect (Some msg_warning) "hiring:quotation_detail"), db)
      else
        let quotation_ := set_q_status "SENT" quotation_ in
        match Quotation_save settings pk quotation_ db with
        | Raise e => (Raise e, db)
        | Ok db' => (Ok (Redirect (Some msg_success) "hiring:quotation_detail"), db')
        end
    end.

(** [quotation_send_to_client(request, pk)].  The module neither
    defines nor imports [generate_quotation_pdf]: the first statement
    of the [try] block raises [NameError], which [except Exception]
    turns into an error message; the assignment of the status is not
    reached. *)
Definition quotation_send_to_client (request : Request) (pk : nat) (db : DB)
    : result Response * DB :=
  login_required request db (Ok (Redirect None "login")) $
  if negb (attribute_truth is_hce (user request))
     && negb (attribute_truth is_fsm (user request))
     && negb (attribute_truth is_admin (user request))
  then (Ok (Redirect (Some msg_error) "hiring:quotation_detail"), db)
  else
    match quotations db !! pk with
    | None => (Ok Http404, db)
    | Some quotation_ =>
      if negb (bool_decide (q_status quotation_ ∈ ["SENT"; "DRAFT"]))
      then (Ok (Redirect (Some msg_warning) "hiring:quotation_detail"), db)
      else (Ok (Redirect (Some msg_error) "hiring:quotation_detail"), db)
    end.

(** [quotation_accept(request, pk)] *)
Definition quotation_accept (settings : Settings) (request : Request)
    (pk : nat) (db : DB) : result Response * DB :=
  login_required request db (Ok (Redirect None "login")) $
  if negb (attribute_truth is_hce (user request))
     && negb (attribute_truth is_admin (user request))
  then (Ok (Redirect (Some msg_error) "hiring:quotation_detail"), db)
  else
    match quotations db !! pk with
    | None => (Ok Http404, db)
    | Some quotation_ =>
      if negb (bool_decide (q_status quotation_ = "SENT"))
      then (Ok (Redirect (Some msg_warning) "hiring:quotation_detail"), db)
      else
        let quotation_ := set_q_status "ACCEPTED" quotation_ in
        match Quotation_save settings pk quotation_ db with
        | Raise e => (Raise e, db)
        | Ok db' =>
          (Ok (Redirect (Some msg_success) "hiring:create_order_from_quotation"),
           db')
        end
    end.

End QuotationViews.

(** ** [LeaseAgreement] and the lease views of [apps/hiring/views.py]

    A lease's primary key is its position in the table. *)

Module Leases.
Import Accounts PyNum.

(** [agreement_number] is empty until [save] generates it; the column
    is unique. *)
Record LeaseAgreement : Type := {
  agreement_number : string;
  hire_order : nat;
  client : nat;
  start_date : Z;
  end_date : Z;
  hire_duration_days : Z;
  late_return_penalty_per_day : decimal;
  signed_by_client : bool;
  client_signature_date : option Z;
  signed_by_fsm : option nat;
  fsm_signature_date : option Z;
  status : string
}.

Definition set_signed_by_fsm (user : nat) (date : Z) (l : LeaseAgreement)
    : LeaseAgreement :=
  {| agreement_number := agreement_number l;
     hire_order := hire_order l; client := client l;
     start_date := start_date l; end_date := end_date l;
     hire_duration_days := hire_duration_days l;
     late_return_penalty_per_day := late_return_penalty_per_day l;
     signed_by_client := signed_by_client l;
     client_signature_date := client_signature_date l;
     signed_by_fsm := Some user; fsm_signature_date := Some date;
     status := status l |}.

Definition set_signed_by_client (date : Z) (l : LeaseAgreement) : LeaseAgreement :=
  {| agreement_number := agreement_number l;
     hire_order := hire_order l; client := client l;
     start_date := start_date l; end_date := end_date l;
     hire_duration_days := hire_duration_days l;
     late_return_penalty_per_day := late_return_penalty_per_day l;
     signed_by_client := true; client_signature_date := Some date;
     signed_by_fsm := signed_by_fsm l;
     fsm_signature_date := fsm_signature_date l;
     status := status l |}.

Definition set_status (s : string) (l : LeaseAgreement) : LeaseAgreement :=
  {| agreement_number := agreement_number l;
     hire_order := hire_order l; client := client l;
     start_date := start_date l; end_date := end_date l;
     hire_duration_days := hire_duration_days l;
     late_return_penalty_per_day := late_return_penalty_per_day l;
     signed_by_client := signed_by_client l;
     client_signature_date := client_signature_date l;
     signed_by_fsm := signed_by_fsm l;
     fsm_signature_date := fsm_signature_date l;
     status := s |}.

(** [LeaseAgreement.is_fully_signed()] *)
Definition is_fully_signed (self : LeaseAgreement) : bool :=
  signed_by_client self && bool_decide (signed_by_fsm self ≠ None).

(** [LeaseAgreement.calculate_late_penalty(days_overdue)]:
    [int * Decimal]. *)
Definition calculate_late_penalty (self : LeaseAgreement) (days_overdue : Z)
    : decimal :=
  dec_mul (dec_of_int days_overdue) (late_return_penalty_per_day self).

Record DB : Type := {
  (** the [HireOrder] table of [hiring], read only *)
  orders : list Hiring.HireOrder;
  leases : list LeaseAgreement
}.

Definition with_leases (v : list LeaseAgreement) (db : DB) : DB :=
  {| orders := orders db; leases := v |}.

(** What a lease view answers: the messages it queued, in order, with
    the page it redirects to; a rendered template; or 404. *)
Inductive Reply : Type :=
| Go (flashes : list level) (to : string)
| Page (template : string)
| NotFound.

(** [LeaseAgreementForm]: the posted penalty ([None] when it is missing
    or is no number) and the two texts. *)
Record LeaseAgreementForm : Type := {
  form_late_return_penalty_per_day : option decimal;
  form_damage_assessment_policy : string;
  form_terms_and_conditions : string
}.

(** [form.is_valid()]: the three fields are required; the penalty is a
    [DecimalField(max_digits=10, decimal_places=2)], and
    [clean_late_return_penalty_per_day] wants it positive. *)
Definition LeaseAgreementForm_is_valid (f : LeaseAgreementForm) : bool :=
  match form_late_return_penalty_per_day f with
  | Some penalty => DecimalValidator 10 2 penalty && (0 <? dec_coef penalty)
  | None => false
  end
  && Numbering.required_text None (form_damage_assessment_policy f)
  && Numbering.required_text None (form_terms_and_conditions f).

(** [LeaseAgreement.save] on a new instance, on the day [today]: the
    number is generated, then the row is inserted. *)
Definition LeaseAgreement_insert (today : Z) (self : LeaseAgreement) (db : DB)
    : result (nat * DB) :=
  do number <-
    Numbering.number_for "LA" today (agreement_number self)
      (agreement_number <$> leases db);
  Ok (length (leases db),
      with_leases
        (leases db ++
         [{| agreement_number := number;
             hire_order := hire_order self; client := client self;
             start_date := start_date self; end_date := end_date self;
             hire_duration_days := hire_duration_days self;
             late_return_penalty_per_day := late_return_penalty_per_day self;
             signed_by_client := signed_by_client self;
             client_signature_date := client_signature_date self;
             signed_by_fsm := signed_by_fsm self;
             fsm_signature_date := fsm_signature_date self;
             status := status self |}])
        db).

(** [create_lease_agreement(request, order_pk)].  On success two
    messages are queued: the call of [generate_lease_agreement_pdf], a
    name the module does not define, raises [NameError] inside the
    [try], and the handler adds a warning.  A stored order has a client
    and a duration; the insert, which follows the generation of the
    number, is refused otherwise. *)
Definition create_lease_agreement (request : Request) (order_pk : nat)
    (form : LeaseAgreementForm) (db : DB) : result Reply * DB :=
  login_required request db (Ok (Go [] "login")) $
  if negb (attribute_truth is_fsm (user request))
     && negb (attribute_truth is_admin (user request))
  then (Ok (Go [msg_error] "hiring:order_detail"), db)
  else
    match orders db !! order_pk with
    | None => (Ok NotFound, db)
    | Some order =>
      if existsb (fun l => bool_decide (hire_order l = order_pk)) (leases db)
      then (Ok (Go [msg_warning] "hiring:order_detail"), db)
      else
        match method request with
        | POST =>
          if LeaseAgreementForm_is_valid form then
            match Hiring.client order, Hiring.hire_duration_days order with
            | Some client_pk, Some days =>
              let lease :=
                {| agreement_number := "";
                   hire_order := order_pk; client := client_pk;
                   start_date := Hiring.start_date order;
                   end_date := Hiring.expected_return_date order;
                   hire_duration_days := days;
                   late_return_penalty_per_day :=
                     default (Dec 0 0) (form_late_return_penalty_per_day form);
                   signed_by_client := false; client_signature_date := None;
                   signed_by_fsm := Some (user_id (user request));
                   fsm_signature_date := Some (today request);
                   status := "DRAFT" |} in
              match LeaseAgreement_insert (today request) lease db with
              | Raise e => (Raise e, db)
              | Ok (_, db') =>
                (Ok (Go [msg_success; msg_warning] "hiring:order_detail"), db')
              end
            | _, _ =>
              match Numbering.number_for "LA" (today request) ""
                      (agreement_number <$> leases db) with
              | Raise e => (Raise e, db)
              | Ok _ => (Raise IntegrityError, db)
              end
            end
          else (Ok (Page "hiring/lease_agreement_form.html"), db)
        | GET => (Ok (Page "hiring/lease_agreement_form.html"), db)
        end
    end.

(** [lease_sign_fsm(request, pk)]; the view does not look at the
    request method. *)
Definition lease_sign_fsm (request : Request) (pk : nat) (db : DB)
    : Reply * DB :=
  login_required request db (Go [] "login") $
  if negb (attribute_truth is_fsm (user request))
     && negb (attribute_truth is_admin (user request))
  then (Go [msg_error] "hiring:lease_detail", db)
  else
    match leases db !! pk with
    | None => (NotFound, db)
    | Some lease =>
      if bool_decide (signed_by_fsm lease ≠ None)
      then (Go [msg_warning] "hiring:lease_detail", db)
      else
        let lease := set_signed_by_fsm (user_id (user request)) (today request) lease in
        let lease :=
          if signed_by_client lease then set_status "ACTIVE" lease else lease in
        (Go [msg_success] "hiring:lease_detail",
         with_leases (<[pk := lease]> (leases db)) db)
    end.

(** [lease_sign_client(request, pk)] *)
Definition lease_sign_client (request : Request) (pk : nat) (db : DB)
    : Reply * DB :=
  login_required request db (Go [] "login") $
  if negb (attribute_truth is_hce (user request))
     && negb (attribute_truth is_fsm (user request))
     && negb (attribute_truth is_admin (user request))
  then (Go [msg_error] "hiring:lease_detail", db)
  else
    match leases db !! pk with
    | None => (NotFound, db)
    | Some lease =>
      if signed_by_client lease
      then (Go [msg_warning] "hiring:lease_detail", db)
      else
        let lease := set_signed_by_client (today request) lease in
        let lease :=
          if bool_decide (signed_by_fsm lease ≠ None)
          then set_status "ACTIVE" lease else lease in
        (Go [msg_success] "hiring:lease_detail",
         with_leases (<[pk := lease]> (leases db)) db)
    end.

(** The leases of an order. *)
Definition leases_of (order_pk : nat) (db : DB) : list LeaseAgreement :=
  filter (fun l => hire_order l = order_pk) (leases db).

(** Fully signed leases are ACTIVE. *)
Definition signed_is_active (l : LeaseAgreement) : Prop :=
  is_fully_signed l = true → status l = "ACTIVE".

End Leases.

(** ** [apps/finance/models.py], [forms.py] and [views.py]: recording
    payments, the aging report, the initial values of an invoice *)

Module Billing.
Import Accounts PyNum.
Export Finance.

(** [Invoice.is_overdue()] and [Invoice.days_overdue()] *)
Definition is_overdue (self : Invoice) (today : Z) : bool :=
  (due_date self <? today) && negb (bool_decide (payment_status self = "PAID")).

Definition days_overdue (self : Invoice) (today : Z) : Z :=
  if is_overdue self today then today - due_date self else 0.

(** The key of a new row: one more than the highest key in use. *)
Definition next_pk {A : Type} (table : gmap nat A) : nat :=
  map_fold (fun k _ acc => Nat.max (S k) acc) 0%nat table.

(** The rows of a table, in some order. *)
Definition rows {A : Type} (table : gmap nat A) : list A :=
  (map_to_list table).*2.

(** The Python literal [0.01], i.e. the double nearest to 1/100:
    [5764607523034235 * 2^-59], a little more than 1/100. *)
Definition float_0_01 : float := S754_finite false 5764607523034235 (-59).

(** [PaymentForm]: the posted fields; a field is [None] when it is
    missing or is not of its type (a date, a finite number).  [notes]
    may be empty and is left out. *)
Record PaymentForm : Type := {
  form_invoice : nat;
  form_payment_date : option Z;
  form_amount : option decimal;
  form_payment_method : string;
  form_reference_number : string
}.

Definition PAYMENT_METHOD_CHOICES : list string :=
  ["CASH"; "BANK_TRANSFER"; "CHEQUE"; "CREDIT_CARD"; "MOBILE_MONEY"].

(** [form.is_valid()].  The invoice is a row of the table; the date is
    required; the amount is a [DecimalField(max_digits=12,
    decimal_places=2)] with [validators=[MinValueValidator(0.01)]], and
    [clean_amount] wants it positive; the method is one of the choices;
    the reference is a required text of at most 100 characters. *)
Definition PaymentForm_is_valid (form : PaymentForm) (db : DB) : bool :=
  bool_decide (is_Some (invoices db !! form_invoice form))
  && bool_decide (is_Some (form_payment_date form))
  && match form_amount form with
     | Some amount =>
       DecimalValidator 12 2 amount && MinValueValidator float_0_01 amount
       && (0 <? dec_coef amount)
     | None => false
     end
  && bool_decide (form_payment_method form ∈ PAYMENT_METHOD_CHOICES)
  && Numbering.required_text (Some 100) (form_reference_number form).

(** [form.instance] of a valid form: a new [Payment]. *)
Definition PaymentForm_instance (form : PaymentForm) : Payment :=
  {| payment_number := ""; invoice := form_invoice form;
     amount := hundredths (default (Dec 0 0) (form_amount form));
     confirmed := false; confirmed_by := None; confirmation_date := None |}.

(** The column [payment_number]. *)
Definition payment_numbers (db : DB) : list string :=
  payment_number <$> rows (payments db).

(** [Payment.save] on a new instance, on the day [today]: the number is
    generated, then the row is inserted under a new key. *)
Definition Payment_insert (today : Z) (self : Payment) (db : DB)
    : result (nat * DB) :=
  do number <-
    Numbering.number_for "PAY" today (payment_number self) (payment_numbers db);
  let self :=
    {| payment_number := number; invoice := invoice self;
       amount := amount self; confirmed := confirmed self;
       confirmed_by := confirmed_by self;
       confirmation_date := confirmation_date self |} in
  Ok (next_pk (payments db),
      {| invoices := invoices db;
         payments := <[next_pk (payments db) := self]> (payments db) |}).

(** [PaymentCreateView.form_valid]; [instance] is [form.instance].  The
    payment is stored unconfirmed and the invoice is charged at once. *)
Definition form_valid (today : Z) (instance : Payment) (db : DB)
    : result Response * DB :=
  match invoices db !! invoice instance with
  | None => (Raise DoesNotExist, db)
  | Some invoice_ =>
    if balance_due invoice_ <? amount instance
    then (Ok (Render "finance/payment_create.html"), db)
    else
      match Payment_insert today instance db with
      | Raise e => (Raise e, db)
      | Ok (_, db1) =>
        let invoice_ :=
          set_amount_paid (amount_paid invoice_ + amount instance) invoice_ in
        let invoice_ :=
          set_balance_due (total_amount invoice_ - amount_paid invoice_) invoice_ in
        let invoice_ :=
          if balance_due invoice_ <=? 0 then set_payment_status "PAID" invoice_
          else if 0 <? amount_paid invoice_
          then set_payment_status "PARTIAL" invoice_
          else invoice_ in
        (Ok (Redirect (Some msg_success) "finance:invoice_detail"),
         {| invoices :=
              Invoice_save today (invoice instance) invoice_ (invoices db1);
            payments := payments db1 |})
      end
  end.

(** [PaymentCreateView] on POST: [LoginRequiredMixin], [test_func]
    (the role methods are called here), the form, [form_valid]. *)
Definition PaymentCreateView_post (request : Request) (form : PaymentForm)
    (db : DB) : result Response * DB :=
  login_required request db (Ok (Redirect None "login")) $
  if negb (is_hce (user request) || is_fsm (user request)
           || is_admin (user request))
  then (Ok Http403, db)
  else if PaymentForm_is_valid form db
  then form_valid (today request) (PaymentForm_instance form) db
  else (Ok (Render "finance/payment_create.html"), db).

(** [queryset.aggregate(total=Sum('balance_due'))['total']]: [None]
    over no row. *)
Definition Sum_balance_due (queryset : list Invoice) : option Z :=
  match queryset with
  | [] => None
  | _ => Some (foldr (fun i acc => balance_due i + acc) 0 queryset)
  end.

(** [total or 0]: [None] and a zero total both give 0. *)
Definition or_0 (total : option Z) : Z :=
  match total with
  | Some t => if t =? 0 then 0 else t
  | None => 0
  end.

(** One entry of the aging report: the invoices whose status is
    ['PENDING'] or ['PARTIAL'] and whose due date passes the test. *)
Definition aging_bucket (due : Z → bool) (invoices : gmap nat Invoice) : Z :=
  or_0 (Sum_balance_due
          (filter (fun i => payment_status i ∈ ["PENDING"; "PARTIAL"]
                            ∧ due (due_date i) = true)
                  (rows invoices))).

Record AgingReport : Type := {
  current : Z;
  days_1_30 : Z;
  days_31_60 : Z;
  days_61_90 : Z;
  over_90 : Z
}.

(** The [aging_report] of [revenue_dashboard]. *)
Definition aging_report (today : Z) (invoices : gmap nat Invoice) : AgingReport :=
  {| current := aging_bucket (fun due => today <=? due) invoices;
     days_1_30 :=
       aging_bucket (fun due => (due <? today) && (today - 30 <=? due)) invoices;
     days_31_60 :=
       aging_bucket (fun due => (due <? today - 30) && (today - 60 <=? due)) invoices;
     days_61_90 :=
       aging_bucket (fun due => (due <? today - 60) && (today - 90 <=? due)) invoices;
     over_90 := aging_bucket (fun due => due <? today - 90) invoices |}.

(** The Python literal [1.15]: [5179139571476070 * 2^-52]. *)
Definition float_1_15 : float := S754_finite false 5179139571476070 (-52).

(** What [InvoiceCreateView.get_initial] adds to the initial values. *)
Record Initial : Type := {
  initial_hire_order : nat;
  initial_invoice_type : string;
  initial_subtotal : pynum;
  initial_tax_amount : pynum;
  initial_total_amount : pynum;
  initial_due_date : Z
}.

Inductive InitialValues : Type :=
| Unchanged
| Updated (values : Initial)
| OrderNotFound.

(** [InvoiceCreateView.get_initial]; [order_id] and [invoice_type] are
    the query parameters, the second with its default ['ADVANCE']. *)
Definition get_initial (settings : HireOrders.PenaltySettings) (today : Z)
    (order_id : option nat) (invoice_type : option string) (db : Hiring.DB)
    : result InitialValues :=
  let invoice_type := default "ADVANCE" invoice_type in
  match order_id with
  | None => Ok Unchanged
  | Some order_id =>
    match Hiring.orders db !! order_id with
    | None => Ok OrderNotFound
    | Some order =>
      do amount <-
        (if bool_decide (invoice_type = "ADVANCE")
         then HireOrders.get_total_amount order db
         else if bool_decide (invoice_type = "FINAL")
         then
           do amount <- HireOrders.get_total_amount order db;
           do penalty <- HireOrders.calculate_late_penalty settings order today;
           add amount penalty
         else Ok (PInt 0));
      do tax_amount <- mul amount (PFloat float_0_15);
      do total_amount <- mul amount (PFloat float_1_15);
      Ok (Updated {| initial_hire_order := order_id;
                     initial_invoice_type := invoice_type;
                     initial_subtotal := amount;
                     initial_tax_amount := tax_amount;
                     initial_total_amount := total_amount;
                     initial_due_date := today + 7 |})
    end
  end.

End Billing.

(** ** [apps/clients/models.py] and [views.py]: sites and the blacklist

    Primary keys of sites are positions in the table; the blacklist has
    a one-to-one column [client] and is keyed by it.  [signals.py] is
    connected only when some module imports it, which none of the
    sources does: whether [log_client_changes] runs is the parameter
    [signals_connected]. *)

Module ClientRecords.
Import Accounts.

Record Client : Type := {
  status : string;
  credit_limit : Z;
  current_balance : Z;
  created_by : nat
}.

Record ClientSite : Type := {
  client : nat;
  site_name : string;
  is_main_site : bool
}.

Record ClientBlacklist : Type := {
  reason : nat;
  blacklisted_by : nat;
  is_active : bool
}.

(** The text columns [old_value] and [new_value]: empty, a status, or
    [str] of an amount. *)
Inductive value : Type :=
| Blank
| Text (s : string)
| Amount (hundredths : Z).

Record ClientHistory : Type := {
  history_client : nat;
  action : string;
  performed_by : nat;
  old_value : value;
  new_value : value
}.

Record DB : Type := {
  clients : gmap nat Client;
  sites : list ClientSite;
  (** the rows of [BlacklistReason] *)
  reasons : gset nat;
  blacklist : gmap nat ClientBlacklist;
  (** in the order of creation *)
  history : list ClientHistory
}.

#[global] Instance value_eq_dec : EqDecision value.
Proof. solve_decision. Defined.

Definition set_status (s : string) (c : Client) : Client :=
  {| status := s; credit_limit := credit_limit c;
     current_balance := current_balance c; created_by := created_by c |}.

Definition with_clients (clients' : gmap nat Client) (db : DB) : DB :=
  {| clients := clients'; sites := sites db; reasons := reasons db;
     blacklist := blacklist db; history := history db |}.

Definition with_sites (sites' : list ClientSite) (db : DB) : DB :=
  {| clients := clients db; sites := sites'; reasons := reasons db;
     blacklist := blacklist db; history := history db |}.

Definition with_blacklist (blacklist' : gmap nat ClientBlacklist) (db : DB) : DB :=
  {| clients := clients db; sites := sites db; reasons := reasons db;
     blacklist := blacklist'; history := history db |}.

(** [ClientHistory.objects.create(...)] *)
Definition ClientHistory_create (entry : ClientHistory) (db : DB) : DB :=
  {| clients := clients db; sites := sites db; reasons := reasons db;
     blacklist := blacklist db; history := history db ++ [entry] |}.

(** The receiver [log_client_changes] of [pre_save]: the instance is
    compared with the stored row. *)
Definition log_client_changes (pk : nat) (instance : Client) (db : DB) : DB :=
  match clients db !! pk with
  | None => db
  | Some old_instance =>
    let db :=
      if bool_decide (status old_instance ≠ status instance)
      then ClientHistory_create
             {| history_client := pk; action := "STATUS_CHANGE";
                performed_by := created_by instance;
                old_value := Text (status old_instance);
                new_value := Text (status instance) |} db
      else db in
    let db :=
      if bool_decide (credit_limit old_instance ≠ credit_limit instance)
      then ClientHistory_create
             {| history_client := pk; action := "CREDIT_LIMIT_CHANGE";
                performed_by := created_by instance;
                old_value := Amount (credit_limit old_instance);
                new_value := Amount (credit_limit instance) |} db
      else db in
    if bool_decide (current_balance old_instance ≠ current_balance instance)
    then ClientHistory_create
           {| history_client := pk; action := "BALANCE_UPDATE";
              performed_by := created_by instance;
              old_value := Amount (current_balance old_instance);
              new_value := Amount (current_balance instance) |} db
    else db
  end.

(** [Client.save()] on a stored client. *)
Definition Client_save (signals_connected : bool) (pk : nat) (self : Client)
    (db : DB) : DB :=
  let db := if signals_connected then log_client_changes pk self db else db in
  with_clients (<[pk := self]> (clients db)) db.

(** The entries that [log_client_changes] adds when only the status of
    the stored client [old] is set to [s]. *)
Definition status_entries (signals_connected : bool) (pk : nat) (old : Client)
    (s : string) : list ClientHistory :=
  if signals_connected && bool_decide (status old ≠ s)
  then [{| history_client := pk; action := "STATUS_CHANGE";
           performed_by := created_by old;
           old_value := Text (status old); new_value := Text s |}]
  else [].

(** [ClientSite.objects.filter(client=..., is_main_site=True)
    .update(is_main_site=False)] *)
Definition clear_main_site (client_pk : nat) (sites : list ClientSite)
    : list ClientSite :=
  (fun s => if bool_decide (client s = client_pk) && is_main_site s
            then {| client := client s; site_name := site_name s;
                    is_main_site := false |}
            else s) <$> sites.

(** [ClientSite.save()] on a new instance: the update runs first, then
    the row is inserted, which [unique_together = ['client',
    'site_name']] refuses for a name that the client already has. *)
Definition ClientSite_save (self : ClientSite) (sites : list ClientSite)
    : result nat * list ClientSite :=
  let sites :=
    if is_main_site self then clear_main_site (client self) sites else sites in
  if existsb (fun s => bool_decide (client s = client self)
                       && bool_decide (site_name s = site_name self)) sites
  then (Raise IntegrityError, sites)
  else (Ok (length sites), sites ++ [self]).

(** The cleaned data of [ClientSiteForm]; the form has no field
    [client], so its validation does not look at [unique_together]. *)
Record ClientSiteForm : Type := {
  form_site_name : string;
  form_is_main_site : bool
}.

(** [AddClientSiteView.post]: [LoginRequiredMixin] only; [form] is
    [None] when the posted data do not validate. *)
Definition AddClientSiteView_post (request : Request) (pk : nat)
    (form : option ClientSiteForm) (db : DB) : result Response * DB :=
  login_required request db (Ok (Redirect None "login")) $
  match clients db !! pk with
  | None => (Ok Http404, db)
  | Some client_ =>
    match form with
    | None => (Ok (Redirect (Some msg_error) "clients:client_detail"), db)
    | Some form =>
      let site := {| client := pk; site_name := form_site_name form;
                     is_main_site := form_is_main_site form |} in
      match ClientSite_save site (sites db) with
      | (Raise e, sites') => (Raise e, with_sites sites' db)
      | (Ok _, sites') =>
        (Ok (Redirect (Some msg_success) "clients:client_detail"),
         ClientHistory_create
           {| history_client := pk; action := "SITE_ADDED";
              performed_by := user_id (user request);
              old_value := Blank; new_value := Blank |}
           (with_sites sites' db))
      end
    end
  end.

(** The main sites of a client. *)
Definition main_sites (client_pk : nat) (sites : list ClientSite)
    : list ClientSite :=
  filter (fun s => client s = client_pk ∧ is_main_site s = true) sites.

(** [ClientBlacklist.save()] on a new entry of the client [client_pk],
    whose instance in memory is [client_]: the entry's [client] is that
    very object, so the status set here is the one its holder reads
    afterwards, and the function returns it.  The insert is refused when
    the client has an entry already. *)
Definition ClientBlacklist_save (signals_connected : bool) (client_pk : nat)
    (client_ : Client) (self : ClientBlacklist) (db : DB)
    : result Client * DB :=
  let '(client_, db) :=
    if is_active self
    then let client_ := set_status "BLACKLISTED" client_ in
         (client_, Client_save signals_connected client_pk client_ db)
    else (client_, db) in
  match blacklist db !! client_pk with
  | Some _ => (Raise IntegrityError, db)
  | None => (Ok client_, with_blacklist (<[client_pk := self]> (blacklist db)) db)
  end.

(** [BlacklistClientView.post]; [reason] is the posted choice, valid
    when it is a row of [BlacklistReason]. *)
Definition BlacklistClientView_post (signals_connected : bool)
    (request : Request) (pk : nat) (reason : option nat) (db : DB)
    : result Response * DB :=
  login_required request db (Ok (Redirect None "login")) $
  if negb (is_admin (user request) || is_fsm (user request))
  then (Ok Http403, db)
  else
    match clients db !! pk with
    | None => (Ok Http404, db)
    | Some client_ =>
      match reason with
      | Some reason_pk =>
        if bool_decide (reason_pk ∈ reasons db)
        then
          let blacklist_entry :=
            {| reason := reason_pk; blacklisted_by := user_id (user request);
               is_active := true |} in
          match ClientBlacklist_save signals_connected pk client_
                  blacklist_entry db with
          | (Raise e, db') => (Raise e, db')
          | (Ok client_, db') =>
            (Ok (Redirect (Some msg_success) "clients:client_detail"),
             ClientHistory_create
               {| history_client := pk; action := "STATUS_CHANGE";
                  performed_by := user_id (user request);
                  old_value := Text (status client_);
                  new_value := Text "BLACKLISTED" |} db')
          end
        else (Ok (Render "clients/blacklist_form.html"), db)
      | None => (Ok (Render "clients/blacklist_form.html"), db)
      end
    end.

(** [RemoveFromBlacklistView.post] *)
Definition RemoveFromBlacklistView_post (signals_connected : bool)
    (request : Request) (pk : nat) (db : DB) : result Response * DB :=
  login_required request db (Ok (Redirect None "login")) $
  if negb (is_admin (user request))
  then (Ok Http403, db)
  else
    match clients db !! pk with
    | None => (Ok Http404, db)
    | Some client_ =>
      let db :=
        match blacklist db !! pk with
        | Some _ => with_blacklist (delete pk (blacklist db)) db
        | None => db
        end in
      let client_ := set_status "ACTIVE" client_ in
      let db := Client_save signals_connected pk client_ db in
      (Ok (Redirect (Some msg_success) "clients:client_detail"),
       ClientHistory_create
         {| history_client := pk; action := "STATUS_CHANGE";
            performed_by := user_id (user request);
            old_value := Text "BLACKLISTED"; new_value := Text "ACTIVE" |} db)
    end.

End ClientRecords.

(** ** [apps/delivery/views.py]: signing a delivery note

    The note carries its four signature dates here; primary keys are
    positions in the table. *)

Module Signing.

Record DeliveryNote : Type := {
  delivery : nat;
  signed_by_driver : bool;
  signed_by_scaffolder : bool;
  signed_by_security : bool;
  signed_by_client : bool;
  driver_signature_date : option Z;
  scaffolder_signature_date : option Z;
  security_signature_date : option Z;
  client_signature_date : option Z
}.

(** [DeliveryNote.is_fully_signed()] *)
Definition is_fully_signed (self : DeliveryNote) : bool :=
  signed_by_driver self && signed_by_scaffolder self && signed_by_security self.

(** [sign_delivery_note(request, pk, role)].  The view has no
    decorator and does not look at [request.user] or at the method;
    [role] is the text of the URL; [timezone.now()] is taken to the
    day. *)
Definition sign_delivery_note (request : Request) (pk : nat) (role : string)
    (delivery_notes : list DeliveryNote) : Response * list DeliveryNote :=
  match delivery_notes !! pk with
  | None => (Http404, delivery_notes)
  | Some delivery_note =>
    let now := Some (today request) in
    let delivery_note :=
      if bool_decide (role = "driver") then
        {| delivery := delivery delivery_note;
           signed_by_driver := true;
           signed_by_scaffolder := signed_by_scaffolder delivery_note;
           signed_by_security := signed_by_security delivery_note;
           signed_by_client := signed_by_client delivery_note;
           driver_signature_date := now;
           scaffolder_signature_date := scaffolder_signature_date delivery_note;
           security_signature_date := security_signature_date delivery_note;
           client_signature_date := client_signature_date delivery_note |}
      else if bool_decide (role = "scaffolder") then
        {| delivery := delivery delivery_note;
           signed_by_driver := signed_by_driver delivery_note;
           signed_by_scaffolder := true;
           signed_by_security := signed_by_security delivery_note;
           signed_by_client := signed_by_client delivery_note;
           driver_signature_date := driver_signature_date delivery_note;
           scaffolder_signature_date := now;
           security_signature_date := security_signature_date delivery_note;
           client_signature_date := client_signature_date delivery_note |}
      else if bool_decide (role = "security") then
        {| delivery := delivery delivery_note;
           signed_by_driver := signed_by_driver delivery_note;
           signed_by_scaffolder := signed_by_scaffolder delivery_note;
           signed_by_security := true;
           signed_by_client := signed_by_client delivery_note;
           driver_signature_date := driver_signature_date delivery_note;
           scaffolder_signature_date := scaffolder_signature_date delivery_note;
           security_signature_date := now;
           client_signature_date := client_signature_date delivery_note |}
      else if bool_decide (role = "client") then
        {| delivery := delivery delivery_note;
           signed_by_driver := signed_by_driver delivery_note;
           signed_by_scaffolder := signed_by_scaffolder delivery_note;
           signed_by_security := signed_by_security delivery_note;
           signed_by_client := true;
           driver_signature_date := driver_signature_date delivery_note;
           scaffolder_signature_date := scaffolder_signature_date delivery_note;
           security_signature_date := security_signature_date delivery_note;
           client_signature_date := now |}
      else delivery_note in
    (Redirect (Some msg_success) "delivery:delivery_note_detail",
     <[pk := delivery_note]> delivery_notes)
  end.

(** The requests [sign_delivery_note(request, pk, role)] of a list, one
    after the other: the answers and the table at the end. *)
Fixpoint sign_each (steps : list (Request * string)) (pk : nat)
    (delivery_notes : list DeliveryNote) : list Response * list DeliveryNote :=
  match steps with
  | [] => ([], delivery_notes)
  | (request, role) :: steps =>
    let '(response, delivery_notes) :=
      sign_delivery_note request pk role delivery_notes in
    let '(responses, delivery_notes) := sign_each steps pk delivery_notes in
    (response :: responses, delivery_notes)
  end.

End Signing.

(** ** [apps/inventory/views.py] and [forms.py]: creating and editing a
    material *)

Module Materials.
Import Accounts.
Export Inventory.

(** [MaterialForm]: the two quantities among its fields, and whether
    the rest of the posted data passes (the other fields, the unique
    code, the range of the integer columns). *)
Record MaterialForm : Type := {
  form_total_quantity : Z;
  form_minimum_stock_level : Z;
  rest_is_valid : bool
}.

(** [form.is_valid()]: [MinValueValidator(0)] and the two [clean_]
    methods refuse negative quantities. *)
Definition MaterialForm_is_valid (form : MaterialForm) : bool :=
  (0 <=? form_total_quantity form) && (0 <=? form_minimum_stock_level form)
  && rest_is_valid form.

Definition set_minimum (v : Z) (m : Material) : Material :=
  {| total_quantity := total_quantity m;
     available_quantity := available_quantity m;
     hired_quantity := hired_quantity m; minimum_stock_level := v |}.

(** [material_update(request, pk)]: the form writes its fields to the
    instance, [available_quantity] and [hired_quantity] are not among
    them. *)
Definition material_update (request : Request) (pk : nat) (form : MaterialForm)
    (materials : gmap nat Material) : Response * gmap nat Material :=
  login_required request materials (Redirect None "login") $
  if negb (attribute_truth is_fsm (user request))
     && negb (attribute_truth is_admin (user request))
  then (Redirect (Some msg_error) "inventory:material_list", materials)
  else
    match materials !! pk with
    | None => (Http404, materials)
    | Some material =>
      match method request with
      | POST =>
        if MaterialForm_is_valid form then
          let material :=
            set_minimum (form_minimum_stock_level form)
              (set_total (form_total_quantity form) material) in
          (Redirect (Some msg_success) "inventory:material_detail",
           Material_save pk material materials)
        else (Render "inventory/material_form.html", materials)
      | GET => (Render "inventory/material_form.html", materials)
      end
    end.

(** An instance that the form has built and that is not stored yet.
    [available_quantity] has no default and is not a field of the
    form: it is [None] on such an instance. *)
Record NewMaterial : Type := {
  new_total_quantity : Z;
  new_available_quantity : option Z;
  new_hired_quantity : Z;
  new_minimum_stock_level : Z
}.

(** [Material.save()] on a new instance.  The comparison
    [self.available_quantity > self.total_quantity] raises [TypeError]
    when the left side is [None]. *)
Definition NewMaterial_save (self : NewMaterial) (materials : gmap nat Material)
    : result (nat * gmap nat Material) :=
  match new_available_quantity self with
  | None => Raise TypeError
  | Some available =>
    let pk := Billing.next_pk materials in
    Ok (pk,
        Material_save pk
          {| total_quantity := new_total_quantity self;
             available_quantity := available;
             hired_quantity := new_hired_quantity self;
             minimum_stock_level := new_minimum_stock_level self |}
          materials)
  end.

(** [material_create(request)] *)
Definition material_create (request : Request) (form : MaterialForm)
    (materials : gmap nat Material) : result Response * gmap nat Material :=
  login_required request materials (Ok (Redirect None "login")) $
  if negb (attribute_truth is_fsm (user request))
     && negb (attribute_truth is_admin (user request))
  then (Ok (Redirect (Some msg_error) "inventory:material_list"), materials)
  else
    match method request with
    | POST =>
      if MaterialForm_is_valid form then
        let material :=
          {| new_total_quantity := form_total_quantity form;
             new_available_quantity := None;
             new_hired_quantity := 0;
             new_minimum_stock_level := form_minimum_stock_level form |} in
        match NewMaterial_save material materials with
        | Raise e => (Raise e, materials)
        | Ok (pk, materials') =>
          (Ok (Redirect (Some msg_success) "inventory:material_detail"),
           materials')
        end
      else (Ok (Render "inventory/material_form.html"), materials)
    | GET => (Ok (Render "inventory/material_form.html"), materials)
    end.

End Materials.

(** ** Further concrete states used by the examples *)

Module Cases.
Import Accounts PyNum Hiring HiringViews Scenarios.

(** An accepted quotation with two lines on the same material, no order
    yet. *)
Definition two_lines (m : Material) (q1 q2 : Z) : DB :=
  {| materials := {[ 1%nat := m ]};
     quotations := {[ 1%nat := example_quotation ]};
     quotation_items :=
       [{| qi_quotation := 1; qi_material := 1; quantity := q1;
           daily_rate := Dec 500 (-2); duration_days := 30;
           line_total := Dec (15000 * q1) (-2) |};
        {| qi_quotation := 1; qi_material := 1; quantity := q2;
           daily_rate := Dec 500 (-2); duration_days := 30;
           line_total := Dec (15000 * q2) (-2) |}];
     orders := []; order_items := [] |}.

(** A stored quotation still in DRAFT, with the line of the worked
    example. *)
Definition draft_quotation : DB :=
  {| materials := {[ 1%nat := stock 100 100 0 ]};
     quotations := {[ 1%nat := set_q_status "DRAFT" example_quotation ]};
     quotation_items := [example_item]; orders := []; order_items := [] |}.

(** The order 0 with its lease, before any signature; the same order
    without a lease, and with the lease as [create_lease_agreement]
    stores it for the FSM on day 20000. *)
Definition lease_of_order_0 : Leases.LeaseAgreement :=
  {| Leases.agreement_number := "LA-2024-0001";
     Leases.hire_order := 0; Leases.client := 1; Leases.start_date := 20000;
     Leases.end_date := 20030; Leases.hire_duration_days := 30;
     Leases.late_return_penalty_per_day := Dec 5000 (-2);
     Leases.signed_by_client := false; Leases.client_signature_date := None;
     Leases.signed_by_fsm := None; Leases.fsm_signature_date := None;
     Leases.status := "DRAFT" |}.

Definition unsigned_lease : Leases.DB :=
  {| Leases.orders := [order_in "APPROVED"]; Leases.leases := [lease_of_order_0] |}.

Definition no_lease : Leases.DB :=
  {| Leases.orders := [order_in "APPROVED"]; Leases.leases := [] |}.

Definition lease_form : Leases.LeaseAgreementForm :=
  {| Leases.form_late_return_penalty_per_day := Some (Dec 5000 (-2));
     Leases.form_damage_assessment_policy := "assessed at replacement cost";
     Leases.form_terms_and_conditions := "terms of hire" |}.

Definition unsigned_by_client : Leases.DB :=
  {| Leases.orders := [order_in "APPROVED"];
     Leases.leases :=
       [Leases.set_signed_by_fsm 2 20000 lease_of_order_0] |}.

(** The invoice of 17825.00 after a first payment of 5000.00 was
    recorded through the form, and not confirmed. *)
Definition first_payment_recorded : Finance.DB :=
  {| Finance.invoices :=
       {[ 7%nat := {| Finance.due_date := 20030; Finance.total_amount := 1782500;
                      Finance.amount_paid := 500000; Finance.balance_due := 1282500;
                      Finance.payment_status := "PARTIAL" |} ]};
     Finance.payments := {[ 3%nat := payment_5000 ]} |}.

(** The same invoice with two payments recorded, 5000.00 and
    12825.00. *)
Definition payment_12825 : Finance.Payment :=
  {| Finance.payment_number := "PAY-2024-0002";
     Finance.invoice := 7; Finance.amount := 1282500; Finance.confirmed := false;
     Finance.confirmed_by := None; Finance.confirmation_date := None |}.

Definition two_payments : Finance.DB :=
  {| Finance.invoices :=
       {[ 7%nat := {| Finance.due_date := 20030; Finance.total_amount := 1782500;
                      Finance.amount_paid := 1782500; Finance.balance_due := 0;
                      Finance.payment_status := "PAID" |} ]};
     Finance.payments := <[ 4%nat := payment_12825 ]> {[ 3%nat := payment_5000 ]} |}.

(** The payment form for invoice 7, filled in for an amount given in
    hundredths. *)
Definition payment_form (amount : Z) : Billing.PaymentForm :=
  {| Billing.form_invoice := 7; Billing.form_payment_date := Some 20000;
     Billing.form_amount := Some (Dec amount (-2));
     Billing.form_payment_method := "BANK_TRANSFER";
     Billing.form_reference_number := "TRF-0042" |}.

(** An administrator. *)
Definition admin : User :=
  {| user_id := 3; role := "ADMIN"; is_authenticated := true |}.

(** A suspended client with two sites, the yard being the main one. *)
Definition suspended : ClientRecords.Client :=
  {| ClientRecords.status := "SUSPENDED"; ClientRecords.credit_limit := 1000000;
     ClientRecords.current_balance := 250000; ClientRecords.created_by := 1 |}.

Definition two_sites : ClientRecords.DB :=
  {| ClientRecords.clients := {[ 1%nat := suspended ]};
     ClientRecords.sites :=
       [{| ClientRecords.client := 1; ClientRecords.site_name := "Yard";
           ClientRecords.is_main_site := true |};
        {| ClientRecords.client := 1; ClientRecords.site_name := "Office";
           ClientRecords.is_main_site := false |}];
     ClientRecords.reasons := {[ 4%nat ]};
     ClientRecords.blacklist := ∅;
     ClientRecords.history := [] |}.

Definition new_main_site : ClientRecords.ClientSiteForm :=
  {| ClientRecords.form_site_name := "Depot";
     ClientRecords.form_is_main_site := true |}.

(** The same client with an entry in the blacklist, suspended again
    through the client form. *)
Definition reactivated_client : ClientRecords.DB :=
  {| ClientRecords.clients := {[ 1%nat := suspended ]};
     ClientRecords.sites := [];
     ClientRecords.reasons := {[ 4%nat ]};
     ClientRecords.blacklist :=
       {[ 1%nat := {| ClientRecords.reason := 4; ClientRecords.blacklisted_by := 2;
                      ClientRecords.is_active := true |} ]};
     ClientRecords.history := [] |}.

(** A visitor who is not logged in, and a GET request. *)
Definition visitor : User :=
  {| user_id := 0; role := ""; is_authenticated := false |}.

Definition get (u : User) : Request :=
  {| user := u; method := GET; today := 20000 |}.

(** A delivery note without signatures. *)
Definition unsigned_note : Signing.DeliveryNote :=
  {| Signing.delivery := 0; Signing.signed_by_driver := false;
     Signing.signed_by_scaffolder := false; Signing.signed_by_security := false;
     Signing.signed_by_client := false; Signing.driver_signature_date := None;
     Signing.scaffolder_signature_date := None;
     Signing.security_signature_date := None;
     Signing.client_signature_date := None |}.

(** A form that raises the total of a material to 150 and one that
    lowers it to 50. *)
Definition total_form (total : Z) : Materials.MaterialForm :=
  {| Materials.form_total_quantity := total;
     Materials.form_minimum_stock_level := 10;
     Materials.rest_is_valid := true |}.

End Cases.

(** * Properties *)

(** A closed decidable statement, settled by evaluation. *)
Ltac closed_decision :=
  match goal with
  | |- ?P => apply (bool_decide_unpack P); vm_compute; exact I
  end.

(** Case analysis on a decimal digit. *)
Ltac digit_cases a :=
  let H := fresh in
  assert (a = 0 ∨ a = 1 ∨ a = 2 ∨ a = 3 ∨ a = 4 ∨ a = 5 ∨ a = 6 ∨ a = 7
          ∨ a = 8 ∨ a = 9) as H by lia;
  destruct H as [->|[->|[->|[->|[->|[->|[->|[->|[->| ->]]]]]]]]].

(** Linear arithmetic with quotients and remainders by constants. *)
Ltac div_lia := Z.to_euclidean_division_equations; lia.

(** ** Quotation totals *)

Section QuotationTotals.
Import PyNum Hiring Scenarios.

Lemma sum_from_decimal (d : decimal) (items : list QuotationItem) :
  ∃ d', sum_from (PDecimal d) (map (fun item => PDecimal (line_total item)) items)
        = Ok (PDecimal d').
Proof.
  revert d. induction items as [|item items IH]; intros d; simpl.
  - by exists d.
  - apply IH.
Qed.

(** The sum of the line totals is an [int] (no line) or a [Decimal]. *)
Lemma sum_line_totals (items : list QuotationItem) :
  sum (map (fun item => PDecimal (line_total item)) items) = Ok (PInt 0)
  ∨ ∃ d, sum (map (fun item => PDecimal (line_total item)) items)
         = Ok (PDecimal d).
Proof.
  destruct items as [|item items]; [by left|right].
  unfold sum. simpl. apply sum_from_decimal.
Qed.

(** Whenever the subtotal is a [Decimal] (there is a line, or the
    transport cost is a [Decimal]) the multiplication by the [float]
    rate raises [TypeError]. *)
Lemma calculate_totals_raises settings self items :
  items ≠ [] ∨ (∃ d, transport_cost self = PDecimal d) →
  calculate_totals settings self items = Raise TypeError.
Proof.
  intros H. unfold calculate_totals.
  destruct (sum_line_totals items) as [Hs|[d Hs]].
  - destruct H as [H|[d Hd]].
    + destruct items; [done|]. unfold sum in Hs. simpl in Hs.
      destruct (sum_from_decimal
                  (dec_add (dec_of_int 0) (line_total q)) items) as [d' Hd'].
      rewrite Hd' in Hs. discriminate.
    + rewrite Hs, Hd. reflexivity.
  - rewrite Hs. simpl.
    destruct (transport_cost self) as [z|d'|f]; reflexivity.
Qed.

(** C4.  [QuotationItem.save] gives the line of the worked example
    (100 units, 5.00 a day, 30 days) the total 15000.00, but
    [calculate_totals] does not reach subtotal 15500, tax 2325 and
    total 17825: the subtotal is a [Decimal], the tax rate a [float],
    and their product raises [TypeError], whatever [float] the settings
    give. *)
Theorem calculate_totals_worked_example :
  line_total example_item = Dec 1500000 (-2)
  ∧ calculate_totals default_settings example_quotation [example_item]
    = Raise TypeError
  ∧ ∀ rate, calculate_totals {| TAX_RATE := Some rate |} example_quotation
              [example_item] = Raise TypeError.
Proof.
  split; [reflexivity|]. split; [reflexivity|].
  intros rate. apply calculate_totals_raises. by left.
Qed.

(** The figures of the specification are those of its formulas
    evaluated on [Decimal]s with the rate [Decimal('0.15')]:
    15500.00, 2325.0000 and 17825.0000. *)
Lemma spec_totals_worked_example :
  Spec.spec_totals (Dec 15 (-2)) [line_total example_item] (Dec 50000 (-2))
  = (Dec 1550000 (-2), Dec 23250000 (-4), Dec 178250000 (-4)).
Proof. reflexivity. Qed.

(** The method does return when nothing is a [Decimal]: a fresh
    instance without lines gets the [float] totals 0.0. *)
Lemma calculate_totals_blank :
  calculate_totals default_settings blank_quotation []
  = Ok (set_totals (PInt 0) (PFloat (S754_zero false))
          (PFloat (S754_zero false)) blank_quotation).
Proof. reflexivity. Qed.

End QuotationTotals.

(** ** Order status changes *)

Section OrderStatus.
Import Accounts Hiring HiringViews Scenarios.

(** The table, row by row; a status that is no key has no successor. *)
Lemma valid_transitions_table :
  valid_transitions !! "ORDERED" = Some ["APPROVED"; "CANCELLED"]
  ∧ valid_transitions !! "APPROVED" = Some ["DISPATCHED"; "CANCELLED"]
  ∧ valid_transitions !! "DISPATCHED" = Some ["ACTIVE"]
  ∧ valid_transitions !! "ACTIVE" = Some ["RETURNED"]
  ∧ valid_transitions !! "RETURNED" = Some ["COMPLETED"]
  ∧ ∀ s, s ∉ ["ORDERED"; "APPROVED"; "DISPATCHED"; "ACTIVE"; "RETURNED"] →
         valid_transitions !! s = None.
Proof.
  repeat split; try reflexivity.
  intros s Hs. unfold valid_transitions.
  repeat (rewrite lookup_insert_ne; [|intros <-; apply Hs; set_solver]).
  done.
Qed.

(** A target that the table does not list for the stored status: the
    answer is the redirect to the login page for an anonymous request
    and the error message otherwise, and nothing is written. *)
Lemma order_update_status_rejects request pk new_status db order :
  orders db !! pk = Some order →
  new_status ∉ default [] (valid_transitions !! status order) →
  order_update_status request pk new_status db
  = (Ok (if is_authenticated (user request)
         then Redirect (Some msg_error) "hiring:order_detail"
         else Redirect None "login"), db).
Proof.
  intros Hpk Hnot. unfold order_update_status, login_required.
  destruct (is_authenticated (user request)); [|reflexivity].
  simpl. rewrite Hpk.
  rewrite bool_decide_eq_false_2; done.
Qed.

(** What a request to [order_update_status] can do to the status of a
    stored order: leave it, or set it to a status that the table lists
    for the stored one.  No order is removed. *)
Lemma order_update_status_follows_table request pk new_status db k order :
  orders db !! k = Some order →
  ∃ order',
    orders (snd (order_update_status request pk new_status db)) !! k
    = Some order'
    ∧ (status order' = status order
       ∨ status order' ∈ default [] (valid_transitions !! status order)).
Proof.
  intros Hk.
  assert (∀ materials' order1,
             (k = pk →
              status order1 ∈ default [] (valid_transitions !! status order)) →
             ∃ order',
               orders (HireOrder_update pk order1 (with_materials materials' db))
               !! k = Some order'
               ∧ (status order' = status order
                  ∨ status order'
                    ∈ default [] (valid_transitions !! status order)))
    as Hupdate.
  { intros materials' order1 Hin.
    unfold HireOrder_update, with_orders, with_materials. cbn [orders].
    destruct (decide (k = pk)) as [->|Hne].
    - exists order1. split.
      + apply list_lookup_insert_eq. by eapply lookup_lt_Some.
      + right. by apply Hin.
    - exists order. split; [|by left].
      rewrite list_lookup_insert_ne by congruence. exact Hk. }
  unfold order_update_status, login_required, attribute_truth.
  destruct (is_authenticated (user request)); [|by exists order; auto].
  cbn [negb andb].
  destruct (orders db !! pk) as [current|] eqn:Hpk; [|by exists order; auto].
  cbv zeta.
  case_bool_decide as Hin; cbn [negb]; [|by exists order; auto].
  assert (k = pk →
          new_status ∈ default [] (valid_transitions !! status order))
    as Hin'.
  { intros ->. rewrite Hk in Hpk. by injection Hpk as ->. }
  case_bool_decide as Hreturned.
  { destruct (for_each_material _ _ _ _) as [[?|e] materials'];
      cbn [snd].
    - by apply Hupdate.
    - exists order. by split; [|left]. }
  case_bool_decide as Hcompleted.
  { destruct (for_each_material _ _ _ _) as [[?|e] materials'];
      cbn [snd].
    - by apply Hupdate.
    - exists order. by split; [|left]. }
  cbn [snd].
  destruct (Hupdate (materials db) (set_status new_status current) Hin')
    as (order' & Horder' & Hstatus).
  exists order'. split; [|done].
  rewrite <- Horder'. by destruct db.
Qed.

(** The action [dispatch] of [HireOrderViewSet] stands in the place of
    the method that hands a request to its handler, so every request to
    the view set ends in [get_object] on the plain request: nothing is
    read or written. *)
Lemma HireOrderViewSet_raises request action pk db :
  Api.HireOrderViewSet request action pk db = (Raise AttributeError, db).
Proof. reflexivity. Qed.

(** C2.  The status of an order is assigned in [order_update_status] and
    in the actions [dispatch] and [return_order] of the API's
    [HireOrderViewSet], and nowhere else.  For every stored order and
    every request: [order_update_status] leaves the whole database as it
    was when the target is not listed in the table for the stored
    status, and answers a logged-in user with the error message (a
    visitor is sent to the login page); whatever the target, the status
    of every stored order is afterwards the stored one or one that the
    table lists for it; a request to the view set, whatever its route,
    ends in an exception before anything is read, and changes nothing.
    In particular an order that is ORDERED is not DISPATCHED after any
    such request. *)
Theorem order_status_change_paths request pk new_status action api_pk db k
    order :
  orders db !! k = Some order →
  let web := order_update_status request pk new_status db in
  let api := Api.HireOrderViewSet request action api_pk db in
  (k = pk →
   new_status ∉ default [] (valid_transitions !! status order) →
   snd web = db
   ∧ (is_authenticated (user request) = true →
      fst web = Ok (Redirect (Some msg_error) "hiring:order_detail"))
   ∧ (is_authenticated (user request) = false →
      fst web = Ok (Redirect None "login")))
  ∧ (∃ order',
        orders (snd web) !! k = Some order'
        ∧ (status order' = status order
           ∨ status order' ∈ default [] (valid_transitions !! status order)))
  ∧ api = (Raise AttributeError, db)
  ∧ (status order = "ORDERED" →
     status <$> orders (snd web) !! k ≠ Some "DISPATCHED"
     ∧ status <$> orders (snd api) !! k ≠ Some "DISPATCHED").
Proof.
  intros Hk web api. subst web api.
  split; [|split; [|split]].
  - intros -> Hnot.
    rewrite (order_update_status_rejects _ _ _ _ order Hk Hnot). cbn [fst snd].
    split; [reflexivity|]. split; intros ->; reflexivity.
  - by apply order_update_status_follows_table.
  - apply HireOrderViewSet_raises.
  - intros Hordered. split.
    + destruct (order_update_status_follows_table request pk new_status db
                  k order Hk) as (order' & -> & Hstatus).
      cbn. intros [= Hdispatched].
      rewrite Hdispatched, Hordered in Hstatus.
      destruct valid_transitions_table as [Hrow _].
      rewrite Hrow in Hstatus. cbn in Hstatus.
      destruct Hstatus as [?|Hin]; [discriminate|].
      revert Hin. closed_decision.
    + rewrite HireOrderViewSet_raises. cbn [snd]. rewrite Hk. cbn.
      rewrite Hordered. discriminate.
Qed.

Lemma order_status_change_paths_witness :
  let db := one_order (stock 100 60 40) "ORDERED" (order_line 40 0 0) in
  let web := order_update_status (post hce) 0 "DISPATCHED" db in
  let api := Api.HireOrderViewSet (post hce) "dispatch" (Some 0%nat) db in
  (0%nat = 0%nat →
   "DISPATCHED" ∉ default [] (valid_transitions !! status (order_in "ORDERED")) →
   snd web = db
   ∧ (is_authenticated (user (post hce)) = true →
      fst web = Ok (Redirect (Some msg_error) "hiring:order_detail"))
   ∧ (is_authenticated (user (post hce)) = false →
      fst web = Ok (Redirect None "login")))
  ∧ (∃ order',
        orders (snd web) !! 0%nat = Some order'
        ∧ (status order' = status (order_in "ORDERED")
           ∨ status order'
             ∈ default [] (valid_transitions !! status (order_in "ORDERED"))))
  ∧ api = (Raise AttributeError, db)
  ∧ (status (order_in "ORDERED") = "ORDERED" →
     status <$> orders (snd web) !! 0%nat ≠ Some "DISPATCHED"
     ∧ status <$> orders (snd api) !! 0%nat ≠ Some "DISPATCHED").
Proof.
  exact (order_status_change_paths (post hce) 0 "DISPATCHED" "dispatch"
           (Some 0%nat)
           (one_order (stock 100 60 40) "ORDERED" (order_line 40 0 0))
           0 (order_in "ORDERED") eq_refl).
Defined.

End OrderStatus.

(** ** Credit notes *)

Section CreditNotes.
Import Clients Scenarios.

(** C5, as stated, fails: nothing in [apply_to_invoice] looks at the
    note's status.  The 200.00 note brings the balance from 1000.00 to
    800.00; applied again, already APPLIED, it is accepted again and the
    balance drops to 600.00. *)
Lemma credit_note_applied_twice :
  fst first_application = Ok applied_note_200
  ∧ current_balance <$> (clients (snd first_application) !! 1%nat) = Some 80000
  ∧ status applied_note_200 = "APPLIED"
  ∧ (∃ note, fst second_application = Ok note)
  ∧ current_balance <$> (clients (snd second_application) !! 1%nat) = Some 60000.
Proof.
  repeat split; try by vm_compute.
  eexists. by vm_compute.
Qed.

(** C5, amended.  [apply_to_invoice] on a stored note whose client
    exists always returns: whatever the status before (DRAFT, ISSUED,
    APPLIED or CANCELLED) the note is stored as APPLIED with the invoice,
    the date and the user, and the client's balance is decreased by the
    note's amount, every time. *)
Theorem apply_to_invoice_unguarded today pk self invoice user db c :
  clients db !! client self = Some c →
  ∃ self' db',
    apply_to_invoice today pk self invoice user db = (Ok self', db')
    ∧ status self' = "APPLIED"
    ∧ applied_to_invoice self' = Some invoice
    ∧ applied_date self' = Some today
    ∧ applied_by self' = Some user
    ∧ amount self' = amount self
    ∧ credit_notes db' !! pk = Some self'
    ∧ current_balance <$> (clients db' !! client self)
      = Some (current_balance c - amount self).
Proof.
  intros Hc. unfold apply_to_invoice. simpl. rewrite Hc.
  eexists _, _. split; [reflexivity|]. simpl.
  repeat split.
  - by rewrite lookup_insert_eq.
  - unfold update_balance. by rewrite lookup_insert_eq.
Qed.

Lemma apply_to_invoice_unguarded_witness :
  ∃ self' db',
    apply_to_invoice 20001 1 applied_note_200 7 2 (snd first_application)
    = (Ok self', db')
    ∧ status self' = "APPLIED"
    ∧ applied_to_invoice self' = Some 7%nat
    ∧ applied_date self' = Some 20001
    ∧ applied_by self' = Some 2%nat
    ∧ amount self' = amount applied_note_200
    ∧ credit_notes db' !! 1%nat = Some self'
    ∧ current_balance <$> (clients db' !! client applied_note_200)
      = Some (80000 - amount applied_note_200).
Proof.
  apply (apply_to_invoice_unguarded 20001 1 applied_note_200 7 2
           (snd first_application)
           {| credit_limit := 500000; current_balance := 80000 |}).
  reflexivity.
Defined.

(** The view that calls the method has no guard either: posted twice
    for the same note, it applies it twice. *)
Lemma apply_view_twice :
  current_balance <$>
    (clients
       (snd (ApplyCreditNoteView_post (post fsm) 1 (Some 7%nat)
          (snd (ApplyCreditNoteView_post (post fsm) 1 (Some 7%nat)
                  client_owing_1000)))) !! 1%nat)
  = Some 60000.
Proof. by vm_compute. Qed.

End CreditNotes.

(** ** Payment confirmation *)

Section PaymentConfirmation.
Import Finance Scenarios.

Lemma total_confirmed_empty i : total_confirmed i ∅ = 0.
Proof. reflexivity. Qed.

Lemma total_confirmed_fresh i k p (m : gmap nat Payment) :
  m !! k = None →
  total_confirmed i (<[k := p]> m)
  = if confirmed p && bool_decide (invoice p = i)
    then total_confirmed i m + amount p
    else total_confirmed i m.
Proof.
  intros Hk. unfold total_confirmed.
  rewrite map_fold_insert_L; [done| |done].
  intros j1 j2 z1 z2 y _ _ _.
  destruct (confirmed z1 && bool_decide (invoice z1 = i)),
           (confirmed z2 && bool_decide (invoice z2 = i)); lia.
Qed.

(** Writing a row replaces what the key held. *)
Lemma total_confirmed_insert i k p (m : gmap nat Payment) :
  total_confirmed i (<[k := p]> m)
  = if confirmed p && bool_decide (invoice p = i)
    then total_confirmed i (delete k m) + amount p
    else total_confirmed i (delete k m).
Proof.
  rewrite <- (insert_delete_eq m k p).
  apply total_confirmed_fresh, lookup_delete_eq.
Qed.

Lemma total_confirmed_nonneg i (m : gmap nat Payment) :
  (∀ k p, m !! k = Some p → 0 <= amount p) →
  0 <= total_confirmed i m.
Proof.
  induction m as [|k p m Hk IH] using map_ind; intros Hm.
  - by rewrite total_confirmed_empty.
  - rewrite total_confirmed_fresh by done.
    assert (0 <= amount p) by (apply (Hm k); by rewrite lookup_insert_eq).
    assert (0 <= total_confirmed i m).
    { apply IH. intros k' p' Hk'. apply (Hm k').
      rewrite lookup_insert_ne; [done|]. intros ->. congruence. }
    destruct (confirmed p && bool_decide (invoice p = i)); lia.
Qed.

(** The loop of [confirm_payment] adds up what the specification asks
    for. *)
Lemma total_confirmed_is_sum i (m : gmap nat Payment) :
  total_confirmed i m = Spec.sum_of_confirmed_payments i m.
Proof.
  unfold total_confirmed, Spec.sum_of_confirmed_payments.
  rewrite map_fold_foldr.
  induction (map_to_list m) as [|[k p] l IH]; [reflexivity|].
  cbn [foldr uncurry fmap list_fmap snd]. rewrite IH. clear IH.
  rewrite filter_cons.
  destruct (decide (confirmed p = true ∧ invoice p = i)) as [[Hc Hi]|Hno].
  - rewrite Hc, bool_decide_eq_true_2 by done. cbn. lia.
  - destruct (confirmed p) eqn:Hc; [|reflexivity].
    rewrite bool_decide_eq_false_2; [reflexivity|]. intros Hi. by apply Hno.
Qed.

Lemma confirm_payment_total now now' self user user' pk (m : gmap nat Payment) :
  total_confirmed (invoice self)
    (<[pk := confirmed_instance now' (confirmed_instance now self user) user']>
       (<[pk := confirmed_instance now self user]> m))
  = total_confirmed (invoice self) (<[pk := confirmed_instance now self user]> m).
Proof.
  rewrite insert_insert_eq. by rewrite !total_confirmed_insert.
Qed.

Lemma confirm_payment_total_pos now self user pk (m : gmap nat Payment) :
  (∀ k p, m !! k = Some p → 0 < amount p) →
  0 < amount self →
  0 < total_confirmed (invoice self) (<[pk := confirmed_instance now self user]> m).
Proof.
  intros Hm Hself. rewrite total_confirmed_insert. simpl.
  rewrite bool_decide_eq_true_2 by done.
  assert (0 <= total_confirmed (invoice self) (delete pk m)); [|lia].
  apply total_confirmed_nonneg. intros k p Hk.
  apply lookup_delete_Some in Hk as [_ Hk]. apply Hm in Hk. lia.
Qed.

(** What one confirmation stores, whatever the sum. *)
Lemma confirm_payment_stores now today pk self user db inv :
  invoices db !! invoice self = Some inv →
  confirm_payment now today pk self user db
  = (Ok (confirmed_instance now self user),
     {| invoices :=
          <[invoice self :=
              settled today
                (total_confirmed (invoice self)
                   (<[pk := confirmed_instance now self user]> (payments db)))
                inv]> (invoices db);
        payments := <[pk := confirmed_instance now self user]> (payments db) |}).
Proof.
  intros Hinv. unfold confirm_payment. simpl. rewrite Hinv.
  set (t := total_confirmed _ _) in *.
  unfold Invoice_save, settled.
  destruct (total_amount inv <=? t) eqn:Hle; simpl; rewrite ?Hle; simpl;
    [reflexivity|].
  destruct (0 <? t) eqn:Ht; simpl; rewrite ?Hle, ?Ht; simpl;
    rewrite ?Hle, ?Ht; [reflexivity|].
  destruct (due_date inv <? today); [|reflexivity]. simpl.
  case_bool_decide; reflexivity.
Qed.

Lemma settled_positive today t inv :
  0 < t → settled today t inv = reconciled t inv.
Proof.
  intros Ht. unfold settled, reconciled.
  destruct (total_amount inv <=? t); [reflexivity|].
  replace (0 <? t) with true; [reflexivity|]. symmetry. by apply Z.ltb_lt.
Qed.

(** What one confirmation stores for the parent invoice when the sum is
    positive. *)
Lemma confirm_payment_once now today pk self user db inv :
  invoices db !! invoice self = Some inv →
  0 < total_confirmed (invoice self)
        (<[pk := confirmed_instance now self user]> (payments db)) →
  confirm_payment now today pk self user db
  = (Ok (confirmed_instance now self user),
     {| invoices :=
          <[invoice self :=
              reconciled
                (total_confirmed (invoice self)
                   (<[pk := confirmed_instance now self user]> (payments db)))
                inv]> (invoices db);
        payments := <[pk := confirmed_instance now self user]> (payments db) |}).
Proof.
  intros Hinv Hpos. rewrite (confirm_payment_stores _ _ _ _ _ _ inv Hinv).
  by rewrite settled_positive.
Qed.

Lemma reconciled_again t inv : reconciled t (reconciled t inv) = reconciled t inv.
Proof. reflexivity. Qed.

(** A second reconciliation with the same sum changes the row in one
    case only. *)
Lemma settled_again today today' t inv :
  0 < t ∨ total_amount inv <= t ∨ payment_status inv ≠ "SENT"
  ∨ due_date inv < today ∨ today' <= due_date inv →
  settled today' t (settled today t inv) = settled today t inv.
Proof.
  intros Hcase. unfold settled. cbn [due_date total_amount payment_status].
  f_equal.
  destruct (total_amount inv <=? t) eqn:Hle; [reflexivity|].
  destruct (0 <? t) eqn:Ht; [reflexivity|].
  apply Z.leb_gt in Hle. apply Z.ltb_ge in Ht.
  destruct (decide (payment_status inv = "SENT")) as [Hsent|Hsent].
  - rewrite (bool_decide_eq_true_2 _ Hsent), andb_true_r.
    destruct (due_date inv <? today) eqn:Hdue.
    + rewrite bool_decide_eq_false_2 by discriminate.
      by rewrite andb_false_r.
    + apply Z.ltb_ge in Hdue. rewrite (bool_decide_eq_true_2 _ Hsent).
      rewrite andb_true_r.
      destruct (due_date inv <? today') eqn:Hdue'; [|reflexivity].
      apply Z.ltb_lt in Hdue'.
      destruct Hcase as [?|[?|[?|[?|?]]]]; first [lia|done].
  - rewrite (bool_decide_eq_false_2 (payment_status inv = "SENT") Hsent).
    rewrite andb_false_r.
    rewrite (bool_decide_eq_false_2 (payment_status inv = "SENT") Hsent).
    by rewrite andb_false_r.
Qed.

(** C7, as stated, fails for a payment of nothing.  The first
    confirmation, on day 20000, finds the sum zero and leaves the invoice
    SENT; the second, on day 20031, finds the same sum, and [Invoice.save]
    marks the invoice OVERDUE, its due date (day 20030) having passed. *)
Lemma confirm_payment_zero_amount :
  payment_status <$>
    (invoices (snd (confirm_payment 1728000000 20000 3 payment_of_nothing 2
                      invoice_with_nothing_paid)) !! 7%nat) = Some "SENT"
  ∧ payment_status <$>
      (invoices
         (snd (confirm_payment 1730600000 20031 3
                 (confirmed_instance 1728000000 payment_of_nothing 2) 2
                 (snd (confirm_payment 1728000000 20000 3 payment_of_nothing 2
                         invoice_with_nothing_paid)))) !! 7%nat)
    = Some "OVERDUE".
Proof. split; by vm_compute. Qed.

(** C7, amended.  For a payment whose invoice is stored,
    [confirm_payment] returns, stores the payment as confirmed and
    stores for the invoice: as [amount_paid] the sum of the amounts of
    all confirmed payments of that invoice, which is the amount of this
    payment added to the sum over the other rows; as [balance_due] the
    total less that sum; as [payment_status] PAID when the sum reaches
    the total, PARTIAL when it is positive, and otherwise the stored
    status, with SENT turned into OVERDUE after the due date.  A second
    confirmation of the same payment, by any user at any later time,
    finds the same sum and stores the same [amount_paid]; it leaves the
    invoice table exactly as the first one left it unless the sum is
    zero or less and below the total, and the invoice is SENT and falls
    due between the two confirmations: then the second one marks the
    invoice OVERDUE, which the first had left SENT. *)
Theorem confirm_payment_idempotent now today now' today' pk self user user'
    db inv :
  invoices db !! invoice self = Some inv →
  let first := confirm_payment now today pk self user db in
  let second :=
    confirm_payment now' today' pk (confirmed_instance now self user) user'
      (snd first) in
  let total := Spec.sum_of_confirmed_payments (invoice self) (payments (snd first)) in
  fst first = Ok (confirmed_instance now self user)
  ∧ payments (snd first)
    = <[pk := confirmed_instance now self user]> (payments db)
  ∧ total
    = amount self
      + Spec.sum_of_confirmed_payments (invoice self) (delete pk (payments db))
  ∧ (∃ inv1,
        invoices (snd first) = <[invoice self := inv1]> (invoices db)
        ∧ due_date inv1 = due_date inv
        ∧ total_amount inv1 = total_amount inv
        ∧ amount_paid inv1 = total
        ∧ balance_due inv1 = total_amount inv - total
        ∧ payment_status inv1
          = if total_amount inv <=? total then "PAID"
            else if 0 <? total then "PARTIAL"
            else if (due_date inv <? today)
                    && bool_decide (payment_status inv = "SENT")
            then "OVERDUE"
            else payment_status inv)
  ∧ Spec.sum_of_confirmed_payments (invoice self) (payments (snd second))
    = total
  ∧ amount_paid <$> invoices (snd second) !! invoice self = Some total
  ∧ (0 < total ∨ total_amount inv <= total ∨ payment_status inv ≠ "SENT"
     ∨ due_date inv < today ∨ today' <= due_date inv →
     invoices (snd second) = invoices (snd first))
  ∧ (total <= 0 → total < total_amount inv → payment_status inv = "SENT" →
     today <= due_date inv → due_date inv < today' →
     payment_status <$> invoices (snd first) !! invoice self = Some "SENT"
     ∧ payment_status <$> invoices (snd second) !! invoice self
       = Some "OVERDUE").
Proof.
  intros Hinv first second total. subst first second total.
  rewrite (confirm_payment_stores _ _ _ _ _ _ inv Hinv).
  cbn [fst snd payments invoices].
  set (t := total_confirmed (invoice self)
              (<[pk := confirmed_instance now self user]> (payments db))).
  rewrite (confirm_payment_stores now' today' pk
             (confirmed_instance now self user) user' _
             (settled today t inv))
    by (change (invoice (confirmed_instance now self user)) with (invoice self);
        cbn [invoices]; by rewrite lookup_insert_eq).
  change (invoice (confirmed_instance now self user)) with (invoice self).
  cbn [fst snd payments invoices].
  rewrite <- !total_confirmed_is_sum.
  rewrite confirm_payment_total. fold t.
  rewrite insert_insert_eq, !lookup_insert_eq. cbn [fmap option_fmap option_map].
  split; [reflexivity|]. split; [reflexivity|].
  split.
  { unfold t. rewrite total_confirmed_insert. cbn [confirmed_instance confirmed invoice amount andb].
    rewrite bool_decide_eq_true_2 by done. lia. }
  split.
  { exists (settled today t inv). repeat split. }
  split; [reflexivity|]. split; [reflexivity|].
  split.
  { intros Hcase. by rewrite settled_again. }
  intros Hzero Hbelow Hsent Hdue Hdue'.
  unfold settled. cbn [payment_status due_date total_amount].
  replace (total_amount inv <=? t) with false by (symmetry; apply Z.leb_gt; lia).
  replace (0 <? t) with false by (symmetry; apply Z.ltb_ge; lia).
  replace (due_date inv <? today) with false by (symmetry; apply Z.ltb_ge; lia).
  replace (due_date inv <? today') with true by (symmetry; apply Z.ltb_lt; lia).
  cbn [andb]. rewrite Hsent. split; reflexivity.
Qed.

Lemma confirm_payment_idempotent_witness :
  fst (confirm_payment 1728000000 20000 3 payment_5000 2 invoice_sent)
  = Ok (confirmed_instance 1728000000 payment_5000 2)
  ∧ Spec.sum_of_confirmed_payments 7
      (payments (snd (confirm_payment 1728000000 20000 3 payment_5000 2
                        invoice_sent)))
    = 500000
  ∧ amount_paid <$>
      invoices
        (snd (confirm_payment 1728000999 20001 3
                (confirmed_instance 1728000000 payment_5000 2) 5
                (snd (confirm_payment 1728000000 20000 3 payment_5000 2
                        invoice_sent)))) !! 7%nat
    = Some 500000
  ∧ invoices
      (snd (confirm_payment 1728000999 20001 3
              (confirmed_instance 1728000000 payment_5000 2) 5
              (snd (confirm_payment 1728000000 20000 3 payment_5000 2
                      invoice_sent))))
    = invoices (snd (confirm_payment 1728000000 20000 3 payment_5000 2
                       invoice_sent)).
Proof.
  destruct (confirm_payment_idempotent 1728000000 20000 1728000999 20001 3
              payment_5000 2 5 invoice_sent
              {| due_date := 20030; total_amount := 1782500;
                 amount_paid := 0; balance_due := 1782500;
                 payment_status := "SENT" |} eq_refl)
    as (Hfirst & _ & Htotal & _ & _ & Hpaid & Hsame & _).
  split; [exact Hfirst|]. split; [by vm_compute|].
  split; [exact Hpaid|].
  apply Hsame. left. by vm_compute.
Defined.

End PaymentConfirmation.

(** ** Delivery notes *)

Section DeliveryNotes.
Import Delivery Scenarios.

(** C9 fails on the code, whether the receiver of [signals.py] is
    connected or not.  A delivery for the order 0, whose two lines ask
    for 40 and 12 units, is created on 4 October 2024 in a database
    that holds one delivery and one note of another order.

    With the receiver connected, the request to [DeliveryCreateView]
    stores two notes for the new delivery: the receiver's, without a
    line item, and the view's, with one item per line of the order and
    [quantity = quantity_ordered]; the check for an existing note runs
    in the receiver only, before the view creates its own.  Saved
    outside the view, the delivery gets the receiver's empty note.

    With the receiver not connected, a delivery saved outside the view
    gets no note; through the view it gets one, with both items. *)
Theorem delivery_note_creation :
  let note number :=
    {| note_number := number; delivery := 1; signed_by_driver := false;
       signed_by_scaffolder := false; signed_by_security := false;
       signed_by_client := false |} in
  let item note_pk material_pk units :=
    {| delivery_note := note_pk; material := material_pk; quantity := units;
       condition := "GOOD" |} in
  let view connected :=
    DeliveryCreateView_post connected (post hce) (Some outgoing) one_delivery in
  let save connected := Delivery_save connected 20000 outgoing one_delivery in
  (fst (view true) = Ok (Redirect (Some msg_success) "delivery:delivery_detail")
   ∧ delivery_number <$> deliveries (snd (view true)) !! 1%nat
     = Some "DEL-2024-0002"
   ∧ notes_of 1 (snd (view true)) = [note "DN-2024-0002"; note "DN-2024-0003"]
   ∧ items_of 1 (snd (view true)) = []
   ∧ items_of 2 (snd (view true)) = [item 2%nat 1%nat 40; item 2%nat 3%nat 12])
  ∧ (fst (save true) = Ok 1%nat
     ∧ notes_of 1 (snd (save true)) = [note "DN-2024-0002"]
     ∧ items_of 1 (snd (save true)) = [])
  ∧ (fst (save false) = Ok 1%nat
     ∧ notes_of 1 (snd (save false)) = [])
  ∧ (fst (view false) = Ok (Redirect (Some msg_success) "delivery:delivery_detail")
     ∧ notes_of 1 (snd (view false)) = [note "DN-2024-0002"]
     ∧ items_of 1 (snd (view false)) = [item 1%nat 1%nat 40; item 1%nat 3%nat 12]).
Proof. repeat split; vm_compute; reflexivity. Qed.

End DeliveryNotes.

(** ** Document numbers *)

Section DocumentNumbers.
Import Numbering Scenarios.

Lemma append_cons c s t : String c s +:+ t = String c (s +:+ t).
Proof. reflexivity. Qed.

Lemma append_nil_l t : "" +:+ t = t.
Proof. reflexivity. Qed.

Lemma append_assoc s t u : (s +:+ t) +:+ u = s +:+ (t +:+ u).
Proof.
  induction s as [|c s IH]; [done|]. by rewrite !append_cons, IH.
Qed.

Lemma append_inj s t u : s +:+ t = s +:+ u → t = u.
Proof.
  induction s as [|c s IH]; [done|]. rewrite !append_cons.
  intros H. apply IH. by inversion H.
Qed.

Lemma prefix_append s t : String.prefix s (s +:+ t) = true.
Proof.
  induction s as [|c s IH]; [by destruct t|].
  rewrite append_cons. simpl. by destruct (ascii_dec c c).
Qed.

Lemma ascii_compare_refl c : Ascii.compare c c = Eq.
Proof. unfold Ascii.compare. apply N.compare_refl. Qed.

Lemma compare_append s t u :
  String.compare (s +:+ t) (s +:+ u) = String.compare t u.
Proof.
  induction s as [|c s IH]; [done|].
  rewrite !append_cons. simpl. by rewrite ascii_compare_refl.
Qed.

(** Every sequence from 0 to 9999 passes the check. *)
Lemma reads_back_all : forallb reads_back (seq 0 (Z.to_nat 10000)) = true.
Proof. vm_cast_no_check (eq_refl true). Qed.

Lemma reads_back_below n :
  0 <= n <= 9999 →
  format_04d n = four_digits n ∧ int (format_04d n) = Ok n.
Proof.
  intros Hn.
  pose proof (proj1 (forallb_forall reads_back (seq 0 (Z.to_nat 10000))) reads_back_all
                (Z.to_nat n)) as H.
  unfold reads_back in H. rewrite Z2Nat.id in H by lia.
  apply andb_prop in H as [H1 H2].
  - split; [by apply String.eqb_eq|].
    destruct (int (format_04d n)) as [z|e]; [|done].
    apply Z.eqb_eq in H2. by subst.
  - apply in_seq. lia.
Qed.

Lemma digit_compare a b :
  0 <= a <= 9 → 0 <= b <= 9 →
  Ascii.compare (digit_char a) (digit_char b) = (a ?= b).
Proof. intros Ha Hb. digit_cases a; digit_cases b; reflexivity. Qed.

Lemma digit_not_dash a :
  0 <= a <= 9 → Ascii.eqb (digit_char a) "-" = false.
Proof. intros Ha. digit_cases a; reflexivity. Qed.

Lemma compare_cons a s b t :
  String.compare (String a s) (String b t)
  = match Ascii.compare a b with
    | Eq => String.compare s t
    | Lt => Lt
    | Gt => Gt
    end.
Proof. reflexivity. Qed.

(** On four digits the order of the strings is the order of the
    numbers. *)
Lemma four_digits_compare n m :
  0 <= n <= 9999 → 0 <= m <= 9999 →
  String.compare (four_digits n) (four_digits m) = (n ?= m).
Proof.
  intros Hn Hm. unfold four_digits.
  rewrite !compare_cons.
  rewrite !digit_compare by div_lia.
  change (String.compare "" "") with Eq.
  destruct (Z.compare_spec (n / 1000) (m / 1000));
    [|symmetry; apply Z.compare_lt_iff; div_lia
     |symmetry; apply Z.compare_gt_iff; div_lia].
  destruct (Z.compare_spec (n / 100 mod 10) (m / 100 mod 10));
    [|symmetry; apply Z.compare_lt_iff; div_lia
     |symmetry; apply Z.compare_gt_iff; div_lia].
  destruct (Z.compare_spec (n / 10 mod 10) (m / 10 mod 10));
    [|symmetry; apply Z.compare_lt_iff; div_lia
     |symmetry; apply Z.compare_gt_iff; div_lia].
  destruct (Z.compare_spec (n mod 10) (m mod 10));
    [|symmetry; apply Z.compare_lt_iff; div_lia
     |symmetry; apply Z.compare_gt_iff; div_lia].
  symmetry. apply Z.compare_eq_iff. div_lia.
Qed.

Lemma sequence_compare st n m :
  0 <= n <= 9999 → 0 <= m <= 9999 →
  String.compare (sequence st n) (sequence st m) = (n ?= m).
Proof.
  intros Hn Hm. unfold sequence. rewrite !compare_append.
  destruct (reads_back_below n Hn) as [-> _].
  destruct (reads_back_below m Hm) as [-> _].
  by apply four_digits_compare.
Qed.

Lemma sequence_inj st n m :
  0 <= n <= 9999 → 0 <= m <= 9999 →
  sequence st n = sequence st m → n = m.
Proof.
  intros Hn Hm H. unfold sequence in H. do 2 apply append_inj in H.
  destruct (reads_back_below n Hn) as [_ Hn'].
  destruct (reads_back_below m Hm) as [_ Hm'].
  rewrite H in Hn'. congruence.
Qed.

(** [split('-')[-1]] of a well-formed number is its sequence. *)
Lemma last_segment_from_append acc s d :
  last_segment_from acc (s +:+ String "-" d) = last_segment_from "" d.
Proof.
  revert acc. induction s as [|c s IH]; intros acc; [done|].
  rewrite append_cons. simpl. destruct (Ascii.eqb c "-"); apply IH.
Qed.

Lemma last_segment_sequence st n :
  0 <= n <= 9999 →
  last_segment (sequence st n) = format_04d n.
Proof.
  intros Hn. unfold last_segment, sequence.
  change ("-" +:+ format_04d n) with (String "-" (format_04d n)).
  rewrite last_segment_from_append.
  destruct (reads_back_below n Hn) as [-> _]. unfold four_digits.
  cbn [last_segment_from].
  rewrite !digit_not_dash by div_lia. reflexivity.
Qed.

(** The greatest of a non-empty list of well-formed numbers. *)
Lemma last_by_order_max st (l : list string) :
  (∀ s, s ∈ l → ∃ n, 0 <= n <= 9999 ∧ s = sequence st n) →
  l ≠ [] →
  ∃ n, 0 <= n <= 9999
       ∧ last_by_order l = Some (sequence st n)
       ∧ sequence st n ∈ l
       ∧ ∀ m, 0 <= m <= 9999 → sequence st m ∈ l → m <= n.
Proof.
  induction l as [|s l IH]; intros Hwf Hne; [done|].
  destruct (Hwf s) as [k [Hk ->]]; [by left|].
  destruct l as [|t l].
  - exists k. repeat split; [lia..|by left|].
    intros m Hm Hin. apply list_elem_of_singleton in Hin.
    apply sequence_inj in Hin; [lia|done..].
  - destruct IH as [n [Hn [Hlast [Hin Hmax]]]]; [|done|].
    { intros u Hu. apply Hwf. by right. }
    cbn [last_by_order]. cbn [last_by_order] in Hlast. rewrite Hlast.
    unfold later. rewrite sequence_compare by done.
    destruct (Z.compare_spec k n) as [Heq|Hlt|Hgt].
    + exists n. repeat split; [lia..|by right|].
      intros m Hm Hm'. apply elem_of_cons in Hm' as [Hm'|Hm']; [|by apply Hmax].
      apply sequence_inj in Hm'; [lia|done..].
    + exists n. repeat split; [lia..|by right|].
      intros m Hm Hm'. apply elem_of_cons in Hm' as [Hm'|Hm']; [|by apply Hmax].
      apply sequence_inj in Hm'; [lia|done..].
    + exists k. repeat split; [lia..|by left|].
      intros m Hm Hm'. apply elem_of_cons in Hm' as [Hm'|Hm'].
      * apply sequence_inj in Hm'; [lia|done..].
      * apply Hmax in Hm'; [lia|done].
Qed.

Lemma elem_of_List_filter (f : string → bool) (l : list string) s :
  s ∈ List.filter f l ↔ s ∈ l ∧ f s = true.
Proof. rewrite !list_elem_of_In. apply filter_In. Qed.

Lemma List_filter_none (f : string → bool) (l : list string) :
  (∀ s, s ∈ l → f s = false) → List.filter f l = [].
Proof.
  induction l as [|s l IH]; intros H; [done|]. simpl.
  rewrite (H s) by left. apply IH. intros t Ht. apply H. by right.
Qed.

(** The yearly and the monthly numbering run the same lines on their
    stems. *)
Lemma generate_next_number prefix year existing :
  generate prefix year existing = next_number (stem prefix year) existing.
Proof. reflexivity. Qed.

Lemma generate_document_next_number document_type year month existing :
  generate_document document_type year month existing
  = next_number (document_stem document_type year month) existing.
Proof. reflexivity. Qed.

(** With well-formed numbers under the stem, the lines return the
    number that the specification describes. *)
Lemma next_number_in_sequence st existing :
  Spec.well_formed st existing →
  Spec.next_in_sequence st existing (next_number st existing).
Proof.
  intros Hwf. unfold Spec.next_in_sequence, next_number.
  destruct (List.filter (String.prefix st) existing) as [|s0 l0] eqn:Hfilter.
  - assert (∀ s, s ∈ existing → String.prefix st s = false) as Hnone.
    { intros s Hs. destruct (String.prefix st s) eqn:Hpre; [|done].
      assert (s ∈ List.filter (String.prefix st) existing) as Habs
        by (by apply elem_of_List_filter).
      rewrite Hfilter in Habs. by apply elem_of_nil in Habs. }
    exists 1. cbn [last_by_order].
    split; [lia|]. split; [reflexivity|]. split; [|split; [|split]].
    + intros Hin. apply Hnone in Hin.
      unfold sequence in Hin. by rewrite prefix_append in Hin.
    + done.
    + intros m Hm Hin _. apply Hnone in Hin.
      unfold sequence in Hin. by rewrite prefix_append in Hin.
    + intros _. reflexivity.
  - rewrite <- Hfilter.
    destruct (last_by_order_max st (List.filter (String.prefix st) existing))
      as [n [Hn [Hlast [Hnin Hnmax]]]].
    { intros s Hs. apply elem_of_List_filter in Hs as [Hs1 Hs2]. by apply Hwf. }
    { by rewrite Hfilter. }
    assert (∀ m, sequence st m ∈ existing
                 → sequence st m ∈ List.filter (String.prefix st) existing)
      as Hkeep.
    { intros m Hm. apply elem_of_List_filter. split; [done|].
      apply prefix_append. }
    apply elem_of_List_filter in Hnin as [Hnin _].
    exists (n + 1). rewrite Hlast.
    rewrite last_segment_sequence by done.
    destruct (reads_back_below n Hn) as [_ ->]. cbn.
    split; [lia|]. split; [reflexivity|]. split; [|split; [|split]].
    + intros Hnew. destruct (Z.eq_dec n 9999) as [->|Hlt].
      * destruct (Hwf _ Hnew) as [m [Hm Heq]]; [apply prefix_append|].
        unfold sequence in Heq. do 2 apply append_inj in Heq.
        destruct (reads_back_below m Hm) as [Hfour _]. rewrite Hfour in Heq.
        discriminate.
      * assert (n + 1 <= n); [|lia]. apply Hnmax; [lia|by apply Hkeep].
    + intros Hnone. apply Hnone in Hnin.
      unfold sequence in Hnin. by rewrite prefix_append in Hnin.
    + intros m Hm Hmin Hmmax.
      pose proof (Hmmax n Hn Hnin). pose proof (Hnmax m Hm (Hkeep m Hmin)). lia.
    + intros Hlt. apply reads_back_below. lia.
Qed.

(** A row created with an empty number gets the generated one, and the
    INSERT accepts it. *)
Lemma number_for_generated prefix today existing :
  Spec.well_formed (stem prefix (year_of_day today)) existing →
  ∃ n, 1 <= n <= 10000
       ∧ number_for prefix today "" existing
         = Ok (number_of prefix (year_of_day today) n)
       ∧ number_of prefix (year_of_day today) n ∉ existing.
Proof.
  intros Hwf.
  destruct (next_number_in_sequence _ _ Hwf) as (n & Hn & Hissued & Hnew & _).
  exists n. split; [done|]. split; [|exact Hnew].
  unfold number_for. cbn [String.eqb].
  rewrite generate_next_number, Hissued. cbn.
  by rewrite bool_decide_eq_false_2.
Qed.

Lemma number_for_in_sequence prefix today existing :
  Spec.well_formed (stem prefix (year_of_day today)) existing →
  ∃ number,
    number_for prefix today "" existing = Ok number
    ∧ Spec.next_in_sequence (stem prefix (year_of_day today)) existing
        (Ok number).
Proof.
  intros Hwf.
  pose proof (next_number_in_sequence _ _ Hwf) as Hnext.
  destruct Hnext as (n & Hn & Hissued & Hnew & Hrest).
  exists (sequence (stem prefix (year_of_day today)) n). split.
  - unfold number_for. cbn [String.eqb].
    rewrite generate_next_number, Hissued. cbn.
    by rewrite bool_decide_eq_false_2.
  - exists n. by rewrite <- Hissued.
Qed.

(** C8, as stated, fails in three ways.  The number of a deleted
    record is issued again when that record held the highest sequence of
    its year: after 0001 and 0002 are created and 0002 is deleted, the
    next quotation is 0002 once more.  The sequence is not always four
    digits nor the maximum plus one: after 9999 comes 10000, and since
    ["QT-2025-10000"] sorts before ["QT-2025-9999"] the number after that
    is 10000 again.  And the number of a generated document carries the
    month, with which its sequence starts again: the first invoice
    document of April 2025 is 0001 although March reached 0007. *)
Lemma deleted_number_issued_again :
  create "QT" 2025 ["QT-2025-0001"]
  = Ok ("QT-2025-0002", ["QT-2025-0001"; "QT-2025-0002"])
  ∧ generate "QT" 2025 (delete "QT-2025-0002" ["QT-2025-0001"; "QT-2025-0002"])
    = Ok "QT-2025-0002"
  ∧ generate "QT" 2025 ["QT-2025-9999"] = Ok "QT-2025-10000"
  ∧ generate "QT" 2025 ["QT-2025-9999"; "QT-2025-10000"] = Ok "QT-2025-10000"
  ∧ generate_document "INVOICE" 2025 3 ["INV-2025-03-0006"; "INV-2025-03-0007"]
    = Ok "INV-2025-03-0008"
  ∧ generate_document "INVOICE" 2025 4 ["INV-2025-03-0006"; "INV-2025-03-0007"]
    = Ok "INV-2025-04-0001".
Proof. repeat split; by vm_compute. Qed.

(** C8, amended.  A model's [save] numbers its rows by the year, as
    [PREFIX-YYYY-NNNN]; [GeneratedDocument.save] numbers by the month, as
    [PREFIX-YYYY-MM-NNNN].  When the numbers already stored under the
    year's (the month's) stem are well formed, with four digits: a
    number is issued; the first of a year (of a month) has sequence
    0001; a later one has the highest stored sequence under the stem
    plus one; the number is not in the table; and the sequence is
    zero-padded to four digits up to 9999.  (Sequences are compared
    through the strings; a deleted record leaves a gap unless it held
    the highest sequence.) *)
Theorem numbering_scheme prefix document_type year month existing documents :
  Spec.well_formed (stem prefix year) existing →
  Spec.well_formed (document_stem document_type year month) documents →
  format_04d 1 = "0001"
  ∧ stem prefix year = prefix +:+ "-" +:+ str year
  ∧ document_stem document_type year month
    = document_prefix document_type +:+ "-" +:+ str year
      +:+ "-" +:+ format_02d month
  ∧ Spec.next_in_sequence (stem prefix year) existing
      (generate prefix year existing)
  ∧ Spec.next_in_sequence (document_stem document_type year month) documents
      (generate_document document_type year month documents).
Proof.
  intros Hexisting Hdocuments.
  split; [reflexivity|]. split; [reflexivity|]. split; [reflexivity|].
  split.
  - rewrite generate_next_number. by apply next_number_in_sequence.
  - rewrite generate_document_next_number. by apply next_number_in_sequence.
Qed.

Lemma numbering_scheme_witness :
  format_04d 1 = "0001"
  ∧ stem "QT" 2025 = "QT" +:+ "-" +:+ str 2025
  ∧ document_stem "INVOICE" 2025 3
    = document_prefix "INVOICE" +:+ "-" +:+ str 2025 +:+ "-" +:+ format_02d 3
  ∧ Spec.next_in_sequence (stem "QT" 2025) numbers_2025
      (generate "QT" 2025 numbers_2025)
  ∧ Spec.next_in_sequence (document_stem "INVOICE" 2025 3) documents_2025
      (generate_document "INVOICE" 2025 3 documents_2025).
Proof.
  apply (numbering_scheme "QT" "INVOICE" 2025 3 numbers_2025 documents_2025).
  - intros s Hs Hpre. unfold numbers_2025 in Hs.
    repeat (apply elem_of_cons in Hs as [->|Hs]);
      [by exists 1|by exists 7|discriminate|discriminate|by apply elem_of_nil in Hs].
  - intros s Hs Hpre. unfold documents_2025 in Hs.
    repeat (apply elem_of_cons in Hs as [->|Hs]);
      [by exists 6|by exists 7|discriminate|discriminate|by apply elem_of_nil in Hs].
Defined.

End DocumentNumbers.

(** ** Stock: the loops over materials *)

Section StockLoops.
Import Hiring HiringViews.

Lemma capped_within m :
  available_quantity m <= total_quantity m → capped m = m.
Proof.
  intros H. unfold capped.
  destruct (Z.ltb_spec (total_quantity m) (available_quantity m)); [lia|done].
Qed.

Lemma shifted_shifted a h a' h' m :
  shifted a' h' (shifted a h m) = shifted (a + a') (h + h') m.
Proof. unfold shifted. simpl. f_equal; lia. Qed.

Lemma shifted_zero m : shifted 0 0 m = m.
Proof. destruct m. unfold shifted. simpl. f_equal; lia. Qed.

Lemma total_on_app {I} (mat : I → nat) (f : I → Z) k (l1 l2 : list I) :
  total_on mat f k (l1 ++ l2) = total_on mat f k l1 + total_on mat f k l2.
Proof. induction l1 as [|x l1 IH]; simpl; lia. Qed.

Lemma total_on_nonneg {I} (mat : I → nat) (f : I → Z) k (l : list I) :
  (∀ x, x ∈ l → 0 <= f x) → 0 <= total_on mat f k l.
Proof.
  induction l as [|x l IH]; intros H; simpl; [lia|].
  assert (0 <= f x) by (apply H; left).
  assert (0 <= total_on mat f k l) by (apply IH; intros y Hy; apply H; by right).
  case_bool_decide; lia.
Qed.

Lemma total_on_ext {I} (mat : I → nat) (f g : I → Z) k (l : list I) :
  (∀ x, x ∈ l → f x = g x) → total_on mat f k l = total_on mat g k l.
Proof.
  induction l as [|x l IH]; intros H; simpl; [done|].
  rewrite (H x) by left. rewrite IH; [done|]. intros y Hy. apply H. by right.
Qed.

Lemma total_on_map {I J} (mat : J → nat) (f : J → Z) (g : I → J) k (l : list I) :
  total_on mat f k (map g l) = total_on (fun x => mat (g x)) (fun x => f (g x)) k l.
Proof. induction l as [|x l IH]; simpl; [done|]. by rewrite IH. Qed.

(** A loop whose rounds shift the two quantities, run where the cap
    never applies: it returns, and each material ends shifted by the
    sums over its own lines. *)
Lemma for_each_material_shift {I} (mat : I → nat)
    (body : I → Material → option Material) (da dh : I → Z)
    (items : list I) (materials : gmap nat Material) :
  (∀ item m, body item m = Some (shifted (da item) (dh item) m)) →
  (∀ item, item ∈ items → is_Some (materials !! mat item)) →
  (∀ k m l1 l2, materials !! k = Some m → items = l1 ++ l2 →
                available_quantity m + total_on mat da k l1 <= total_quantity m) →
  fst (for_each_material mat body items materials) = Ok tt
  ∧ ∀ k, snd (for_each_material mat body items materials) !! k
         = shifted (total_on mat da k items) (total_on mat dh k items)
           <$> (materials !! k).
Proof.
  intros Hbody. revert materials.
  induction items as [|item rest IH]; intros materials Hex Hcap.
  - split; [done|]. intros k. simpl.
    destruct (materials !! k) as [m|]; simpl; [|done]. by rewrite shifted_zero.
  - destruct (Hex item) as [m0 Hm0]; [by left|].
    cbn [for_each_material]. rewrite Hm0, Hbody.
    assert (capped (shifted (da item) (dh item) m0) = shifted (da item) (dh item) m0)
      as Hcapped.
    { apply capped_within. simpl.
      pose proof (Hcap (mat item) m0 [item] rest Hm0 eq_refl) as H.
      simpl in H. rewrite bool_decide_eq_true_2 in H by done. lia. }
    unfold Material_save. rewrite Hcapped.
    destruct (IH (<[mat item := shifted (da item) (dh item) m0]> materials))
      as [Hok Hshift].
    + intros it Hit. destruct (decide (mat item = mat it)) as [Heq|Hne].
      * rewrite <- Heq, lookup_insert_eq. by eexists.
      * rewrite lookup_insert_ne by done. apply Hex. by right.
    + intros k m l1 l2 Hk ->.
      destruct (decide (mat item = k)) as [<-|Hne].
      * rewrite lookup_insert_eq in Hk. injection Hk as <-. simpl.
        pose proof (Hcap (mat item) m0 (item :: l1) l2 Hm0 eq_refl) as H.
        simpl in H. rewrite bool_decide_eq_true_2 in H by done. lia.
      * rewrite lookup_insert_ne in Hk by done.
        pose proof (Hcap k m (item :: l1) l2 Hk eq_refl) as H.
        simpl in H. rewrite bool_decide_eq_false_2 in H by done. lia.
    + split; [done|]. intros k. rewrite Hshift. simpl.
      destruct (decide (mat item = k)) as [<-|Hne].
      * rewrite lookup_insert_eq, Hm0. simpl.
        rewrite bool_decide_eq_true_2 by done. by rewrite shifted_shifted.
      * rewrite lookup_insert_ne by done.
        rewrite bool_decide_eq_false_2 by done. done.
Qed.

Lemma reserve_shifted q m : reserve q m = shifted (- q) q m.
Proof. unfold reserve, shifted. simpl. f_equal; lia. Qed.

Lemma release_returned_shifted item m :
  release_returned item m
  = Some (shifted (quantity_returned item) (- quantity_dispatched item) m).
Proof. unfold release_returned, shifted. simpl. do 2 f_equal; lia. Qed.

Lemma release_dispatched_shifted item m :
  release_dispatched item m
  = Some (shifted (quantity_dispatched item) (- quantity_dispatched item) m).
Proof. unfold release_dispatched, shifted. simpl. do 2 f_equal; lia. Qed.

(** What the availability loop has established when it lets the view
    go on, and when it stops it. *)
Lemma check_availability_passed items (materials : gmap nat Material) :
  check_availability items materials = Ok true ↔
  ∀ item, item ∈ items →
          ∃ m, materials !! qi_material item = Some m
               ∧ quantity item <= available_quantity m.
Proof.
  induction items as [|item rest IH]; simpl.
  - split; [|done]. intros _ item Hin. by apply elem_of_nil in Hin.
  - destruct (materials !! qi_material item) as [m|] eqn:Hm.
    + destruct (Z.ltb_spec (available_quantity m) (quantity item)) as [Hlt|Hge].
      * split; [done|]. intros H. destruct (H item) as [m' [Hm' Hle]]; [by left|].
        rewrite Hm in Hm'. injection Hm' as <-. lia.
      * rewrite IH. split.
        -- intros H it Hit. apply elem_of_cons in Hit as [->|Hit]; [|by apply H].
           by exists m.
        -- intros H it Hit. apply H. by right.
    + split; [done|]. intros H. destruct (H item) as [m' [Hm' _]]; [by left|].
      rewrite Hm in Hm'. discriminate.
Qed.

(** The lines created for a new order are the lines the reservation loop
    reads back, when no stored line points past the order table. *)
Lemma HireOrder_items_created db (created : list HireOrderItem) :
  (∀ item, item ∈ order_items db → (hire_order item < length (orders db))%nat) →
  (∀ item, item ∈ created → hire_order item = length (orders db)) →
  filter (fun it => hire_order it = length (orders db))
         (order_items db ++ created) = created.
Proof.
  intros Hold Hnew. rewrite filter_app.
  replace (filter _ (order_items db)) with (@nil HireOrderItem).
  - simpl. induction created as [|c created IH]; [done|].
    rewrite filter_cons_True by (apply Hnew; left).
    f_equal. apply IH. intros it Hit. apply Hnew. by right.
  - symmetry. induction (order_items db) as [|x l IH]; [done|].
    rewrite filter_cons_False.
    + apply IH. intros it Hit. apply Hold. by right.
    + pose proof (Hold x (list_elem_of_here x l)). lia.
Qed.

(** The stock written by the API loop is that of the shared loop. *)
Lemma convert_items_materials order_pk items db :
  fst (Api.convert_items order_pk items db)
  = fst (for_each_material qi_material
           (fun qi m => Some (reserve (quantity qi) m)) items (materials db))
  ∧ materials (snd (Api.convert_items order_pk items db))
    = snd (for_each_material qi_material
             (fun qi m => Some (reserve (quantity qi) m)) items (materials db))
  ∧ orders (snd (Api.convert_items order_pk items db)) = orders db
  ∧ quotations (snd (Api.convert_items order_pk items db)) = quotations db
  ∧ quotation_items (snd (Api.convert_items order_pk items db)) = quotation_items db.
Proof.
  revert db. induction items as [|item rest IH]; intros db; [done|].
  cbn [Api.convert_items for_each_material].
  destruct (materials db !! qi_material item) as [m|]; [|done].
  destruct (IH (with_materials
                  (Material_save (qi_material item) (reserve (quantity item) m)
                     (materials
                        (with_order_items
                           (order_items db ++
                            [new_order_item order_pk (qi_material item) (quantity item)])
                           db)))
                  (with_order_items
                     (order_items db ++
                      [new_order_item order_pk (qi_material item) (quantity item)])
                     db))) as (H1 & H2 & H3 & H4 & H5).
  repeat split; done.
Qed.

(** A reservation loop over lines with non-negative quantities never
    meets the cap, provided the stock was within its total. *)
Lemma reserve_loop {I} (mat : I → nat) (q : I → Z) (items : list I)
    (materials : gmap nat Material) :
  (∀ item, item ∈ items → is_Some (materials !! mat item) ∧ 0 <= q item) →
  (∀ k m, materials !! k = Some m → available_quantity m <= total_quantity m) →
  fst (for_each_material mat (fun item m => Some (reserve (q item) m)) items materials)
  = Ok tt
  ∧ ∀ k, snd (for_each_material mat (fun item m => Some (reserve (q item) m))
                items materials) !! k
         = shifted (- total_on mat q k items) (total_on mat q k items)
           <$> (materials !! k).
Proof.
  intros Hitems Hwithin.
  destruct (for_each_material_shift mat
              (fun item m => Some (reserve (q item) m))
              (fun item => - q item) q items materials) as [Hok Hshift].
  - intros item m. by rewrite reserve_shifted.
  - intros item Hin. by apply Hitems.
  - intros k m l1 l2 Hk ->.
    assert (0 <= total_on mat q k l1).
    { apply total_on_nonneg. intros x Hx. apply Hitems.
      apply elem_of_app. by left. }
    assert (total_on mat (fun item => - q item) k l1 = - total_on mat q k l1) as ->.
    { clear. induction l1 as [|x l1 IH]; simpl; [done|].
      rewrite IH. case_bool_decide; lia. }
    apply Hwithin in Hk. lia.
  - split; [done|]. intros k. rewrite Hshift.
    assert (total_on mat (fun item => - q item) k items = - total_on mat q k items)
      as ->; [|done].
    clear. induction items as [|x l1 IH]; simpl; [done|].
    rewrite IH. case_bool_decide; lia.
Qed.

(** The stock after [create_order_from_quotation]: untouched, or, when
    the view reports success, reserved line by line. *)
Lemma create_order_from_quotation_stock request form quotation_pk db :
  (∀ item, item ∈ order_items db → (hire_order item < length (orders db))%nat) →
  (∀ item, item ∈ Quotation_items quotation_pk db → 0 <= quantity item) →
  (∀ k m, materials db !! k = Some m → available_quantity m <= total_quantity m) →
  snd (create_order_from_quotation request form quotation_pk db) = db
  ∨ (fst (create_order_from_quotation request form quotation_pk db)
     = Ok (Redirect (Some msg_success) "hiring:order_detail")
     ∧ check_availability (Quotation_items quotation_pk db) (materials db) = Ok true
     ∧ ∀ k, materials (snd (create_order_from_quotation request form quotation_pk db))
            !! k
            = shifted
                (- total_on qi_material quantity k (Quotation_items quotation_pk db))
                (total_on qi_material quantity k (Quotation_items quotation_pk db))
              <$> (materials db !! k)).
Proof.
  intros Hfk Hq Hwithin.
  unfold create_order_from_quotation, login_required.
  destruct (Accounts.is_authenticated (user request)); [|by left].
  simpl.
  destruct (quotations db !! quotation_pk) as [quotation_|]; [|by left].
  destruct (order_exists quotation_pk db); [by left|].
  destruct (negb (bool_decide (q_status quotation_ = "ACCEPTED"))); [by left|].
  destruct (check_availability (Quotation_items quotation_pk db) (materials db))
    as [[|]|e] eqn:Hcheck; [|by left|by left].
  destruct (method request); [by left|].
  destruct (HireOrderForm_is_valid form); [|by left].
  unfold HireOrder_insert, bind. cbn [order_number].
  destruct (Numbering.number_for "OR" (today request) "" (order_numbers db))
    as [number|e]; [|by left].
  right. cbn [set_order_number quotation client hire_duration_days].
  unfold HireOrder_items, Quotation_items in *.
  cbn [with_orders with_order_items orders order_items materials quotations
       quotation_items].
  set (lines := filter (fun it => qi_quotation it = quotation_pk) (quotation_items db))
    in *.
  set (created := map (fun qi => new_order_item (length (orders db))
                                   (qi_material qi) (quantity qi)) lines).
  rewrite (HireOrder_items_created db created Hfk).
  2:{ intros item Hin. apply list_elem_of_fmap in Hin as [qi [-> _]]. done. }
  destruct (reserve_loop material quantity_ordered created (materials db))
    as [Hok Hshift].
  { intros item Hin. apply list_elem_of_fmap in Hin as [qi [-> Hqi]]. simpl.
    apply check_availability_passed with (item := qi) in Hcheck as [m [Hm _]];
      [|done].
    split; [by eexists|]. by apply Hq. }
  { done. }
  destruct (for_each_material material
              (fun item m => Some (reserve (quantity_ordered item) m))
              created (materials db)) as [r materials'].
  simpl in Hok, Hshift. subst r. simpl.
  split; [done|]. split; [done|].
  intros k. rewrite Hshift. unfold created.
  by rewrite !total_on_map.
Qed.

(** The same for the API action, whatever its last step answers. *)
Lemma convert_to_order_stock settings request pk db :
  (∀ item, item ∈ Quotation_items pk db → 0 <= quantity item) →
  (∀ k m, materials db !! k = Some m → available_quantity m <= total_quantity m) →
  snd (Api.convert_to_order settings request pk db) = db
  ∨ (check_availability (Quotation_items pk db) (materials db) = Ok true
     ∧ ∀ k, materials (snd (Api.convert_to_order settings request pk db)) !! k
            = shifted (- total_on qi_material quantity k (Quotation_items pk db))
                      (total_on qi_material quantity k (Quotation_items pk db))
              <$> (materials db !! k)).
Proof.
  intros Hq Hwithin. unfold Api.convert_to_order.
  destruct (negb (Accounts.is_authenticated (user request))); [by left|].
  destruct (quotations db !! pk) as [quotation_|]; [|by left].
  destruct (negb (bool_decide (q_status quotation_ = "ACCEPTED"))); [by left|].
  destruct (check_availability (Quotation_items pk db) (materials db))
    as [[|]|e] eqn:Hcheck; [|by left|by left].
  unfold HireOrder_insert, bind. cbn [order_number].
  destruct (Numbering.number_for "OR" (today request) "" (order_numbers db))
    as [number|e]; [|by left].
  right. split; [done|].
  cbn [set_order_number quotation client hire_duration_days].
  set (db1 := with_orders _ db).
  change (Quotation_items pk db1) with (Quotation_items pk db).
  destruct (convert_items_materials (length (orders db)) (Quotation_items pk db) db1)
    as (Hfst & Hmat & _).
  destruct (reserve_loop qi_material quantity (Quotation_items pk db) (materials db))
    as [Hok Hshift].
  { intros item Hin. split; [|by apply Hq].
    apply check_availability_passed with (item := item) in Hcheck as [m [Hm _]];
      [by eexists|done]. }
  { done. }
  change (materials db1) with (materials db) in Hfst, Hmat.
  rewrite Hok in Hfst.
  destruct (Api.convert_items (length (orders db)) (Quotation_items pk db) db1)
    as [r db2].
  simpl in Hfst, Hmat. subst r.
  intros k. rewrite <- Hshift, <- Hmat.
  unfold Quotation_save.
  destruct (calculate_totals settings (set_q_status "CONVERTED" quotation_)
              (Quotation_items pk db2)); done.
Qed.

Lemma total_on_opp {I} (mat : I → nat) (f : I → Z) k (l : list I) :
  total_on mat (fun x => - f x) k l = - total_on mat f k l.
Proof.
  induction l as [|x l IH]; simpl; [done|]. rewrite IH. case_bool_decide; lia.
Qed.

Lemma total_on_le {I} (mat : I → nat) (f g : I → Z) k (l : list I) :
  (∀ x, x ∈ l → f x <= g x) → total_on mat f k l <= total_on mat g k l.
Proof.
  induction l as [|x l IH]; intros H; simpl; [lia|].
  assert (f x <= g x) by (apply H; left).
  assert (total_on mat f k l <= total_on mat g k l)
    by (apply IH; intros y Hy; apply H; by right).
  case_bool_decide; lia.
Qed.

(** Equal sums of pointwise ordered quantities are equal line by line. *)
Lemma total_on_eq_pointwise {I} (mat : I → nat) (f g : I → Z) k (l : list I) :
  (∀ x, x ∈ l → f x <= g x) →
  total_on mat f k l = total_on mat g k l →
  ∀ x, x ∈ l → mat x = k → f x = g x.
Proof.
  induction l as [|y l IH]; intros Hle Heq x Hx Hk.
  - by apply elem_of_nil in Hx.
  - simpl in Heq.
    assert (f y <= g y) by (apply Hle; left).
    assert (total_on mat f k l <= total_on mat g k l)
      by (apply total_on_le; intros z Hz; apply Hle; by right).
    apply elem_of_cons in Hx as [->|Hx].
    + rewrite bool_decide_eq_true_2 in Heq by done. lia.
    + apply IH; [intros z Hz; apply Hle; by right| |done..].
      case_bool_decide; lia.
Qed.

(** A release loop adds non-negative quantities to the available stock:
    the cap stays away as long as the whole addition fits. *)
Lemma release_loop (body : HireOrderItem → Material → option Material)
    (da dh : HireOrderItem → Z) (items : list HireOrderItem)
    (materials : gmap nat Material) :
  (∀ item m, body item m = Some (shifted (da item) (dh item) m)) →
  (∀ item, item ∈ items → is_Some (materials !! material item) ∧ 0 <= da item) →
  (∀ k m, materials !! k = Some m →
          available_quantity m + total_on material da k items <= total_quantity m) →
  fst (for_each_material material body items materials) = Ok tt
  ∧ ∀ k, snd (for_each_material material body items materials) !! k
         = shifted (total_on material da k items) (total_on material dh k items)
           <$> (materials !! k).
Proof.
  intros Hbody Hitems Hfit.
  apply for_each_material_shift; [done|intros item Hin; by apply Hitems|].
  intros k m l1 l2 Hk ->. apply Hfit in Hk. rewrite total_on_app in Hk.
  assert (0 <= total_on material da k l2); [|lia].
  apply total_on_nonneg. intros x Hx. apply Hitems. apply elem_of_app. by right.
Qed.

(** The web transition ACTIVE to RETURNED. *)
Lemma order_update_status_returned request pk db order :
  Accounts.is_authenticated (user request) = true →
  orders db !! pk = Some order →
  status order = "ACTIVE" →
  (∀ item, item ∈ HireOrder_items pk db →
           is_Some (materials db !! material item) ∧ 0 <= quantity_returned item) →
  (∀ k m, materials db !! k = Some m →
          available_quantity m
          + total_on material quantity_returned k (HireOrder_items pk db)
          <= total_quantity m) →
  fst (order_update_status request pk "RETURNED" db)
  = Ok (Redirect (Some msg_success) "hiring:order_detail")
  ∧ ∀ k, materials (snd (order_update_status request pk "RETURNED" db)) !! k
         = shifted (total_on material quantity_returned k (HireOrder_items pk db))
                   (- total_on material quantity_dispatched k (HireOrder_items pk db))
           <$> (materials db !! k).
Proof.
  intros Hauth Hpk Hactive Hitems Hfit.
  unfold order_update_status, login_required. rewrite Hauth. simpl.
  rewrite Hpk, Hactive.
  destruct valid_transitions_table as (_ & _ & _ & -> & _). simpl.
  destruct (release_loop release_returned quantity_returned
              (fun item => - quantity_dispatched item)
              (HireOrder_items pk db) (materials db)) as [Hok Hshift];
    [apply release_returned_shifted|done..|].
  destruct (for_each_material material release_returned (HireOrder_items pk db)
              (materials db)) as [r materials'].
  simpl in Hok, Hshift. subst r. simpl. split; [done|].
  intros k. by rewrite Hshift, total_on_opp.
Qed.

(** The statements of the API action [return_order] that follow
    [get_object], on an ACTIVE order. *)
Lemma return_order_lines_stock today pk db order :
  status order = "ACTIVE" →
  (∀ item, item ∈ HireOrder_items pk db →
           is_Some (materials db !! material item) ∧ 0 <= quantity_dispatched item) →
  (∀ k m, materials db !! k = Some m →
          available_quantity m
          + total_on material quantity_dispatched k (HireOrder_items pk db)
          <= total_quantity m) →
  fst (Api.return_order_lines today pk order db) = Ok (ApiResponse 200)
  ∧ ∀ k, materials (snd (Api.return_order_lines today pk order db)) !! k
         = shifted (total_on material quantity_dispatched k (HireOrder_items pk db))
                   (- total_on material quantity_dispatched k (HireOrder_items pk db))
           <$> (materials db !! k).
Proof.
  intros Hactive Hitems Hfit.
  unfold Api.return_order_lines. rewrite Hactive. simpl.
  change (HireOrder_items pk (HireOrder_update pk _ db)) with (HireOrder_items pk db).
  destruct (release_loop release_dispatched quantity_dispatched
              (fun item => - quantity_dispatched item)
              (HireOrder_items pk db) (materials db)) as [Hok Hshift];
    [apply release_dispatched_shifted|done..|].
  destruct (for_each_material material release_dispatched (HireOrder_items pk db)
              (materials db)) as [r materials'].
  simpl in Hok, Hshift. subst r. simpl. split; [done|].
  intros k. by rewrite Hshift, total_on_opp.
Qed.

End StockLoops.

(** ** Stock: the claims *)

Section Stock.
Import Accounts Hiring HiringViews Scenarios Spec.

(** What the statements of the API action [return_order] after
    [get_object] do, for an ACTIVE order whose lines have existing
    materials and non-negative dispatched quantities, and as long as the
    cap of [Material.save] does not apply: every material gets its
    available quantity increased and its hired quantity decreased by the
    dispatched quantities of the order's lines on it, so that available
    + hired is unchanged; and when every line has
    [0 <= quantity_returned <= quantity_dispatched], the stock ends as
    after the web transition to RETURNED exactly when
    [quantity_returned = quantity_dispatched] on every line. *)
Lemma return_order_lines_release_dispatched request pk db order :
  is_authenticated (user request) = true →
  orders db !! pk = Some order →
  status order = "ACTIVE" →
  (∀ item, item ∈ HireOrder_items pk db →
           is_Some (materials db !! material item)
           ∧ 0 <= quantity_dispatched item) →
  (∀ k m, materials db !! k = Some m →
          available_quantity m
          + total_on material quantity_dispatched k (HireOrder_items pk db)
          <= total_quantity m) →
  fst (Api.return_order_lines (today request) pk order db) = Ok (ApiResponse 200)
  ∧ (∀ k m, materials db !! k = Some m →
       ∃ m', materials (snd (Api.return_order_lines (today request) pk order db))
             !! k = Some m'
             ∧ total_quantity m' = total_quantity m
             ∧ available_quantity m'
               = available_quantity m
                 + total_on material quantity_dispatched k (HireOrder_items pk db)
             ∧ hired_quantity m'
               = hired_quantity m
                 - total_on material quantity_dispatched k (HireOrder_items pk db)
             ∧ available_quantity m' + hired_quantity m'
               = available_quantity m + hired_quantity m)
  ∧ ((∀ item, item ∈ HireOrder_items pk db →
              0 <= quantity_returned item <= quantity_dispatched item) →
     (materials (snd (Api.return_order_lines (today request) pk order db))
      = materials (snd (order_update_status request pk "RETURNED" db))
      ↔ ∀ item, item ∈ HireOrder_items pk db →
                quantity_returned item = quantity_dispatched item)).
Proof.
  intros Hauth Hpk Hactive Hitems Hfit.
  destruct (return_order_lines_stock (today request) pk db order Hactive
              Hitems Hfit)
    as [Hok Hapi].
  split; [done|]. split.
  - intros k m Hk. rewrite Hapi, Hk. simpl. eexists. split; [done|]. simpl. lia.
  - intros Hret.
    destruct (order_update_status_returned request pk db order Hauth Hpk Hactive)
      as [_ Hweb].
    { intros item Hin. split; [by apply Hitems|]. apply Hret in Hin. lia. }
    { intros k m Hk. apply Hfit in Hk.
      assert (total_on material quantity_returned k (HireOrder_items pk db)
              <= total_on material quantity_dispatched k (HireOrder_items pk db));
        [|lia].
      apply total_on_le. intros x Hx. apply Hret in Hx. lia. }
    split.
    + intros Heq item Hin.
      destruct (Hitems item Hin) as [[m Hm] _].
      apply (total_on_eq_pointwise material quantity_returned quantity_dispatched
               (material item) (HireOrder_items pk db)); [|  |done..].
      * intros x Hx. apply Hret in Hx. lia.
      * pose proof (Hapi (material item)) as H1.
        pose proof (Hweb (material item)) as H2.
        rewrite Heq, H2, Hm in H1. simpl in H1. injection H1 as H1. lia.
    + intros Heq. apply map_eq. intros k. rewrite Hapi, Hweb.
      by rewrite (total_on_ext material quantity_returned quantity_dispatched).
Qed.

(** C10 fails on the code: the action is not reached.  A POST by a
    logged-in user to the route [return_order] of the order 0, which is
    ACTIVE with one line of 40 dispatched units of a material that holds
    total 100, available 60, hired 40: the view set hands the request to
    its attribute [dispatch], which is the action of that name, and the
    call of [get_object] on the plain request raises [AttributeError].
    Nothing is written: the order stays ACTIVE and the stock at 60 and
    40.  The statements of [return_order] after [get_object], run on
    that order, would answer 200, store RETURNED and leave the stock at
    available 100 and hired 0, as the claim has it. *)
Theorem return_order_is_not_reached :
  let db := one_order (stock 100 60 40) "ACTIVE" (order_line 40 40 35) in
  let request := Api.HireOrderViewSet (post hce) "return_order" (Some 0%nat) db in
  let statements := Api.return_order_lines 20000 0 (order_in "ACTIVE") db in
  fst request = Raise AttributeError
  ∧ snd request = db
  ∧ status <$> orders (snd request) !! 0%nat = Some "ACTIVE"
  ∧ materials (snd request) !! 1%nat = Some (stock 100 60 40)
  ∧ Api.return_order (post hce) (Some 0%nat) db = (Raise AttributeError, db)
  ∧ fst statements = Ok (ApiResponse 200)
  ∧ status <$> orders (snd statements) !! 0%nat = Some "RETURNED"
  ∧ materials (snd statements) !! 1%nat = Some (stock 100 100 0).
Proof. repeat split; by vm_compute. Qed.

Lemma material_adjust_stock_invariant request pk form
    (materials : gmap nat Material) :
  (∀ k m, materials !! k = Some m → stock_invariant m) →
  ∀ k m, snd (material_adjust_stock request pk form materials) !! k = Some m →
         stock_invariant m.
Proof.
  intros Hinv k m. unfold material_adjust_stock, login_required.
  destruct (is_authenticated (user request)); [|apply Hinv]. simpl.
  destruct (materials !! pk) as [material_|] eqn:Hpk; [|apply Hinv].
  destruct (method request); [apply Hinv|].
  destruct (Inventory.is_valid form) eqn:Hvalid; [|apply Hinv].
  assert (1 <= Inventory.quantity form) as Hq.
  { unfold Inventory.is_valid in Hvalid.
    apply andb_prop in Hvalid as [Hvalid _].
    apply andb_prop in Hvalid as [_ Hvalid]. by apply Z.leb_le. }
  destruct (Hinv pk material_ Hpk) as (Hsum & Hbounds & Hhired).
  destruct (bool_decide (adjustment_type form = "ADD")).
  - simpl. unfold Material_save.
    destruct (decide (pk = k)) as [->|Hne].
    + rewrite lookup_insert_eq. intros [= <-].
      rewrite capped_within by (simpl; lia).
      unfold stock_invariant. simpl. lia.
    + rewrite lookup_insert_ne by done. apply Hinv.
  - destruct (Z.ltb_spec (available_quantity material_) (Inventory.quantity form));
      [apply Hinv|].
    simpl. unfold Material_save.
    destruct (decide (pk = k)) as [->|Hne].
    + rewrite lookup_insert_eq. intros [= <-].
      rewrite capped_within by (simpl; lia).
      unfold stock_invariant. simpl. lia.
    + rewrite lookup_insert_ne by done. apply Hinv.
Qed.

Lemma shifted_reserved_invariant q m :
  stock_invariant m → 0 <= q <= available_quantity m →
  stock_invariant (shifted (- q) q m).
Proof. unfold stock_invariant. simpl. lia. Qed.

(** The reservation at the creation of an order from a quotation keeps
    the invariant, on the web view and on the API action, when the lines
    have non-negative quantities and together ask of no material more
    than is available. *)
Lemma reservation_keeps_invariant settings request form pk db :
  (∀ k m, materials db !! k = Some m → stock_invariant m) →
  (∀ item, item ∈ order_items db → (hire_order item < length (orders db))%nat) →
  (∀ item, item ∈ Quotation_items pk db → 0 <= quantity item) →
  (∀ k m, materials db !! k = Some m →
          total_on qi_material quantity k (Quotation_items pk db)
          <= available_quantity m) →
  (∀ k m,
      materials (snd (create_order_from_quotation request form pk db)) !! k
      = Some m →
      stock_invariant m)
  ∧ (∀ k m,
        materials (snd (Api.convert_to_order settings request pk db)) !! k
        = Some m →
        stock_invariant m).
Proof.
  intros Hinv Hfk Hq Hsum. split.
  - intros k m.
    destruct (create_order_from_quotation_stock request form pk db)
      as [->|(_ & _ & ->)]; [done..| |apply Hinv|].
    { intros k' m' Hk'. apply Hinv in Hk'. unfold stock_invariant in Hk'. lia. }
    destruct (materials db !! k) as [m0|] eqn:Hk; [|done]. simpl. intros [= <-].
    apply shifted_reserved_invariant; [by eapply Hinv|].
    split; [|by apply Hsum]. by apply total_on_nonneg.
  - intros k m.
    destruct (convert_to_order_stock settings request pk db)
      as [->|(_ & ->)]; [done| |apply Hinv|].
    { intros k' m' Hk'. apply Hinv in Hk'. unfold stock_invariant in Hk'. lia. }
    destruct (materials db !! k) as [m0|] eqn:Hk; [|done]. simpl. intros [= <-].
    apply shifted_reserved_invariant; [by eapply Hinv|].
    split; [|by apply Hsum]. by apply total_on_nonneg.
Qed.

(** C1 fails on the code, at the two releases and at the reservation.

    An ACTIVE order has one line with 40 units dispatched and 35
    returned; the material holds total 100, available 60, hired 40, and
    satisfies the invariant.  The transition to RETURNED takes the 40
    dispatched units from the hired quantity and adds the 35 returned
    ones to the available quantity: available 95 and hired 0 do not add
    up to 100.  The transition to COMPLETED then takes the 5 missing
    units from the hired quantity once more: hired is -5.

    A quotation has two lines of 6 units of a material with 10
    available; each line passes the availability test, which looks at
    one line at a time, and the reservation leaves available at -2.

    The manual adjustment keeps the invariant ([material_adjust_stock]
    adds 10 units to total and available). *)
Theorem stock_invariant_by_operation :
  let active := one_order (stock 100 60 40) "ACTIVE" (order_line 40 40 35) in
  let returned := order_update_status (post hce) 0 "RETURNED" active in
  let completed := order_update_status (post hce) 0 "COMPLETED" (snd returned) in
  let reserved :=
    create_order_from_quotation (post hce) dates 1
      (Cases.two_lines (stock 100 10 90) 6 6) in
  let adjusted :=
    material_adjust_stock (post fsm) 1
      {| adjustment_type := "ADD"; Inventory.quantity := 10;
         reason := "new delivery" |}
      {[ 1%nat := stock 100 60 40 ]} in
  stock_invariant (stock 100 60 40)
  ∧ (fst returned = Ok (Redirect (Some msg_success) "hiring:order_detail")
     ∧ status <$> orders (snd returned) !! 0%nat = Some "RETURNED"
     ∧ materials (snd returned) !! 1%nat = Some (stock 100 95 0)
     ∧ ¬ stock_invariant (stock 100 95 0))
  ∧ (fst completed = Ok (Redirect (Some msg_success) "hiring:order_detail")
     ∧ status <$> orders (snd completed) !! 0%nat = Some "COMPLETED"
     ∧ materials (snd completed) !! 1%nat = Some (stock 100 95 (-5))
     ∧ ¬ stock_invariant (stock 100 95 (-5)))
  ∧ (stock_invariant (stock 100 10 90)
     ∧ fst reserved = Ok (Redirect (Some msg_success) "hiring:order_detail")
     ∧ materials (snd reserved) !! 1%nat = Some (stock 100 (-2) 102)
     ∧ ¬ stock_invariant (stock 100 (-2) 102))
  ∧ (snd adjusted !! 1%nat = Some (stock 110 70 40)
     ∧ stock_invariant (stock 110 70 40)).
Proof.
  repeat split;
    first [by vm_compute
          | unfold stock_invariant; cbn; lia].
Qed.

(** [order_create] never stores anything: the order it saves has no
    quotation, client or duration, and the insert is refused. *)
Lemma order_create_never_saves request form formset db :
  snd (order_create request form formset db) = db
  ∧ fst (order_create request form formset db)
    ≠ Ok (Redirect (Some msg_success) "hiring:order_detail").
Proof.
  unfold order_create, login_required.
  destruct (is_authenticated (user request)); [|done]. simpl.
  destruct (method request); [done|].
  destruct (HireOrderForm_is_valid form && formset_is_valid formset db);
    [|done].
  unfold HireOrder_insert, bind, HireOrderForm_instance. cbn [order_number].
  destruct (Numbering.number_for "OR" (today request) "" (order_numbers db));
    done.
Qed.

(** On the two paths from a quotation a line that asks for more than is
    available stops the view before anything is written. *)
Lemma quotation_paths_reject_shortage settings request form pk db item m :
  item ∈ Quotation_items pk db →
  materials db !! qi_material item = Some m →
  available_quantity m < quantity item →
  snd (create_order_from_quotation request form pk db) = db
  ∧ fst (create_order_from_quotation request form pk db)
    ≠ Ok (Redirect (Some msg_success) "hiring:order_detail")
  ∧ snd (Api.convert_to_order settings request pk db) = db
  ∧ fst (Api.convert_to_order settings request pk db) ≠ Ok (ApiResponse 201).
Proof.
  intros Hin Hm Hlt.
  assert (check_availability (Quotation_items pk db) (materials db) ≠ Ok true)
    as Hcheck.
  { intros Hok. apply check_availability_passed with (item := item) in Hok
      as [m' [Hm' Hle]]; [|done].
    rewrite Hm in Hm'. injection Hm' as <-. lia. }
  unfold create_order_from_quotation, Api.convert_to_order, login_required.
  destruct (is_authenticated (user request)); [|done]. simpl.
  destruct (quotations db !! pk) as [quotation_|]; [|done].
  destruct (check_availability (Quotation_items pk db) (materials db))
    as [[|]|e]; [done|..];
    destruct (order_exists pk db);
    destruct (negb (bool_decide (q_status quotation_ = "ACCEPTED"))); done.
Qed.

Lemma quotation_paths_reject_shortage_witness :
  snd (create_order_from_quotation (post hce) dates 1
         (accepted_quotation (stock 100 10 90) 11))
  = accepted_quotation (stock 100 10 90) 11
  ∧ fst (create_order_from_quotation (post hce) dates 1
           (accepted_quotation (stock 100 10 90) 11))
    ≠ Ok (Redirect (Some msg_success) "hiring:order_detail")
  ∧ snd (Api.convert_to_order default_settings (post hce) 1
           (accepted_quotation (stock 100 10 90) 11))
    = accepted_quotation (stock 100 10 90) 11
  ∧ fst (Api.convert_to_order default_settings (post hce) 1
           (accepted_quotation (stock 100 10 90) 11))
    ≠ Ok (ApiResponse 201).
Proof.
  apply (quotation_paths_reject_shortage default_settings (post hce) dates 1
           (accepted_quotation (stock 100 10 90) 11)
           {| qi_quotation := 1; qi_material := 1; quantity := 11;
              daily_rate := PyNum.Dec 500 (-2); duration_days := 30;
              line_total := PyNum.Dec (15000 * 11) (-2) |}
           (stock 100 10 90)).
  - apply list_elem_of_singleton. reflexivity.
  - reflexivity.
  - reflexivity.
Defined.

(** C3, at the failing input.  [order_create] has no availability
    test: its item loop, given a line of 11 units of a material with 10
    available, writes available -1 and hired 101.  As the view stands the
    loop is not even reached: the order is saved without quotation,
    client and duration, the insert raises [IntegrityError], and a line
    asking for exactly the 10 available units fails in the same way.  The
    two paths from a quotation do what the claim says: 11 of 10 is
    rejected with nothing written, 10 of 10 is reserved and leaves 0. *)
Theorem order_create_has_no_stock_check :
  fst (order_create_items 0 (ask 11) (materials ten_available) ten_available)
  = Ok tt
  ∧ materials (snd (order_create_items 0 (ask 11) (materials ten_available)
                      ten_available)) !! 1%nat
    = Some (stock 100 (-1) 101)
  ∧ order_create (post hce) dates (ask 11) ten_available
    = (Raise IntegrityError, ten_available)
  ∧ order_create (post hce) dates (ask 10) ten_available
    = (Raise IntegrityError, ten_available)
  ∧ create_order_from_quotation (post hce) dates 1
      (accepted_quotation (stock 100 10 90) 11)
    = (Ok (Redirect (Some msg_error) "hiring:quotation_detail"),
       accepted_quotation (stock 100 10 90) 11)
  ∧ fst (create_order_from_quotation (post hce) dates 1
           (accepted_quotation (stock 100 10 90) 10))
    = Ok (Redirect (Some msg_success) "hiring:order_detail")
  ∧ materials (snd (create_order_from_quotation (post hce) dates 1
                      (accepted_quotation (stock 100 10 90) 10))) !! 1%nat
    = Some (stock 100 0 100)
  ∧ Api.convert_to_order default_settings (post hce) 1
      (accepted_quotation (stock 100 10 90) 11)
    = (Ok (ApiResponse 400), accepted_quotation (stock 100 10 90) 11)
  ∧ materials (snd (Api.convert_to_order default_settings (post hce) 1
                      (accepted_quotation (stock 100 10 90) 10))) !! 1%nat
    = Some (stock 100 0 100).
Proof. repeat split; by vm_compute. Qed.

(** C6, at the failing input.  The web view creates the order and
    leaves the quotation ACCEPTED; the API action then passes its status
    test, creates a second order for the same quotation and reserves the
    40 units a second time.  The API action does not store CONVERTED
    either: its last step, [quotation.save()], recomputes the totals and
    raises [TypeError], so that the API run twice also creates two
    orders.  Only the web view after an order exists refuses, with
    nothing written. *)
Theorem quotation_converted_twice :
  fst after_web = Ok (Redirect (Some msg_success) "hiring:order_detail")
  ∧ q_status <$> (quotations (snd after_web) !! 1%nat) = Some "ACCEPTED"
  ∧ length (filter (fun o => quotation o = Some 1%nat) (orders (snd after_web)))
    = 1%nat
  ∧ materials (snd after_web) !! 1%nat = Some (stock 100 60 40)
  ∧ fst (Api.convert_to_order default_settings (post hce) 1 (snd after_web))
    = Raise TypeError
  ∧ length (filter (fun o => quotation o = Some 1%nat)
              (orders (snd (Api.convert_to_order default_settings (post hce) 1
                              (snd after_web))))) = 2%nat
  ∧ materials (snd (Api.convert_to_order default_settings (post hce) 1
                      (snd after_web))) !! 1%nat
    = Some (stock 100 20 80)
  ∧ fst after_api = Raise TypeError
  ∧ q_status <$> (quotations (snd after_api) !! 1%nat) = Some "ACCEPTED"
  ∧ length (filter (fun o => quotation o = Some 1%nat)
              (orders (snd (Api.convert_to_order default_settings (post hce) 1
                              (snd after_api))))) = 2%nat
  ∧ create_order_from_quotation (post hce) dates 1 (snd after_web)
    = (Ok (Redirect (Some msg_warning) "hiring:quotation_detail"), snd after_web).
Proof. repeat split; by vm_compute. Qed.

(** No path stores CONVERTED for a quotation read from the database:
    the web view does not assign it, and the save of the API action
    fails as soon as the transport cost is a [Decimal]. *)
Lemma converted_is_never_stored settings request form pk db q d :
  quotations db !! pk = Some q →
  transport_cost q = PyNum.PDecimal d →
  quotations (snd (create_order_from_quotation request form pk db)) !! pk = Some q
  ∧ quotations (snd (Api.convert_to_order settings request pk db)) !! pk = Some q.
Proof.
  intros Hq Hd. split.
  - unfold create_order_from_quotation, login_required.
    destruct (is_authenticated (user request)); [|done]. simpl. rewrite Hq.
    destruct (order_exists pk db); [done|].
    destruct (negb (bool_decide (q_status q = "ACCEPTED"))); [done|].
    destruct (check_availability (Quotation_items pk db) (materials db))
      as [[|]|e]; [|done..].
    destruct (method request); [done|].
    destruct (HireOrderForm_is_valid form); [|done].
    unfold HireOrder_insert, bind. cbn [order_number].
    destruct (Numbering.number_for "OR" (today request) "" (order_numbers db))
      as [number|e]; [|done].
    cbn [set_order_number quotation client hire_duration_days].
    destruct (for_each_material _ _ _ _) as [[u|e] materials']; done.
  - unfold Api.convert_to_order.
    destruct (negb (is_authenticated (user request))); [done|]. rewrite Hq.
    destruct (negb (bool_decide (q_status q = "ACCEPTED"))); [done|].
    destruct (check_availability (Quotation_items pk db) (materials db))
      as [[|]|e]; [|done..].
    unfold HireOrder_insert, bind. cbn [order_number].
    destruct (Numbering.number_for "OR" (today request) "" (order_numbers db))
      as [number|e]; [|done].
    cbn [set_order_number quotation client hire_duration_days].
    set (db1 := with_orders _ db).
    destruct (convert_items_materials (length (orders db)) (Quotation_items pk db1) db1)
      as (_ & _ & _ & Hquot & _).
    destruct (Api.convert_items (length (orders db)) (Quotation_items pk db1) db1)
      as [[u|e] db2]; cbn [fst snd] in *; [|by rewrite Hquot].
    unfold Quotation_save.
    rewrite calculate_totals_raises; [cbn [fst snd bind]; by rewrite Hquot|].
    right. by exists d.
Qed.

End Stock.

(** ** Who may call the function views *)

Section Roles.
Import Accounts Hiring HiringViews Inventory.

(** The function views of [hiring] and [inventory] test the role
    methods without calling them, so the tests never reject: for two
    authenticated users, whatever their roles, the same request gets
    the same answer and writes the same rows.  A scaffolder or a driver
    changes the status of an order, creates an order from a quotation
    and adjusts the stock exactly as an administrator does. *)
Theorem role_checks_never_reject (request request' : Request) :
  is_authenticated (user request) = true →
  is_authenticated (user request') = true →
  method request' = method request →
  today request' = today request →
  (∀ pk new_status db,
     order_update_status request' pk new_status db
     = order_update_status request pk new_status db)
  ∧ (∀ form quotation_pk db,
       create_order_from_quotation request' form quotation_pk db
       = create_order_from_quotation request form quotation_pk db)
  ∧ (∀ pk form materials,
       material_adjust_stock request' pk form materials
       = material_adjust_stock request pk form materials).
Proof.
  intros Hauth Hauth' Hmethod Htoday.
  repeat split; intros;
    unfold order_update_status, create_order_from_quotation,
      material_adjust_stock, login_required, attribute_truth;
    rewrite Hauth, Hauth', ?Hmethod, ?Htoday; reflexivity.
Qed.

Lemma role_checks_never_reject_witness :
  (∀ pk new_status db,
     order_update_status
       {| user := {| user_id := 9; role := "DRIVER"; is_authenticated := true |};
          method := POST; today := 20000 |} pk new_status db
     = order_update_status
         {| user := {| user_id := 1; role := "ADMIN"; is_authenticated := true |};
            method := POST; today := 20000 |} pk new_status db)
  ∧ (∀ form quotation_pk db,
       create_order_from_quotation
         {| user := {| user_id := 9; role := "DRIVER"; is_authenticated := true |};
            method := POST; today := 20000 |} form quotation_pk db
       = create_order_from_quotation
           {| user := {| user_id := 1; role := "ADMIN"; is_authenticated := true |};
              method := POST; today := 20000 |} form quotation_pk db)
  ∧ (∀ pk form materials,
       material_adjust_stock
         {| user := {| user_id := 9; role := "DRIVER"; is_authenticated := true |};
            method := POST; today := 20000 |} pk form materials
       = material_adjust_stock
           {| user := {| user_id := 1; role := "ADMIN"; is_authenticated := true |};
              method := POST; today := 20000 |} pk form materials).
Proof.
  apply (role_checks_never_reject
           {| user := {| user_id := 1; role := "ADMIN"; is_authenticated := true |};
              method := POST; today := 20000 |}
           {| user := {| user_id := 9; role := "DRIVER"; is_authenticated := true |};
              method := POST; today := 20000 |});
    reflexivity.
Defined.

End Roles.

(** ** The life of an order through the web views *)

Section Lifecycle.
Import Accounts Hiring HiringViews Workflow.

(** A loop none of whose rounds saves leaves the table as it is. *)
Lemma for_each_material_idle {I} (mat : I → nat)
    (body : I → Material → option Material) (items : list I)
    (materials : gmap nat Material) :
  (∀ item, item ∈ items → is_Some (materials !! mat item)) →
  (∀ item m, item ∈ items → body item m = None) →
  for_each_material mat body items materials = (Ok tt, materials).
Proof.
  induction items as [|item rest IH]; intros Hex Hbody; [done|].
  cbn [for_each_material].
  destruct (Hex item) as [m Hm]; [by left|]. rewrite Hm.
  rewrite Hbody by left. apply IH.
  - intros it Hit. apply Hex. by right.
  - intros it m' Hit. apply Hbody. by right.
Qed.

(** [order_update_status] writes neither lines nor quotations. *)
Lemma order_update_status_lines request pk new_status db :
  order_items (snd (order_update_status request pk new_status db)) = order_items db.
Proof.
  unfold order_update_status, login_required.
  destruct (is_authenticated (user request)); [|done]. simpl.
  destruct (orders db !! pk) as [order|]; [|done].
  destruct (negb _); [done|].
  destruct (bool_decide (new_status = "RETURNED")).
  - destruct (for_each_material _ _ _ _) as [[u|e] materials']; done.
  - destruct (bool_decide (new_status = "COMPLETED")); [|done].
    destruct (for_each_material _ _ _ _) as [[u|e] materials']; done.
Qed.

(** One accepted transition of an order none of whose lines records a
    dispatched or a returned quantity: the status is stored and the
    stock is as before. *)
Lemma quiet_transition request pk db order new_status :
  is_authenticated (user request) = true →
  orders db !! pk = Some order →
  new_status ∈ default [] (valid_transitions !! status order) →
  (∀ item, item ∈ HireOrder_items pk db →
           is_Some (materials db !! material item)
           ∧ quantity_dispatched item = 0 ∧ quantity_returned item = 0) →
  (∀ k m, materials db !! k = Some m → available_quantity m <= total_quantity m) →
  fst (order_update_status request pk new_status db)
  = Ok (Redirect (Some msg_success) "hiring:order_detail")
  ∧ materials (snd (order_update_status request pk new_status db)) = materials db
  ∧ ∃ order', orders (snd (order_update_status request pk new_status db)) !! pk
              = Some order'
              ∧ status order' = new_status.
Proof.
  intros Hauth Hpk Hvalid Hlines Hwithin.
  pose proof (lookup_lt_Some _ _ _ Hpk) as Hlt.
  unfold order_update_status, login_required. rewrite Hauth. simpl.
  rewrite Hpk. rewrite bool_decide_eq_true_2 by done. simpl.
  case_bool_decide as Hret; [|case_bool_decide as Hcomp].
  - assert (snd (for_each_material material release_returned
                   (HireOrder_items pk db) (materials db)) = materials db
            ∧ fst (for_each_material material release_returned
                     (HireOrder_items pk db) (materials db)) = Ok tt) as [Hm Hok].
    { destruct (release_loop release_returned quantity_returned
                  (fun item => - quantity_dispatched item)
                  (HireOrder_items pk db) (materials db)) as [Hok Hshift].
      - apply release_returned_shifted.
      - intros item Hin. destruct (Hlines item Hin) as (? & ? & ->). done.
      - intros k m Hk.
        rewrite (total_on_ext material quantity_returned (fun _ => 0)).
        + assert (total_on material (fun _ : HireOrderItem => 0) k
                    (HireOrder_items pk db) = 0) as ->.
          { clear. induction (HireOrder_items pk db) as [|x l IH]; simpl; [done|].
            rewrite IH. by case_bool_decide. }
          apply Hwithin in Hk. lia.
        + intros x Hx. by destruct (Hlines x Hx) as (_ & _ & ->).
      - split; [|done]. apply map_eq. intros k. rewrite Hshift.
        rewrite (total_on_ext material quantity_returned (fun _ => 0)).
        2:{ intros x Hx. by destruct (Hlines x Hx) as (_ & _ & ->). }
        rewrite (total_on_ext material (fun item => - quantity_dispatched item)
                   (fun _ => 0)).
        2:{ intros x Hx. by destruct (Hlines x Hx) as (_ & -> & _). }
        assert (total_on material (fun _ : HireOrderItem => 0) k
                  (HireOrder_items pk db) = 0) as ->.
        { clear. induction (HireOrder_items pk db) as [|x l IH]; simpl; [done|].
          rewrite IH. by case_bool_decide. }
        destruct (materials db !! k) as [m|]; simpl; [|done].
        by rewrite shifted_zero. }
    destruct (for_each_material material release_returned (HireOrder_items pk db)
                (materials db)) as [r materials'].
    simpl in Hm, Hok. subst r materials'. simpl.
    split; [done|]. split; [by destruct db|].
    eexists. split; [by apply list_lookup_insert_eq|]. done.
  - rewrite for_each_material_idle.
    + simpl. split; [done|]. split; [by destruct db|].
      eexists. split; [by apply list_lookup_insert_eq|]. done.
    + intros item Hin. by destruct (Hlines item Hin).
    + intros item m Hin. unfold release_completed.
      destruct (Hlines item Hin) as (_ & -> & ->). done.
  - simpl. split; [done|]. split; [done|].
    eexists. split; [by apply list_lookup_insert_eq|]. done.
Qed.

(** An order whose lines record no dispatched and no returned quantity
    (the web views create them so and never write these columns) goes
    through APPROVED, DISPATCHED, ACTIVE, RETURNED and COMPLETED without
    any change to the stock: every request is accepted, the order ends
    COMPLETED, and each material keeps the available and hired
    quantities it had while the order was open.  The units reserved for
    the order are never given back. *)
Theorem web_lifecycle_releases_nothing request pk db order :
  is_authenticated (user request) = true →
  orders db !! pk = Some order →
  status order = "ORDERED" →
  (∀ item, item ∈ HireOrder_items pk db →
           is_Some (materials db !! material item)
           ∧ quantity_dispatched item = 0 ∧ quantity_returned item = 0) →
  (∀ k m, materials db !! k = Some m → available_quantity m <= total_quantity m) →
  materials (run_transitions request pk lifecycle db) = materials db
  ∧ order_items (run_transitions request pk lifecycle db) = order_items db
  ∧ status <$> (orders (run_transitions request pk lifecycle db) !! pk)
    = Some "COMPLETED".
Proof.
  intros Hauth Hpk Hstatus Hlines Hwithin.
  assert (∀ db s order new_status,
            orders db !! pk = Some order → status order = s →
            new_status ∈ default [] (valid_transitions !! s) →
            (∀ item, item ∈ HireOrder_items pk db →
                     is_Some (materials db !! material item)
                     ∧ quantity_dispatched item = 0 ∧ quantity_returned item = 0) →
            (∀ k m, materials db !! k = Some m →
                    available_quantity m <= total_quantity m) →
            let db' := snd (order_update_status request pk new_status db) in
            materials db' = materials db
            ∧ order_items db' = order_items db
            ∧ (∃ order', orders db' !! pk = Some order' ∧ status order' = new_status)
            ∧ (∀ item, item ∈ HireOrder_items pk db' →
                       is_Some (materials db' !! material item)
                       ∧ quantity_dispatched item = 0 ∧ quantity_returned item = 0)
            ∧ (∀ k m, materials db' !! k = Some m →
                      available_quantity m <= total_quantity m)) as Hstep.
  { intros db0 s order0 new_status Hpk0 Hs Hvalid Hlines0 Hwithin0. subst s.
    destruct (quiet_transition request pk db0 order0 new_status)
      as (_ & Hm & Ho); [done..|].
    pose proof (order_update_status_lines request pk new_status db0) as Hl.
    cbv zeta. split; [done|]. split; [done|]. split; [done|].
    unfold HireOrder_items. rewrite Hl, Hm. split; [apply Hlines0|apply Hwithin0]. }
  unfold run_transitions, lifecycle. cbn [fold_left].
  destruct (Hstep db "ORDERED" order "APPROVED")
    as (Hm1 & Hl1 & (o1 & Ho1 & Hs1) & Hlines1 & Hw1);
    [done|done|closed_decision|done|done|].
  set (db1 := snd (order_update_status request pk "APPROVED" db)) in *.
  destruct (Hstep db1 "APPROVED" o1 "DISPATCHED")
    as (Hm2 & Hl2 & (o2 & Ho2 & Hs2) & Hlines2 & Hw2);
    [done|done|closed_decision|done|done|].
  set (db2 := snd (order_update_status request pk "DISPATCHED" db1)) in *.
  destruct (Hstep db2 "DISPATCHED" o2 "ACTIVE")
    as (Hm3 & Hl3 & (o3 & Ho3 & Hs3) & Hlines3 & Hw3);
    [done|done|closed_decision|done|done|].
  set (db3 := snd (order_update_status request pk "ACTIVE" db2)) in *.
  destruct (Hstep db3 "ACTIVE" o3 "RETURNED")
    as (Hm4 & Hl4 & (o4 & Ho4 & Hs4) & Hlines4 & Hw4);
    [done|done|closed_decision|done|done|].
  set (db4 := snd (order_update_status request pk "RETURNED" db3)) in *.
  destruct (Hstep db4 "RETURNED" o4 "COMPLETED")
    as (Hm5 & Hl5 & (o5 & Ho5 & Hs5) & _ & _);
    [done|done|closed_decision|done|done|].
  split; [congruence|]. split; [congruence|].
  by rewrite Ho5, <- Hs5.
Qed.

Lemma web_lifecycle_releases_nothing_witness :
  materials (run_transitions (Scenarios.post Scenarios.hce) 0 lifecycle
               (Scenarios.one_order (Scenarios.stock 100 60 40) "ORDERED"
                  (Scenarios.order_line 40 0 0)))
  = {[ 1%nat := Scenarios.stock 100 60 40 ]}
  ∧ order_items (run_transitions (Scenarios.post Scenarios.hce) 0 lifecycle
                   (Scenarios.one_order (Scenarios.stock 100 60 40) "ORDERED"
                      (Scenarios.order_line 40 0 0)))
    = [Scenarios.order_line 40 0 0]
  ∧ status <$> (orders (run_transitions (Scenarios.post Scenarios.hce) 0 lifecycle
                          (Scenarios.one_order (Scenarios.stock 100 60 40) "ORDERED"
                             (Scenarios.order_line 40 0 0))) !! 0%nat)
    = Some "COMPLETED".
Proof.
  apply (web_lifecycle_releases_nothing (Scenarios.post Scenarios.hce) 0
           (Scenarios.one_order (Scenarios.stock 100 60 40) "ORDERED"
              (Scenarios.order_line 40 0 0))
           (Scenarios.order_in "ORDERED")).
  - reflexivity.
  - reflexivity.
  - reflexivity.
  - intros item Hin. apply list_elem_of_singleton in Hin as ->.
    split; [by eexists|]. done.
  - intros k m Hk. unfold Scenarios.one_order in Hk. cbn [materials] in Hk.
    apply lookup_singleton_Some in Hk as [<- <-]. vm_compute. discriminate.
Defined.

End Lifecycle.

(** ** Orders created from quotations *)

Section OrderCreation.
Import Accounts Hiring HiringViews.

(** What [create_order_from_quotation] writes when nothing stops it and
    [save] issues the number [number]. *)
Lemma create_order_from_quotation_success request form quotation_pk db quotation_
    number :
  is_authenticated (user request) = true →
  method request = POST →
  HireOrderForm_is_valid form = true →
  quotations db !! quotation_pk = Some quotation_ →
  q_status quotation_ = "ACCEPTED" →
  order_exists quotation_pk db = false →
  Numbering.number_for "OR" (today request) "" (order_numbers db) = Ok number →
  (∀ item, item ∈ order_items db → (hire_order item < length (orders db))%nat) →
  (∀ item, item ∈ Quotation_items quotation_pk db →
           ∃ m, materials db !! qi_material item = Some m
                ∧ 0 <= quantity item <= available_quantity m) →
  (∀ k m, materials db !! k = Some m → available_quantity m <= total_quantity m) →
  fst (create_order_from_quotation request form quotation_pk db)
  = Ok (Redirect (Some msg_success) "hiring:order_detail")
  ∧ orders (snd (create_order_from_quotation request form quotation_pk db))
    = orders db ++
      [{| order_number := number;
          quotation := Some quotation_pk;
          client := Some (q_client quotation_);
          hire_duration_days := Some (q_hire_duration_days quotation_);
          start_date := default 0 (form_start_date form);
          expected_return_date := default 0 (form_expected_return_date form);
          actual_return_date := None; status := "ORDERED" |}]
  ∧ order_items (snd (create_order_from_quotation request form quotation_pk db))
    = order_items db ++
      map (fun qi => new_order_item (length (orders db)) (qi_material qi) (quantity qi))
          (Quotation_items quotation_pk db)
  ∧ quotations (snd (create_order_from_quotation request form quotation_pk db))
    = quotations db
  ∧ ∀ k, materials (snd (create_order_from_quotation request form quotation_pk db))
         !! k
         = shifted (- total_on qi_material quantity k (Quotation_items quotation_pk db))
                   (total_on qi_material quantity k (Quotation_items quotation_pk db))
           <$> (materials db !! k).
Proof.
  intros Hauth Hpost Hform Hq Hacc Hnone Hnumber Hfk Hlines Hwithin.
  assert (check_availability (Quotation_items quotation_pk db) (materials db)
          = Ok true) as Hcheck.
  { apply check_availability_passed. intros item Hin.
    destruct (Hlines item Hin) as (m & Hm & Hle). exists m. split; [done|lia]. }
  unfold create_order_from_quotation, login_required.
  rewrite Hauth. simpl. rewrite Hq, Hnone, Hacc. simpl.
  rewrite Hcheck, Hpost, Hform.
  unfold HireOrder_insert, bind. cbn [order_number]. rewrite Hnumber.
  cbn [set_order_number quotation client hire_duration_days].
  unfold HireOrder_items, Quotation_items in *.
  cbn [with_orders with_order_items orders order_items materials quotations
       quotation_items].
  set (lines := filter (fun it => qi_quotation it = quotation_pk) (quotation_items db))
    in *.
  set (created := map (fun qi => new_order_item (length (orders db))
                                   (qi_material qi) (quantity qi)) lines).
  rewrite (HireOrder_items_created db created Hfk).
  2:{ intros item Hin. apply list_elem_of_fmap in Hin as [qi [-> _]]. done. }
  destruct (reserve_loop material quantity_ordered created (materials db))
    as [Hok Hshift].
  { intros item Hin. apply list_elem_of_fmap in Hin as [qi [-> Hqi]]. simpl.
    destruct (Hlines qi Hqi) as (m & Hm & Hle). split; [by eexists|lia]. }
  { done. }
  destruct (for_each_material material
              (fun item m => Some (reserve (quantity_ordered item) m))
              created (materials db)) as [r materials'].
  simpl in Hok, Hshift. subst r. simpl.
  repeat split.
  intros k. rewrite Hshift. unfold created. by rewrite !total_on_map.
Qed.

(** [create_order_from_quotation], when it goes through.  For an
    ACCEPTED quotation without an order, posted with valid dates by an
    authenticated user, each of whose lines asks for no more than its
    material has available, in a database whose order numbers of the
    year are well formed: the view answers with the success redirect;
    one order is appended, ORDERED, for the quotation and its client,
    under the next number of the year, which no stored order has; one
    line is created per quotation line, in order, with nothing
    dispatched or returned; the quotation is left as it was (still
    ACCEPTED); and every material has the quantities of its lines moved
    from available to hired.  The availability test looks at one line at
    a time: lines on the same material that fit one by one are all
    reserved, also when together they exceed what is available. *)
Theorem create_order_from_quotation_reserves request form quotation_pk db quotation_ :
  is_authenticated (user request) = true →
  method request = POST →
  HireOrderForm_is_valid form = true →
  quotations db !! quotation_pk = Some quotation_ →
  q_status quotation_ = "ACCEPTED" →
  order_exists quotation_pk db = false →
  Spec.well_formed (Numbering.stem "OR" (Numbering.year_of_day (today request)))
    (order_numbers db) →
  (∀ item, item ∈ order_items db → (hire_order item < length (orders db))%nat) →
  (∀ item, item ∈ Quotation_items quotation_pk db →
           ∃ m, materials db !! qi_material item = Some m
                ∧ 0 <= quantity item <= available_quantity m) →
  (∀ k m, materials db !! k = Some m → available_quantity m <= total_quantity m) →
  ∃ number,
    Spec.next_in_sequence
      (Numbering.stem "OR" (Numbering.year_of_day (today request)))
      (order_numbers db) (Ok number)
    ∧ fst (create_order_from_quotation request form quotation_pk db)
      = Ok (Redirect (Some msg_success) "hiring:order_detail")
    ∧ orders (snd (create_order_from_quotation request form quotation_pk db))
      = orders db ++
        [{| order_number := number;
            quotation := Some quotation_pk;
            client := Some (q_client quotation_);
            hire_duration_days := Some (q_hire_duration_days quotation_);
            start_date := default 0 (form_start_date form);
            expected_return_date := default 0 (form_expected_return_date form);
            actual_return_date := None; status := "ORDERED" |}]
    ∧ order_items (snd (create_order_from_quotation request form quotation_pk db))
      = order_items db ++
        map (fun qi => new_order_item (length (orders db)) (qi_material qi)
                         (quantity qi))
            (Quotation_items quotation_pk db)
    ∧ quotations (snd (create_order_from_quotation request form quotation_pk db))
      = quotations db
    ∧ ∀ k, materials (snd (create_order_from_quotation request form quotation_pk db))
           !! k
           = shifted
               (- total_on qi_material quantity k (Quotation_items quotation_pk db))
               (total_on qi_material quantity k (Quotation_items quotation_pk db))
             <$> (materials db !! k).
Proof.
  intros Hauth Hpost Hform Hq Hacc Hnone Hwf Hfk Hlines Hwithin.
  destruct (number_for_in_sequence "OR" (today request) (order_numbers db) Hwf)
    as (number & Hnumber & Hnext).
  exists number. split; [exact Hnext|].
  by apply create_order_from_quotation_success.
Qed.

Lemma create_order_from_quotation_reserves_witness :
  ∃ number,
    Spec.next_in_sequence (Numbering.stem "OR" 2024) [] (Ok number)
    ∧ fst (create_order_from_quotation (Scenarios.post Scenarios.hce)
             Scenarios.dates 1
             (Cases.two_lines (Scenarios.stock 100 10 90) 6 6))
      = Ok (Redirect (Some msg_success) "hiring:order_detail")
    ∧ materials (snd (create_order_from_quotation (Scenarios.post Scenarios.hce)
                        Scenarios.dates 1
                        (Cases.two_lines (Scenarios.stock 100 10 90) 6 6)))
      !! 1%nat
      = Some (Scenarios.stock 100 (-2) 102).
Proof.
  destruct (create_order_from_quotation_reserves (Scenarios.post Scenarios.hce)
              Scenarios.dates 1 (Cases.two_lines (Scenarios.stock 100 10 90) 6 6)
              Scenarios.example_quotation)
    as (number & Hnumber & Hok & _ & _ & _ & Hstock).
  - reflexivity.
  - reflexivity.
  - reflexivity.
  - reflexivity.
  - reflexivity.
  - reflexivity.
  - intros s Hs. by apply elem_of_nil in Hs.
  - intros item Hin. by apply elem_of_nil in Hin.
  - intros item Hin. exists (Scenarios.stock 100 10 90).
    repeat (apply elem_of_cons in Hin as [->|Hin]);
      [by vm_compute..|by apply elem_of_nil in Hin].
  - intros k m Hk. unfold Cases.two_lines in Hk. cbn [materials] in Hk.
    apply lookup_singleton_Some in Hk as [<- <-]. vm_compute. discriminate.
  - exists number. split; [exact Hnumber|].
    split; [exact Hok|]. rewrite Hstock. reflexivity.
Defined.

End OrderCreation.

(** ** Overdue orders *)

Section Overdue.
Import Hiring HireOrders Tasks.

(** [HireOrder.days_overdue] is never negative.  It is positive exactly
    when the order came back after the expected date, or is ACTIVE past
    that date; an order that is late in any other status (DISPATCHED,
    say) counts as zero days overdue.  Once a late return is recorded
    the count is frozen: it no longer depends on the day of the call or
    on the status. *)
Theorem days_overdue_cases (self : HireOrder) (today : Z) :
  0 <= days_overdue self today
  ∧ (0 < days_overdue self today ↔
     (∃ returned, actual_return_date self = Some returned
                  ∧ expected_return_date self < returned)
     ∨ (status self = "ACTIVE" ∧ expected_return_date self < today))
  ∧ (∀ returned, actual_return_date self = Some returned →
                 expected_return_date self < returned →
                 days_overdue self today = returned - expected_return_date self)
  ∧ (actual_return_date self = None → status self ≠ "ACTIVE" →
     days_overdue self today = 0).
Proof.
  unfold days_overdue.
  destruct (actual_return_date self) as [returned|].
  - destruct (Z.ltb_spec (expected_return_date self) returned).
    + split; [lia|]. split; [|split; [by intros ? [= <-] ?|done]].
      split; [intros _; left; eauto|lia].
    + case_bool_decide; simpl;
        [destruct (Z.ltb_spec (expected_return_date self) today)|];
        (split; [lia|]); (split; [|split; [intros ? [= <-] ?; lia|done]]).
      * split; [by intros _; right|lia].
      * split; [lia|]. intros [(r & [= <-] & ?)|[_ ?]]; lia.
      * split; [lia|]. intros [(r & [= <-] & ?)|[? ?]]; [lia|done].
  - case_bool_decide; simpl;
      [destruct (Z.ltb_spec (expected_return_date self) today)|];
      (split; [lia|]); (split; [|split; [done|done]]).
    + split; [by intros _; right|lia].
    + split; [lia|]. intros [(r & ? & ?)|[_ ?]]; [done|lia].
    + split; [lia|]. intros [(r & ? & ?)|[? ?]]; done.
Qed.

(** The reminders queued by one run of [check_overdue_returns] are one
    per ACTIVE order that is exactly 1, 3 or 7 days past its expected
    return date (first reminder, second reminder, final warning); an
    order at any other distance is passed over, so a day on which the
    task does not run loses its reminder.  Of the reminders queued,
    [send_overdue_notification] completes only the first kind: the
    second reminder and the final warning always return [False]. *)
Theorem overdue_reminders (today : Z) (orders : list HireOrder) (pk : nat)
    (n : notification) :
  ((pk, n) ∈ (check_overdue_returns today orders).1 ↔
   ∃ order, orders !! pk = Some order ∧ status order = "ACTIVE"
            ∧ ((today - expected_return_date order = 1 ∧ n = FIRST_REMINDER)
               ∨ (today - expected_return_date order = 3 ∧ n = SECOND_REMINDER)
               ∨ (today - expected_return_date order = 7 ∧ n = FINAL_WARNING)))
  ∧ ((pk, n) ∈ (check_overdue_returns today orders).1
     ∧ send_overdue_notification pk n orders = true ↔
     ∃ order, orders !! pk = Some order ∧ status order = "ACTIVE"
              ∧ today - expected_return_date order = 1 ∧ n = FIRST_REMINDER).
Proof.
  assert ((pk, n) ∈ (check_overdue_returns today orders).1 ↔
          ∃ order, orders !! pk = Some order ∧ status order = "ACTIVE"
                   ∧ ((today - expected_return_date order = 1 ∧ n = FIRST_REMINDER)
                      ∨ (today - expected_return_date order = 3
                         ∧ n = SECOND_REMINDER)
                      ∨ (today - expected_return_date order = 7
                         ∧ n = FINAL_WARNING))) as Hqueued.
  { unfold check_overdue_returns. cbn [fst].
    rewrite list_elem_of_omap. split.
    - intros ([i order] & Hin & Hrem).
      apply list_elem_of_filter in Hin as [Hover Hin].
      apply elem_of_lookup_imap in Hin as (j & o & [= -> ->] & Hj).
      cbn [fst snd] in *. unfold overdue in Hover.
      apply andb_prop in Hover as [Hactive Hlate].
      apply bool_decide_eq_true in Hactive.
      unfold reminder in Hrem.
      destruct (Z.eqb_spec (today - expected_return_date o) 1);
        [injection Hrem as <- <-; eauto 10|].
      destruct (Z.eqb_spec (today - expected_return_date o) 3);
        [injection Hrem as <- <-; eauto 10|].
      destruct (Z.eqb_spec (today - expected_return_date o) 7);
        [injection Hrem as <- <-; eauto 10|done].
    - intros (order & Hpk & Hactive & Hcases).
      exists (pk, order). split.
      + apply list_elem_of_filter. split.
        * cbn [snd]. unfold overdue. rewrite bool_decide_eq_true_2 by done.
          simpl. apply Z.ltb_lt. lia.
        * apply elem_of_lookup_imap. eauto.
      + cbn [fst snd]. unfold reminder.
        destruct Hcases as [[-> ->]|[[-> ->]|[-> ->]]]; reflexivity. }
  split; [exact Hqueued|]. rewrite Hqueued. unfold send_overdue_notification.
  split.
  - intros [(order & Hpk & Hactive & Hcases) Hsent]. rewrite Hpk in Hsent.
    exists order.
    destruct Hcases as [[? ->]|[[? ->]|[? ->]]]; done.
  - intros (order & Hpk & Hactive & Hday & ->). rewrite Hpk. eauto 10.
Qed.

End Overdue.

(** ** The status of a quotation *)

Section QuotationStatus.
Import Accounts PyNum Hiring QuotationViews.

(** No web view changes the status of a stored quotation.  A quotation
    read from the database has a [Decimal] transport cost, so the
    [save] of [quotation_approve] and of [quotation_accept] stops in
    [calculate_totals] with [TypeError] before the row is written, and
    [quotation_send_to_client] stops at the missing PDF function: the
    three views leave the database as it was, whatever the request.  A
    DRAFT quotation is not approved and a SENT quotation is not
    accepted: the requests end in the exception. *)
Theorem quotation_status_is_never_stored settings request pk db :
  (∀ k q, quotations db !! k = Some q → ∃ d, transport_cost q = PDecimal d) →
  snd (quotation_approve settings request pk db) = db
  ∧ snd (quotation_send_to_client request pk db) = db
  ∧ snd (quotation_accept settings request pk db) = db
  ∧ (∀ q, is_authenticated (user request) = true →
          quotations db !! pk = Some q → q_status q = "DRAFT" →
          fst (quotation_approve settings request pk db) = Raise TypeError)
  ∧ (∀ q, is_authenticated (user request) = true →
          quotations db !! pk = Some q → q_status q = "SENT" →
          fst (quotation_accept settings request pk db) = Raise TypeError).
Proof.
  intros Hdec.
  assert (∀ q s, quotations db !! pk = Some q →
                 Quotation_save settings pk (set_q_status s q) db = Raise TypeError)
    as Hsave.
  { intros q s Hq. unfold Quotation_save.
    rewrite calculate_totals_raises; [done|].
    right. destruct (Hdec pk q Hq) as [d Hd]. by exists d. }
  repeat split.
  - unfold quotation_approve, login_required.
    destruct (is_authenticated (user request)); [|done]. simpl.
    destruct (quotations db !! pk) as [q|] eqn:Hq; [|done].
    destruct (negb _); [done|]. by rewrite Hsave.
  - unfold quotation_send_to_client, login_required.
    destruct (is_authenticated (user request)); [|done]. simpl.
    destruct (quotations db !! pk) as [q|] eqn:Hq; [|done].
    by destruct (negb _).
  - unfold quotation_accept, login_required.
    destruct (is_authenticated (user request)); [|done]. simpl.
    destruct (quotations db !! pk) as [q|] eqn:Hq; [|done].
    destruct (negb _); [done|]. by rewrite Hsave.
  - intros q Hauth Hq Hs. unfold quotation_approve, login_required.
    rewrite Hauth. simpl. rewrite Hq, Hs. simpl. by rewrite Hsave.
  - intros q Hauth Hq Hs. unfold quotation_accept, login_required.
    rewrite Hauth. simpl. rewrite Hq, Hs. simpl. by rewrite Hsave.
Qed.

Lemma quotation_status_is_never_stored_witness :
  quotation_approve Scenarios.default_settings (Scenarios.post Scenarios.fsm) 1
    (Cases.draft_quotation)
  = (Raise TypeError, Cases.draft_quotation).
Proof.
  destruct (quotation_status_is_never_stored Scenarios.default_settings
              (Scenarios.post Scenarios.fsm) 1 Cases.draft_quotation)
    as (Hdb & _ & _ & Hraise & _).
  - intros k q Hq. unfold Cases.draft_quotation in Hq. cbn [quotations] in Hq.
    apply lookup_singleton_Some in Hq as [<- <-]. by eexists.
  - rewrite (surjective_pairing (quotation_approve _ _ _ _)).
    rewrite Hdb. erewrite Hraise; reflexivity.
Defined.

End QuotationStatus.

(** ** Lease agreements *)

Section LeaseSigning.
Import Accounts Leases.

Lemma existsb_leases_of order_pk db :
  existsb (fun l => bool_decide (hire_order l = order_pk)) (leases db) = false
  ↔ leases_of order_pk db = [].
Proof.
  unfold leases_of. induction (leases db) as [|l rest IH]; [done|].
  simpl. case_bool_decide as Hl.
  - rewrite filter_cons_True by done. done.
  - rewrite filter_cons_False by done. done.
Qed.

(** Replacing a row by one that answers a test alike keeps the number
    of rows that pass the test. *)
Lemma length_filter_insert {A} (P : A → Prop) `{!∀ x, Decision (P x)}
    (l : list A) (i : nat) (x y : A) :
  l !! i = Some x → (P y ↔ P x) →
  length (filter P (<[i := y]> l)) = length (filter P l).
Proof.
  revert i. induction l as [|z l IH]; intros [|i] Hi Hiff; try done.
  - injection Hi as ->. cbn [insert list_insert]. rewrite !filter_cons.
    destruct (decide (P y)), (decide (P x)); tauto || done.
  - cbn [insert list_insert]. rewrite !filter_cons.
    destruct (decide (P z)); simpl; [f_equal|]; by apply IH.
Qed.

(** The two signatures of a lease may come in either order.  For a
    stored lease that nobody has signed, the FSM's request followed by
    the client's and the client's followed by the FSM's both end with
    the same row: signed by both, with the two dates, and ACTIVE.  Each
    signature is taken once: on the signed lease both requests are
    answered with a warning and nothing is written. *)
Theorem lease_signatures_commute fsm_request client_request pk db lease :
  is_authenticated (user fsm_request) = true →
  is_authenticated (user client_request) = true →
  leases db !! pk = Some lease →
  signed_by_client lease = false →
  signed_by_fsm lease = None →
  let signed :=
    set_status "ACTIVE"
      (set_signed_by_client (today client_request)
         (set_signed_by_fsm (user_id (user fsm_request)) (today fsm_request) lease)) in
  let db' := with_leases (<[pk := signed]> (leases db)) db in
  snd (lease_sign_client client_request pk (snd (lease_sign_fsm fsm_request pk db)))
  = db'
  ∧ snd (lease_sign_fsm fsm_request pk (snd (lease_sign_client client_request pk db)))
    = db'
  ∧ is_fully_signed signed = true
  ∧ lease_sign_fsm fsm_request pk db' = (Go [msg_warning] "hiring:lease_detail", db')
  ∧ lease_sign_client client_request pk db'
    = (Go [msg_warning] "hiring:lease_detail", db').
Proof.
  intros Hf Hc Hpk Hclient Hfsm. cbv zeta.
  pose proof (lookup_lt_Some _ _ _ Hpk) as Hlt.
  unfold lease_sign_client, lease_sign_fsm, login_required, attribute_truth.
  rewrite Hf, Hc. simpl. rewrite Hpk, Hclient, Hfsm. simpl.
  rewrite !list_lookup_insert_eq by (rewrite ?length_insert; done). simpl.
  rewrite Hclient, Hfsm. simpl.
  rewrite !list_insert_insert_eq.
  repeat split.
Qed.

Lemma lease_signatures_commute_witness :
  snd (lease_sign_client (Scenarios.post Scenarios.hce) 0
         (snd (lease_sign_fsm (Scenarios.post Scenarios.fsm) 0 Cases.unsigned_lease)))
  = snd (lease_sign_fsm (Scenarios.post Scenarios.fsm) 0
           (snd (lease_sign_client (Scenarios.post Scenarios.hce) 0
                   Cases.unsigned_lease))).
Proof.
  destruct (lease_signatures_commute (Scenarios.post Scenarios.fsm)
              (Scenarios.post Scenarios.hce) 0 Cases.unsigned_lease
              Cases.lease_of_order_0) as (H1 & H2 & _);
    [reflexivity..|].
  rewrite H1, H2. reflexivity.
Defined.

(** A lease created by [create_lease_agreement] carries the FSM's
    signature from the start.  In a database whose agreement numbers of
    the year are well formed, it is stored under the next number of the
    year as DRAFT, signed by the requesting user on the day of the
    request and not by the client.  A later request to [lease_sign_fsm]
    is therefore always answered with the warning and writes nothing;
    the client's signature alone makes the lease ACTIVE.  A second
    request to create a lease for the same order is refused with a
    warning and writes nothing. *)
Theorem created_lease_is_signed_by_fsm request request' order_pk form db order
    client_pk days :
  is_authenticated (user request) = true →
  is_authenticated (user request') = true →
  method request = POST →
  LeaseAgreementForm_is_valid form = true →
  orders db !! order_pk = Some order →
  Hiring.client order = Some client_pk →
  Hiring.hire_duration_days order = Some days →
  leases_of order_pk db = [] →
  Spec.well_formed (Numbering.stem "LA" (Numbering.year_of_day (today request)))
    (agreement_number <$> leases db) →
  ∃ number,
    Spec.next_in_sequence
      (Numbering.stem "LA" (Numbering.year_of_day (today request)))
      (agreement_number <$> leases db) (Ok number)
    ∧ let lease :=
        {| agreement_number := number;
           hire_order := order_pk; client := client_pk;
           start_date := Hiring.start_date order;
           end_date := Hiring.expected_return_date order;
           hire_duration_days := days;
           late_return_penalty_per_day :=
             default (PyNum.Dec 0 0) (form_late_return_penalty_per_day form);
           signed_by_client := false; client_signature_date := None;
           signed_by_fsm := Some (user_id (user request));
           fsm_signature_date := Some (today request);
           status := "DRAFT" |} in
      let db1 := with_leases (leases db ++ [lease]) db in
      let pk := length (leases db) in
      create_lease_agreement request order_pk form db
      = (Ok (Go [msg_success; msg_warning] "hiring:order_detail"), db1)
      ∧ leases_of order_pk db1 = [lease]
      ∧ lease_sign_fsm request' pk db1
        = (Go [msg_warning] "hiring:lease_detail", db1)
      ∧ leases (snd (lease_sign_client request' pk db1)) !! pk
        = Some (set_status "ACTIVE" (set_signed_by_client (today request') lease))
      ∧ create_lease_agreement request' order_pk form db1
        = (Ok (Go [msg_warning] "hiring:order_detail"), db1).
Proof.
  intros Hauth Hauth' Hpost Hform Horder Hclient Hdays Hnone Hwf.
  destruct (number_for_in_sequence "LA" (today request)
              (agreement_number <$> leases db) Hwf)
    as (number & Hnumber & Hnext).
  exists number. split; [exact Hnext|]. cbv zeta.
  pose proof (proj2 (existsb_leases_of order_pk db) Hnone) as Hex.
  split; [|split; [|split; [|split]]].
  - unfold create_lease_agreement, login_required. rewrite Hauth. simpl.
    rewrite Horder, Hex, Hpost, Hform, Hclient, Hdays.
    unfold LeaseAgreement_insert, bind. cbn [agreement_number].
    by rewrite Hnumber.
  - unfold leases_of in *. cbn [leases with_leases].
    rewrite filter_app, Hnone. by rewrite filter_cons_True.
  - unfold lease_sign_fsm, login_required. rewrite Hauth'. simpl.
    by rewrite lookup_app_r, Nat.sub_diag.
  - unfold lease_sign_client, login_required. rewrite Hauth'. simpl.
    rewrite lookup_app_r, Nat.sub_diag by done. simpl.
    rewrite list_lookup_insert_eq; [done|]. rewrite length_app. simpl. lia.
  - unfold create_lease_agreement, login_required. rewrite Hauth'. simpl.
    rewrite Horder. rewrite existsb_app. simpl.
    rewrite bool_decide_eq_true_2 by done. by rewrite orb_true_r.
Qed.

Lemma created_lease_is_signed_by_fsm_witness :
  ∃ number,
    Spec.next_in_sequence (Numbering.stem "LA" 2024) [] (Ok number)
    ∧ create_lease_agreement (Scenarios.post Scenarios.fsm) 0 Cases.lease_form
        Cases.no_lease
      = (Ok (Go [msg_success; msg_warning] "hiring:order_detail"),
         with_leases
           [{| agreement_number := number; hire_order := 0; client := 1;
               start_date := 20000; end_date := 20030;
               hire_duration_days := 30;
               late_return_penalty_per_day := PyNum.Dec 5000 (-2);
               signed_by_client := false; client_signature_date := None;
               signed_by_fsm := Some 2%nat; fsm_signature_date := Some 20000;
               status := "DRAFT" |}]
           Cases.no_lease).
Proof.
  destruct (created_lease_is_signed_by_fsm (Scenarios.post Scenarios.fsm)
              (Scenarios.post Scenarios.fsm) 0 Cases.lease_form Cases.no_lease
              (Scenarios.order_in "APPROVED") 1%nat 30)
    as (number & Hnumber & H1 & _);
    [reflexivity..|intros s Hs; by apply elem_of_nil in Hs|].
  exists number. split; [exact Hnumber|exact H1].
Defined.

(** Two facts that the three lease views keep true of the table: a
    lease signed by both parties is ACTIVE, and no order has more than
    one lease. *)
Theorem lease_views_keep_invariants request order_pk pk form db :
  Forall signed_is_active (leases db) →
  (∀ o, (length (leases_of o db) <= 1)%nat) →
  (Forall signed_is_active (leases (snd (create_lease_agreement request order_pk form db)))
   ∧ ∀ o, (length (leases_of o (snd (create_lease_agreement request order_pk form db)))
           <= 1)%nat)
  ∧ (Forall signed_is_active (leases (snd (lease_sign_fsm request pk db)))
     ∧ ∀ o, (length (leases_of o (snd (lease_sign_fsm request pk db))) <= 1)%nat)
  ∧ (Forall signed_is_active (leases (snd (lease_sign_client request pk db)))
     ∧ ∀ o, (length (leases_of o (snd (lease_sign_client request pk db))) <= 1)%nat).
Proof.
  intros Hinv Hone.
  assert (∀ lease lease', leases db !! pk = Some lease →
            hire_order lease' = hire_order lease →
            ∀ o, (length (leases_of o (with_leases (<[pk := lease']> (leases db)) db))
                  <= 1)%nat) as Hsame.
  { intros lease lease' Hpk Heq o. specialize (Hone o).
    unfold leases_of in *. cbn [leases with_leases].
    rewrite (length_filter_insert _ (leases db) pk lease lease'); [done..|].
    by rewrite Heq. }
  split; [|split].
  - unfold create_lease_agreement, login_required.
    destruct (is_authenticated (user request)); [|done]. simpl.
    destruct (orders db !! order_pk) as [order|]; [|done].
    destruct (existsb _ _) eqn:Hex; [done|].
    destruct (method request); [done|].
    destruct (LeaseAgreementForm_is_valid form); [|done].
    unfold LeaseAgreement_insert, bind. cbn [agreement_number].
    destruct (Numbering.number_for "LA" (today request) ""
                (agreement_number <$> leases db)) as [number|e];
      destruct (Hiring.client order), (Hiring.hire_duration_days order);
      try done.
    simpl. split.
    + apply Forall_app. split; [done|]. apply Forall_singleton. by intros H.
    + intros o. unfold leases_of. cbn [leases with_leases].
      rewrite filter_app, length_app.
      destruct (decide (order_pk = o)) as [<-|Hne].
      * apply existsb_leases_of in Hex. unfold leases_of in Hex. rewrite Hex.
        by rewrite filter_cons_True.
      * rewrite filter_cons_False by done. simpl. specialize (Hone o).
        unfold leases_of in Hone. lia.
  - unfold lease_sign_fsm, login_required.
    destruct (is_authenticated (user request)); [|done]. simpl.
    destruct (leases db !! pk) as [lease|] eqn:Hpk; [|done].
    case_bool_decide as Hfsm; [done|]. simpl. split.
    + apply Forall_insert; [done|].
      destruct (signed_by_client lease) eqn:Hc; [done|]. intros H.
      unfold is_fully_signed in H. simpl in H. by rewrite Hc in H.
    + apply (Hsame lease); [done|]. by destruct (signed_by_client lease).
  - unfold lease_sign_client, login_required.
    destruct (is_authenticated (user request)); [|done]. simpl.
    destruct (leases db !! pk) as [lease|] eqn:Hpk; [|done].
    destruct (signed_by_client lease) eqn:Hc; [done|]. simpl. split.
    + apply Forall_insert; [done|].
      case_bool_decide as Hfsm; [done|]. intros H.
      unfold is_fully_signed in H. simpl in H.
      by rewrite Hfsm in H.
    + apply (Hsame lease); [done|]. by case_bool_decide.
Qed.

Lemma lease_views_keep_invariants_witness :
  Forall signed_is_active
    (leases (snd (lease_sign_client (Scenarios.post Scenarios.hce) 0
                    Cases.unsigned_by_client)))
  ∧ (length (leases_of 0 (snd (create_lease_agreement (Scenarios.post Scenarios.fsm) 0
                                 Cases.lease_form Cases.unsigned_by_client)))
     <= 1)%nat.
Proof.
  destruct (lease_views_keep_invariants (Scenarios.post Scenarios.hce) 0 0
              Cases.lease_form Cases.unsigned_by_client) as (_ & _ & Hsigned & _).
  - apply Forall_singleton. intros H. vm_compute in H. discriminate.
  - intros o. unfold leases_of, Cases.unsigned_by_client. cbn [leases].
    rewrite filter_cons, filter_nil. destruct (decide _); simpl; lia.
  - split; [exact Hsigned|]. vm_compute. lia.
Defined.

End LeaseSigning.

(** ** Recording and confirming payments *)

Section Payments.
Import Accounts Billing.

(** The constant is the double nearest to 1/100: its distance to 1/100
    is [12 / (100 * 2^59)], less than half a unit in the last place. *)
Lemma float_0_01_nearest :
  2 ^ 52 <= 5764607523034235 < 2 ^ 53
  ∧ 2 * Z.abs (100 * 5764607523034235 - 2 ^ 59) <= 100.
Proof. split; [split|]; by vm_compute. Qed.

Lemma ndigits_fuel_nonneg fuel n : 0 <= PyNum.ndigits_fuel fuel n.
Proof.
  revert n. induction fuel as [|fuel IH]; intros n; cbn [PyNum.ndigits_fuel];
    [lia|].
  destruct (n <=? 0); [lia|]. specialize (IH (n / 10)). lia.
Qed.

Lemma ndigits_fuel_le fuel n k :
  0 <= n < 2 ^ Z.of_nat fuel → 0 <= k →
  PyNum.ndigits_fuel fuel n <= k ↔ n < 10 ^ k.
Proof.
  revert n k. induction fuel as [|fuel IH]; intros n k Hn Hk.
  - change (2 ^ Z.of_nat 0) with 1 in Hn. assert (n = 0) as -> by lia.
    cbn [PyNum.ndigits_fuel]. pose proof (Z.pow_pos_nonneg 10 k). lia.
  - cbn [PyNum.ndigits_fuel]. destruct (Z.leb_spec n 0) as [Hle|Hpos].
    + assert (n = 0) as -> by lia. pose proof (Z.pow_pos_nonneg 10 k). lia.
    + rewrite Nat2Z.inj_succ, Z.pow_succ_r in Hn by lia.
      pose proof (ndigits_fuel_nonneg fuel (n / 10)) as Hnonneg.
      destruct (Z.eq_dec k 0) as [->|Hk0].
      * change (10 ^ 0) with 1. lia.
      * replace k with (Z.succ (k - 1)) at 2 by lia.
        rewrite Z.pow_succ_r by lia.
        pose proof (Z.div_mod n 10 ltac:(lia)) as Hdiv.
        pose proof (Z.mod_pos_bound n 10 ltac:(lia)) as Hmod.
        assert (0 <= n / 10 < 2 ^ Z.of_nat fuel) as Hq by lia.
        specialize (IH (n / 10) (k - 1) Hq ltac:(lia)).
        lia.
Qed.

(** The number of digits of a coefficient is at most [k] exactly when
    the coefficient is below [10 ^ k]. *)
Lemma ndigits_le n k :
  0 <= k → PyNum.ndigits n <= k ↔ Z.abs n < 10 ^ k.
Proof.
  intros Hk. unfold PyNum.ndigits. apply ndigits_fuel_le; [|done].
  split; [lia|].
  rewrite Nat2Z.inj_succ, Z2Nat.id by apply Z.log2_nonneg.
  destruct (Z.eq_dec (Z.abs n) 0) as [->|Hne]; [done|].
  apply Z.log2_spec. lia.
Qed.

(** [DecimalValidator(12, 2)] accepts the numbers that have at most two
    decimal places and are below [10 ^ 10] in absolute value. *)
Lemma DecimalValidator_12_2 d :
  PyNum.DecimalValidator 12 2 d = true
  ↔ -2 <= PyNum.dec_exp d ∧ Z.abs (PyNum.hundredths d) < 10 ^ 12.
Proof.
  destruct d as [c e]. unfold PyNum.DecimalValidator, PyNum.hundredths.
  cbn [PyNum.dec_coef PyNum.dec_exp].
  pose proof (ndigits_le c) as Hlen.
  assert (0 <= PyNum.ndigits c) as Hnonneg by apply ndigits_fuel_nonneg.
  set (L := PyNum.ndigits c) in *.
  rewrite !andb_true_iff, !negb_true_iff, !Z.ltb_ge.
  destruct (Z.leb_spec 0 e) as [He|He].
  - rewrite Z.abs_mul, (Z.abs_eq (10 ^ (e + 2))) by (apply Z.pow_nonneg; lia).
    destruct (Z.eqb_spec c 0) as [->|Hc].
    + change (Z.abs 0) with 0. rewrite Z.mul_0_l.
      assert (L <= 0) by (apply Hlen; [lia|done]). lia.
    + assert (1 <= L).
      { destruct (Z.le_gt_cases L 0) as [H0|H0]; [|lia].
        apply Hlen in H0; [|lia]. change (10 ^ 0) with 1 in H0. lia. }
      destruct (Z.le_gt_cases e 10) as [He10|He10].
      * specialize (Hlen (10 - e) ltac:(lia)).
        assert (0 < 10 ^ (e + 2)) as Hpow by (apply Z.pow_pos_nonneg; lia).
        assert (10 ^ 12 = 10 ^ (10 - e) * 10 ^ (e + 2)) as ->.
        { rewrite <- Z.pow_add_r by lia. f_equal. lia. }
        rewrite <- (Z.mul_lt_mono_pos_r _ _ _ Hpow). lia.
      * assert (10 ^ 13 <= 10 ^ (e + 2)) by (apply Z.pow_le_mono_r; lia).
        assert (10 ^ 12 < 10 ^ 13) by done.
        assert (1 <= Z.abs c) by lia.
        split; [lia|]. intros [_ Hlt]. nia.
  - destruct (Z.eq_dec e (-2)) as [->|He2].
    + change (10 ^ (-2 + 2)) with 1. rewrite Z.mul_1_r.
      specialize (Hlen 12 ltac:(lia)).
      change (- -2) with 2.
      destruct (Z.ltb_spec (Z.max 1 L) 2); lia.
    + destruct (Z.eq_dec e (-1)) as [->|He1].
      * change (10 ^ (-1 + 2)) with 10.
        specialize (Hlen 11 ltac:(lia)).
        change (- -1) with 1.
        assert (10 ^ 12 = 10 ^ 11 * 10) as -> by done.
        destruct (Z.ltb_spec (Z.max 1 L) 1); lia.
      * split; [|lia]. intros [[_ Hdec] _]. lia.
Qed.

(** The limit of [MinValueValidator(0.01)] is a [float], a little more
    than 1/100: with at most two decimal places, a value passes when it
    is at least two hundredths. *)
Lemma MinValueValidator_0_01 d :
  -2 <= PyNum.dec_exp d →
  PyNum.MinValueValidator float_0_01 d = true ↔ 2 <= PyNum.hundredths d.
Proof.
  destruct d as [c e]. cbn [PyNum.dec_exp]. intros He.
  unfold PyNum.MinValueValidator, PyNum.dec_lt_float, float_0_01,
    PyNum.hundredths.
  cbn [PyNum.dec_coef PyNum.dec_exp].
  rewrite negb_true_iff, Z.ltb_ge.
  change (Z.max (- -59) 0) with 59. change (Z.max (-59) 0) with 0.
  change (2 ^ 0) with 1. rewrite Z.mul_1_r.
  change (2 ^ 59) with 576460752303423488.
  destruct (Z.eq_dec e (-2)) as [->|He2].
  { change (Z.max (-2) 0) with 0. change (Z.max (- -2) 0) with 2.
    change (10 ^ 0) with 1. change (10 ^ 2) with 100.
    change (10 ^ (-2 + 2)) with 1. lia. }
  destruct (Z.eq_dec e (-1)) as [->|He1].
  { change (Z.max (-1) 0) with 0. change (Z.max (- -1) 0) with 1.
    change (10 ^ 0) with 1. change (10 ^ 1) with 10.
    change (10 ^ (-1 + 2)) with 10. lia. }
  rewrite (Z.max_l e 0), (Z.max_r (- e) 0) by lia.
  change (10 ^ 0) with 1.
  rewrite Z.pow_add_r by lia. change (10 ^ 2) with 100.
  assert (0 < 10 ^ e) by (apply Z.pow_pos_nonneg; lia).
  nia.
Qed.

(** The smallest amount the payment form accepts is 0.02.  The field is
    a [DecimalField(max_digits=12, decimal_places=2)], which admits the
    numbers with at most two decimal places below [10 ^ 10]; the
    model's validator is [MinValueValidator(0.01)] with a [float] limit,
    which is a little more than 1/100: one hundredth is below it and is
    refused, although [clean_amount] would let it pass.  So a form is
    valid exactly when its invoice exists, a date is given, the amount
    has at most two decimal places and is at least 0.02 and below
    [10 ^ 10], the method is one of the five choices, and the reference,
    stripped, is not empty, holds no NUL and has at most 100
    characters. *)
Theorem smallest_recordable_payment (form : PaymentForm) (db : DB) :
  (∀ d, PyNum.DecimalValidator 12 2 d = true
        ↔ -2 <= PyNum.dec_exp d ∧ Z.abs (PyNum.hundredths d) < 10 ^ 12)
  ∧ (∀ d, -2 <= PyNum.dec_exp d →
          (PyNum.MinValueValidator float_0_01 d = true
           ↔ 2 <= PyNum.hundredths d))
  ∧ PyNum.MinValueValidator float_0_01 (PyNum.Dec 1 (-2)) = false
  ∧ PyNum.MinValueValidator float_0_01 (PyNum.Dec 2 (-2)) = true
  ∧ (PaymentForm_is_valid form db = true ↔
     is_Some (invoices db !! form_invoice form)
     ∧ is_Some (form_payment_date form)
     ∧ (∃ d, form_amount form = Some d
             ∧ -2 <= PyNum.dec_exp d
             ∧ 2 <= PyNum.hundredths d < 10 ^ 12)
     ∧ form_payment_method form
       ∈ ["CASH"; "BANK_TRANSFER"; "CHEQUE"; "CREDIT_CARD"; "MOBILE_MONEY"]
     ∧ Numbering.strip (form_reference_number form) ≠ ""
     ∧ Numbering.no_null_characters (form_reference_number form) = true
     ∧ (String.length (Numbering.strip (form_reference_number form)) <= 100)%nat).
Proof.
  split; [exact DecimalValidator_12_2|].
  split; [exact MinValueValidator_0_01|].
  split; [reflexivity|]. split; [reflexivity|].
  unfold PaymentForm_is_valid, Numbering.required_text, PAYMENT_METHOD_CHOICES.
  rewrite !andb_true_iff, !bool_decide_eq_true, negb_true_iff, Z.leb_le.
  assert (String.eqb (Numbering.strip (form_reference_number form)) "" = false
          ↔ Numbering.strip (form_reference_number form) ≠ "") as ->.
  { destruct (String.eqb_spec (Numbering.strip (form_reference_number form)) "");
      split; congruence. }
  assert (match form_amount form with
          | Some amount =>
            PyNum.DecimalValidator 12 2 amount
            && PyNum.MinValueValidator float_0_01 amount
            && (0 <? PyNum.dec_coef amount)
          | None => false
          end = true
          ↔ ∃ d, form_amount form = Some d
                 ∧ -2 <= PyNum.dec_exp d
                 ∧ 2 <= PyNum.hundredths d < 10 ^ 12) as ->.
  { destruct (form_amount form) as [d|].
    - rewrite !andb_true_iff, DecimalValidator_12_2, Z.ltb_lt. split.
      + intros [[[He Hbound] Hmin] Hpos].
        apply MinValueValidator_0_01 in Hmin; [|done].
        exists d. split; [done|]. lia.
      + intros (d' & [= <-] & He & Hmin & Hbound).
        split; [split; [split; [done|lia]|by apply MinValueValidator_0_01]|].
        unfold PyNum.hundredths in Hmin.
        assert (0 <= 10 ^ (PyNum.dec_exp d + 2)) by (apply Z.pow_nonneg; lia).
        nia.
    - split; [done|]. by intros (d & Hd & _). }
  split.
  - intros [[[[Hinv Hdate] Hamount] Hmethod] [[Hstrip Hnull] Hlen]].
    repeat split; try done. lia.
  - intros (Hinv & Hdate & Hamount & Hmethod & Hstrip & Hnull & Hlen).
    repeat split; try done. lia.
Qed.

Lemma next_pk_above {A} (table : gmap nat A) k :
  is_Some (table !! k) → (k < next_pk table)%nat.
Proof.
  unfold next_pk. revert k.
  induction table as [|j x table Hj IH] using map_ind; intros k [y Hk].
  - by rewrite lookup_empty in Hk.
  - rewrite map_fold_insert_L; [| |done].
    + destruct (decide (j = k)) as [->|Hne]; [lia|].
      rewrite lookup_insert_ne in Hk by done.
      assert (k < map_fold (fun k0 _ acc => Nat.max (S k0) acc) 0%nat table)%nat
        by (apply IH; by eexists).
      lia.
    + intros. lia.
Qed.

Lemma next_pk_fresh {A} (table : gmap nat A) : table !! next_pk table = None.
Proof.
  destruct (table !! next_pk table) as [x|] eqn:H; [|done].
  assert (next_pk table < next_pk table)%nat; [|lia].
  apply next_pk_above. by eexists.
Qed.

(** What [form_valid] stores when [save] issues the number [number]. *)
Lemma form_valid_accepts today instance db inv number :
  payment_number instance = "" →
  Numbering.number_for "PAY" today "" (payment_numbers db) = Ok number →
  invoices db !! invoice instance = Some inv →
  balance_due inv = total_amount inv - amount_paid inv →
  0 <= amount_paid inv →
  0 < amount instance <= balance_due inv →
  form_valid today instance db
  = (Ok (Redirect (Some msg_success) "finance:invoice_detail"),
     {| invoices :=
          <[invoice instance :=
              {| due_date := due_date inv; total_amount := total_amount inv;
                 amount_paid := amount_paid inv + amount instance;
                 balance_due := balance_due inv - amount instance;
                 payment_status :=
                   if amount instance =? balance_due inv
                   then "PAID" else "PARTIAL" |}]> (invoices db);
        payments :=
          <[next_pk (payments db) :=
              {| payment_number := number; invoice := invoice instance;
                 amount := amount instance; confirmed := confirmed instance;
                 confirmed_by := confirmed_by instance;
                 confirmation_date := confirmation_date instance |}]>
            (payments db) |}).
Proof.
  intros Hnew Hnumber Hinv Hbal Hpaid Hamount. unfold form_valid. rewrite Hinv.
  destruct (Z.ltb_spec (balance_due inv) (amount instance)); [lia|].
  unfold Payment_insert, bind. rewrite Hnew, Hnumber.
  unfold Invoice_save. cbn -[Z.leb Z.ltb Z.eqb Z.sub Z.add].
  destruct (Z.eqb_spec (amount instance) (balance_due inv)) as [Heq|Hne].
  - destruct (Z.leb_spec (total_amount inv
                          - (amount_paid inv + amount instance)) 0); [|lia].
    cbn -[Z.leb Z.ltb Z.eqb Z.sub Z.add].
    destruct (Z.leb_spec (total_amount inv) (amount_paid inv + amount instance));
      [|lia].
    do 3 f_equal. unfold set_payment_status, set_balance_due. simpl.
    f_equal; lia.
  - destruct (Z.leb_spec (total_amount inv
                          - (amount_paid inv + amount instance)) 0); [lia|].
    destruct (Z.ltb_spec 0 (amount_paid inv + amount instance)); [|lia].
    cbn -[Z.leb Z.ltb Z.eqb Z.sub Z.add].
    destruct (Z.leb_spec (total_amount inv) (amount_paid inv + amount instance));
      [lia|].
    destruct (Z.ltb_spec 0 (amount_paid inv + amount instance)); [|lia].
    do 3 f_equal. unfold set_payment_status, set_balance_due. simpl.
    f_equal; lia.
Qed.

(** Recording a payment.  [instance] is the new payment of a valid
    form, without a number yet.  For a stored invoice whose balance is
    its total less what was paid: a payment above the balance due is
    refused, the form is shown again and nothing is written; a payment
    within it is stored, in a table whose payment numbers of the year
    are well formed, under the next number of the year and a key of its
    own, as the form gave it, and the invoice is charged at once:
    [amount_paid] goes up and [balance_due] down by the amount, the
    status is PAID when the balance reaches zero and PARTIAL otherwise.
    The invoice stays within its total: it cannot be overpaid through
    the form. *)
Theorem recorded_payment_charges_invoice today instance db inv :
  payment_number instance = "" →
  invoices db !! invoice instance = Some inv →
  balance_due inv = total_amount inv - amount_paid inv →
  0 <= amount_paid inv →
  0 < amount instance →
  Spec.well_formed (Numbering.stem "PAY" (Numbering.year_of_day today))
    (payment_numbers db) →
  (balance_due inv < amount instance →
   form_valid today instance db = (Ok (Render "finance/payment_create.html"), db))
  ∧ (amount instance <= balance_due inv →
     ∃ number,
       Spec.next_in_sequence
         (Numbering.stem "PAY" (Numbering.year_of_day today))
         (payment_numbers db) (Ok number)
       ∧ fst (form_valid today instance db)
         = Ok (Redirect (Some msg_success) "finance:invoice_detail")
       ∧ payments db !! next_pk (payments db) = None
       ∧ payments (snd (form_valid today instance db))
         = <[next_pk (payments db) :=
               {| payment_number := number; invoice := invoice instance;
                  amount := amount instance; confirmed := confirmed instance;
                  confirmed_by := confirmed_by instance;
                  confirmation_date := confirmation_date instance |}]>
             (payments db)
       ∧ ∃ inv', invoices (snd (form_valid today instance db))
                 = <[invoice instance := inv']> (invoices db)
                 ∧ amount_paid inv' = amount_paid inv + amount instance
                 ∧ balance_due inv' = balance_due inv - amount instance
                 ∧ balance_due inv' = total_amount inv' - amount_paid inv'
                 ∧ 0 <= amount_paid inv' <= total_amount inv'
                 ∧ total_amount inv' = total_amount inv
                 ∧ due_date inv' = due_date inv
                 ∧ (payment_status inv'
                    = if balance_due inv' =? 0 then "PAID" else "PARTIAL")).
Proof.
  intros Hnew Hinv Hbal Hpaid Hamount Hwf. split.
  - intros Hover. unfold form_valid. rewrite Hinv.
    by destruct (Z.ltb_spec (balance_due inv) (amount instance)); [|lia].
  - intros Hwithin.
    destruct (number_for_in_sequence "PAY" today (payment_numbers db) Hwf)
      as (number & Hnumber & Hnext).
    exists number. split; [exact Hnext|].
    rewrite (form_valid_accepts today instance db inv number)
      by (done || lia).
    cbn [fst snd invoices payments].
    split; [done|]. split; [apply next_pk_fresh|]. split; [done|].
    eexists. split; [reflexivity|]. simpl.
    repeat split; try lia.
    destruct (Z.eqb_spec (amount instance) (balance_due inv)),
      (Z.eqb_spec (balance_due inv - amount instance) 0); done || lia.
Qed.

Lemma recorded_payment_charges_invoice_witness :
  form_valid 20000 (PaymentForm_instance (Cases.payment_form 1782501))
    Scenarios.invoice_sent
  = (Ok (Render "finance/payment_create.html"), Scenarios.invoice_sent)
  ∧ ∃ number,
      Spec.next_in_sequence
        (Numbering.stem "PAY" (Numbering.year_of_day 20000))
        (payment_numbers Scenarios.invoice_sent) (Ok number)
      ∧ fst (form_valid 20000 (PaymentForm_instance (Cases.payment_form 1282500))
               Scenarios.invoice_sent)
        = Ok (Redirect (Some msg_success) "finance:invoice_detail").
Proof.
  assert (Spec.well_formed (Numbering.stem "PAY" (Numbering.year_of_day 20000))
            (payment_numbers Scenarios.invoice_sent)) as Hwf.
  { intros s Hs Hpre. vm_compute in Hs.
    apply list_elem_of_singleton in Hs as ->.
    exists 1. split; [lia|by vm_compute]. }
  split.
  - apply (recorded_payment_charges_invoice 20000
             (PaymentForm_instance (Cases.payment_form 1782501))
             Scenarios.invoice_sent
             {| due_date := 20030; total_amount := 1782500; amount_paid := 0;
                balance_due := 1782500; payment_status := "SENT" |});
      [reflexivity|reflexivity|reflexivity|simpl; lia|by vm_compute|exact Hwf
      |by vm_compute].
  - destruct (recorded_payment_charges_invoice 20000
                (PaymentForm_instance (Cases.payment_form 1282500))
                Scenarios.invoice_sent
                {| due_date := 20030; total_amount := 1782500; amount_paid := 0;
                   balance_due := 1782500; payment_status := "SENT" |})
      as [_ Hok];
      [reflexivity|reflexivity|reflexivity|simpl; lia|by vm_compute|exact Hwf|].
    destruct Hok as (number & Hnumber & Hfst & _); [by vm_compute|].
    exists number. split; [exact Hnumber|exact Hfst].
Defined.

(** Recording and confirming do not count alike.  [form_valid] adds
    every recorded amount to the invoice's [amount_paid];
    [confirm_payment] then replaces [amount_paid] by the sum of the
    confirmed payments alone.  So after a payment is recorded and
    confirmed, the invoice shows the amounts confirmed earlier plus this
    one: what other payments had added while still unconfirmed is taken
    off again, and an invoice that recording had brought to PAID can go
    back to PARTIAL. *)
Theorem confirmation_drops_unconfirmed now today today' user instance db inv :
  payment_number instance = "" →
  invoices db !! invoice instance = Some inv →
  balance_due inv = total_amount inv - amount_paid inv →
  0 <= amount_paid inv →
  0 < amount instance <= balance_due inv →
  (∀ k p, payments db !! k = Some p → 0 < amount p) →
  Spec.well_formed (Numbering.stem "PAY" (Numbering.year_of_day today))
    (payment_numbers db) →
  let pk := next_pk (payments db) in
  let db1 := snd (form_valid today instance db) in
  let paid :=
    Spec.sum_of_confirmed_payments (invoice instance) (payments db)
    + amount instance in
  amount_paid <$> (invoices db1 !! invoice instance)
  = Some (amount_paid inv + amount instance)
  ∧ ∃ payment,
      payments db1 !! pk = Some payment
      ∧ invoice payment = invoice instance
      ∧ amount payment = amount instance
      ∧ invoices (snd (confirm_payment now today' pk payment user db1))
        !! invoice instance
        = Some {| due_date := due_date inv; total_amount := total_amount inv;
                  amount_paid := paid; balance_due := total_amount inv - paid;
                  payment_status :=
                    if total_amount inv <=? paid then "PAID" else "PARTIAL" |}.
Proof.
  intros Hnew Hinv Hbal Hpaid Hamount Hpos Hwf. cbv zeta.
  destruct (number_for_in_sequence "PAY" today (payment_numbers db) Hwf)
    as (number & Hnumber & _).
  rewrite (form_valid_accepts today instance db inv number) by (done || lia).
  cbn [snd invoices payments]. split; [by rewrite lookup_insert_eq|].
  set (payment := {| payment_number := number; invoice := invoice instance;
                     amount := amount instance; confirmed := confirmed instance;
                     confirmed_by := confirmed_by instance;
                     confirmation_date := confirmation_date instance |}).
  exists payment. split; [by rewrite lookup_insert_eq|].
  split; [reflexivity|]. split; [reflexivity|].
  set (db1 := {| invoices := _; payments := _ |}).
  assert (total_confirmed (invoice instance)
            (<[next_pk (payments db) := confirmed_instance now payment user]>
               (payments db1))
          = Spec.sum_of_confirmed_payments (invoice instance) (payments db)
            + amount instance)
    as Htotal.
  { unfold db1. cbn [payments]. rewrite insert_insert_eq.
    rewrite total_confirmed_fresh by apply next_pk_fresh. simpl.
    rewrite bool_decide_eq_true_2 by done.
    by rewrite total_confirmed_is_sum. }
  rewrite (confirm_payment_once now today' (next_pk (payments db)) payment user db1
             {| due_date := due_date inv; total_amount := total_amount inv;
                amount_paid := amount_paid inv + amount instance;
                balance_due := balance_due inv - amount instance;
                payment_status :=
                  if amount instance =? balance_due inv
                  then "PAID" else "PARTIAL" |}).
  - cbn [snd invoices]. change (invoice payment) with (invoice instance).
    rewrite lookup_insert_eq. rewrite Htotal. reflexivity.
  - unfold db1. cbn [invoices]. change (invoice payment) with (invoice instance).
    by rewrite lookup_insert_eq.
  - change (invoice payment) with (invoice instance). rewrite Htotal.
    rewrite <- total_confirmed_is_sum.
    assert (0 <= total_confirmed (invoice instance) (payments db)); [|lia].
    apply total_confirmed_nonneg. intros k p Hk. apply Hpos in Hk. lia.
Qed.

Lemma confirmation_drops_unconfirmed_witness :
  amount_paid <$>
    (invoices (snd (form_valid 20000
                      (PaymentForm_instance (Cases.payment_form 1282500))
                      Cases.first_payment_recorded)) !! 7%nat)
  = Some 1782500
  ∧ ∃ payment,
      payments (snd (form_valid 20000
                       (PaymentForm_instance (Cases.payment_form 1282500))
                       Cases.first_payment_recorded))
      !! next_pk (payments Cases.first_payment_recorded) = Some payment
      ∧ invoice payment = 7%nat
      ∧ amount payment = 1282500
      ∧ invoices
          (snd (confirm_payment 1728000000 20000
                  (next_pk (payments Cases.first_payment_recorded)) payment 2
                  (snd (form_valid 20000
                          (PaymentForm_instance (Cases.payment_form 1282500))
                          Cases.first_payment_recorded)))) !! 7%nat
        = Some {| due_date := 20030; total_amount := 1782500;
                  amount_paid := 1282500; balance_due := 500000;
                  payment_status := "PARTIAL" |}.
Proof.
  apply (confirmation_drops_unconfirmed 1728000000 20000 20000 2
           (PaymentForm_instance (Cases.payment_form 1282500))
           Cases.first_payment_recorded
           {| due_date := 20030; total_amount := 1782500; amount_paid := 500000;
              balance_due := 1282500; payment_status := "PARTIAL" |}).
  - reflexivity.
  - reflexivity.
  - reflexivity.
  - simpl. lia.
  - by vm_compute.
  - intros k p Hk. unfold Cases.first_payment_recorded in Hk. cbn [payments] in Hk.
    apply lookup_singleton_Some in Hk as [<- <-]. simpl. lia.
  - intros s Hs Hpre. vm_compute in Hs.
    apply list_elem_of_singleton in Hs as ->.
    exists 1. split; [lia|by vm_compute].
Defined.

(** A row replaced by one of another invoice leaves the sum as it is. *)
Lemma total_confirmed_other i k p p' (m : gmap nat Payment) :
  m !! k = Some p → invoice p ≠ i → invoice p' ≠ i →
  total_confirmed i (<[k := p']> m) = total_confirmed i m.
Proof.
  intros Hk Hp Hp'. rewrite total_confirmed_insert.
  rewrite (bool_decide_eq_false_2 (invoice p' = i)) by done.
  rewrite andb_false_r.
  rewrite <- (insert_id m k p Hk) at 2. rewrite total_confirmed_insert.
  rewrite bool_decide_eq_false_2 by done. by rewrite andb_false_r.
Qed.

(** The confirmations of two payments commute.  Whether they belong to
    the same invoice or not, confirming two stored payments in one
    order or the other leaves the same payment rows and the same
    invoice rows (all recorded amounts being positive, as the form
    guarantees). *)
Theorem confirmations_commute now1 now2 today pk1 pk2 p1 p2 user1 user2 db :
  pk1 ≠ pk2 →
  payments db !! pk1 = Some p1 →
  payments db !! pk2 = Some p2 →
  (∀ k p, payments db !! k = Some p → 0 < amount p) →
  is_Some (invoices db !! invoice p1) →
  is_Some (invoices db !! invoice p2) →
  snd (confirm_payment now2 today pk2 p2 user2
         (snd (confirm_payment now1 today pk1 p1 user1 db)))
  = snd (confirm_payment now1 today pk1 p1 user1
           (snd (confirm_payment now2 today pk2 p2 user2 db))).
Proof.
  intros Hne Hp1 Hp2 Hpos [inv1 Hinv1] [inv2 Hinv2].
  set (c1 := confirmed_instance now1 p1 user1).
  set (c2 := confirmed_instance now2 p2 user2).
  assert (∀ m : gmap nat Payment,
            (∀ k p, m !! k = Some p → 0 < amount p) →
            ∀ now self user pk,
              0 < amount self →
              0 < total_confirmed (invoice self)
                    (<[pk := confirmed_instance now self user]> m)) as Hpositive.
  { intros m Hm now self user pk Hself. by apply confirm_payment_total_pos. }
  assert (0 < amount p1) as Ha1 by (by apply (Hpos pk1)).
  assert (0 < amount p2) as Ha2 by (by apply (Hpos pk2)).
  assert (∀ k p, <[pk1 := c1]> (payments db) !! k = Some p → 0 < amount p) as Hpos1.
  { intros k p Hk. destruct (decide (k = pk1)) as [->|Hk1].
    - rewrite lookup_insert_eq in Hk. by injection Hk as <-.
    - rewrite lookup_insert_ne in Hk by done. by apply (Hpos k). }
  assert (∀ k p, <[pk2 := c2]> (payments db) !! k = Some p → 0 < amount p) as Hpos2.
  { intros k p Hk. destruct (decide (k = pk2)) as [->|Hk2].
    - rewrite lookup_insert_eq in Hk. by injection Hk as <-.
    - rewrite lookup_insert_ne in Hk by done. by apply (Hpos k). }
  rewrite (confirm_payment_once now1 today pk1 p1 user1 db inv1 Hinv1)
    by (by apply Hpositive).
  rewrite (confirm_payment_once now2 today pk2 p2 user2 db inv2 Hinv2)
    by (by apply Hpositive).
  cbn [snd]. fold c1 c2.
  set (t1 := total_confirmed (invoice p1) (<[pk1 := c1]> (payments db))).
  set (t2 := total_confirmed (invoice p2) (<[pk2 := c2]> (payments db))).
  destruct (decide (invoice p1 = invoice p2)) as [Heq|Hdiff].
  - erewrite (confirm_payment_once now2 today pk2 p2 user2);
      [|cbn [invoices]; rewrite Heq; apply lookup_insert_eq
       |cbn [payments]; by apply Hpositive].
    erewrite (confirm_payment_once now1 today pk1 p1 user1);
      [|cbn [invoices]; rewrite <- Heq; apply lookup_insert_eq
       |cbn [payments]; by apply Hpositive].
    cbn [snd invoices payments]. fold c1 c2.
    rewrite (insert_insert_ne (payments db) pk1 pk2) by done.
    assert (inv1 = inv2) as -> by congruence.
    rewrite Heq, !insert_insert_eq. reflexivity.
  - erewrite (confirm_payment_once now2 today pk2 p2 user2 _ inv2);
      [|cbn [invoices]; by rewrite lookup_insert_ne
       |cbn [payments]; by apply Hpositive].
    erewrite (confirm_payment_once now1 today pk1 p1 user1 _ inv1);
      [|cbn [invoices]; by rewrite lookup_insert_ne
       |cbn [payments]; by apply Hpositive].
    cbn [snd invoices payments]. fold c1 c2.
    assert (total_confirmed (invoice p2) (<[pk2 := c2]> (<[pk1 := c1]> (payments db)))
            = t2) as ->.
    { rewrite (insert_insert_ne (payments db) pk2 pk1) by done.
      apply (total_confirmed_other _ pk1 p1);
        [by rewrite lookup_insert_ne|done|done]. }
    assert (total_confirmed (invoice p1) (<[pk1 := c1]> (<[pk2 := c2]> (payments db)))
            = t1) as ->.
    { rewrite (insert_insert_ne (payments db) pk1 pk2) by done.
      apply (total_confirmed_other _ pk2 p2);
        [by rewrite lookup_insert_ne|done|done]. }
    f_equal.
    + by rewrite (insert_insert_ne (invoices db) (invoice p2) (invoice p1)).
    + by rewrite (insert_insert_ne (payments db) pk2 pk1).
Qed.

Lemma confirmations_commute_witness :
  snd (confirm_payment 1728000600 20000 4 Cases.payment_12825 2
         (snd (confirm_payment 1728000000 20000 3 Scenarios.payment_5000 2
                 Cases.two_payments)))
  = snd (confirm_payment 1728000000 20000 3 Scenarios.payment_5000 2
           (snd (confirm_payment 1728000600 20000 4 Cases.payment_12825 2
                   Cases.two_payments))).
Proof.
  apply (confirmations_commute 1728000000 1728000600 20000 3 4
           Scenarios.payment_5000 Cases.payment_12825 2 2 Cases.two_payments).
  - done.
  - reflexivity.
  - reflexivity.
  - intros k p Hk. unfold Cases.two_payments in Hk. cbn [payments] in Hk.
    apply lookup_insert_Some in Hk as [[<- <-]|[_ Hk]]; [simpl; lia|].
    apply lookup_singleton_Some in Hk as [<- <-]. simpl. lia.
  - by eexists.
  - by eexists.
Defined.

(** ** Invoices *)

(** [Invoice.save] settles the derived columns and does so once: the
    stored row has [balance_due = total_amount - amount_paid]; it is
    PAID whenever the amount paid reaches the total (so an invoice whose
    total is zero is PAID from its first save) and PARTIAL when
    something, but less than the total, was paid; and saving the stored
    row again, on the same day, changes nothing. *)
Theorem Invoice_save_settles today pk self (table : gmap nat Invoice) :
  ∃ saved,
    Invoice_save today pk self table !! pk = Some saved
    ∧ balance_due saved = total_amount self - amount_paid self
    ∧ total_amount saved = total_amount self
    ∧ amount_paid saved = amount_paid self
    ∧ (total_amount self <= amount_paid self → payment_status saved = "PAID")
    ∧ (0 < amount_paid self < total_amount self → payment_status saved = "PARTIAL")
    ∧ (amount_paid self <= 0 → 0 < total_amount self →
       payment_status saved
       = if (due_date self <? today) && bool_decide (payment_status self = "SENT")
         then "OVERDUE" else payment_status self)
    ∧ Invoice_save today pk saved (Invoice_save today pk self table)
      = Invoice_save today pk self table.
Proof.
  destruct self as [due total paid balance st].
  unfold Invoice_save, set_balance_due, set_payment_status.
  cbn [due_date total_amount amount_paid balance_due payment_status].
  destruct (Z.leb_spec total paid) as [Hpaid|Hdue].
  - eexists. split; [apply lookup_insert_eq|].
    cbn [due_date total_amount amount_paid balance_due payment_status].
    repeat split; try lia.
    rewrite insert_insert_eq.
    by destruct (Z.leb_spec total paid); [|lia].
  - destruct (Z.ltb_spec 0 paid) as [Hsome|Hnone].
    + eexists. split; [apply lookup_insert_eq|].
      cbn [due_date total_amount amount_paid balance_due payment_status].
      repeat split; try lia.
      rewrite insert_insert_eq.
      destruct (Z.leb_spec total paid); [lia|].
      by destruct (Z.ltb_spec 0 paid); [|lia].
    + destruct ((due <? today) && bool_decide (st = "SENT")) eqn:Hover.
      * eexists. split; [apply lookup_insert_eq|].
        cbn [due_date total_amount amount_paid balance_due payment_status].
        repeat split; try lia.
        rewrite insert_insert_eq.
        destruct (Z.leb_spec total paid); [lia|].
        destruct (Z.ltb_spec 0 paid); [lia|].
        by rewrite andb_false_r.
      * eexists. split; [apply lookup_insert_eq|].
        cbn [due_date total_amount amount_paid balance_due payment_status].
        repeat split; try lia.
        rewrite insert_insert_eq.
        destruct (Z.leb_spec total paid); [lia|].
        destruct (Z.ltb_spec 0 paid); [lia|].
        by rewrite Hover.
Qed.

(** The five entries of the aging report divide the invoices whose
    status is PENDING or PARTIAL by due date without gap or overlap.
    Each entry is the balance due of the invoices of its range of due
    dates: not yet due, up to 30 days late, 31 to 60, 61 to 90, more
    than 90; together they add up to the balance due of all invoices
    that are PENDING or PARTIAL.  No other invoice is counted: where no
    invoice is PENDING or PARTIAL, every entry is zero, whatever is
    overdue. *)
Theorem aging_report_partitions today (table : gmap nat Invoice) :
  (current (aging_report today table)
   = Spec.outstanding_balance (fun due => today <= due) table
   ∧ days_1_30 (aging_report today table)
     = Spec.outstanding_balance (fun due => today - 30 <= due < today) table
   ∧ days_31_60 (aging_report today table)
     = Spec.outstanding_balance
         (fun due => today - 60 <= due < today - 30) table
   ∧ days_61_90 (aging_report today table)
     = Spec.outstanding_balance
         (fun due => today - 90 <= due < today - 60) table
   ∧ over_90 (aging_report today table)
     = Spec.outstanding_balance (fun due => due < today - 90) table)
  ∧ current (aging_report today table) + days_1_30 (aging_report today table)
    + days_31_60 (aging_report today table)
    + days_61_90 (aging_report today table)
    + over_90 (aging_report today table)
    = Spec.outstanding_balance (fun _ => True) table
  ∧ ((∀ k i, table !! k = Some i →
             payment_status i ≠ "PENDING" ∧ payment_status i ≠ "PARTIAL") →
     aging_report today table
     = {| current := 0; days_1_30 := 0; days_31_60 := 0; days_61_90 := 0;
          over_90 := 0 |}).
Proof.
  assert (∀ l, or_0 (Sum_balance_due l)
               = foldr (fun i acc => balance_due i + acc) 0 l) as Hsum.
  { intros [|x l]; [done|]. unfold Sum_balance_due, or_0.
    by destruct (Z.eqb_spec (foldr (fun i acc => balance_due i + acc) 0 (x :: l)) 0). }
  set (counted := fun (due : Z → bool) (i : Invoice) =>
         bool_decide (payment_status i = "PENDING" ∨ payment_status i = "PARTIAL")
         && due (due_date i)).
  set (total := fun (due : Z → bool) (l : list Invoice) =>
         foldr (fun i acc => (if counted due i then balance_due i else 0) + acc)
           0 l).
  assert (∀ i, payment_status i ∈ ["PENDING"; "PARTIAL"]
               ↔ payment_status i = "PENDING" ∨ payment_status i = "PARTIAL")
    as Hstatus.
  { intros i. rewrite !elem_of_cons, elem_of_nil. tauto. }
  assert (∀ due, aging_bucket due table = total due (rows table)) as Hbucket.
  { intros due. unfold aging_bucket. rewrite Hsum.
    induction (rows table) as [|x l IH]; [done|].
    rewrite filter_cons. cbn [total foldr]. unfold total in IH. rewrite <- IH.
    unfold counted.
    destruct (decide _) as [[Hs Hd]|Hn].
    - rewrite bool_decide_eq_true_2, Hd by (by apply Hstatus). done.
    - case_bool_decide as Hs; [|done]. cbn [andb].
      destruct (due (due_date x)); [|done].
      destruct Hn. split; [by apply Hstatus|done]. }
  assert (∀ (P : Z → Prop) `{!∀ due, Decision (P due)} (due : Z → bool),
            (∀ x, due x = true ↔ P x) →
            Spec.outstanding_balance P table = total due (rows table))
    as Hspec.
  { intros P HP due Hdue. unfold Spec.outstanding_balance, rows.
    induction ((map_to_list table).*2) as [|x l IH]; [done|].
    rewrite filter_cons. cbn [total foldr]. unfold total in IH. rewrite <- IH.
    unfold counted.
    destruct (decide _) as [[Hs Hd]|Hn].
    - rewrite bool_decide_eq_true_2 by done.
      rewrite (proj2 (Hdue _) Hd). cbn. lia.
    - case_bool_decide as Hs; [|cbn; lia]. cbn [andb].
      destruct (due (due_date x)) eqn:Hd; [|lia].
      destruct Hn. split; [done|by apply Hdue]. }
  split; [|split].
  - unfold aging_report. cbn [current days_1_30 days_31_60 days_61_90 over_90].
    rewrite !Hbucket.
    repeat split; symmetry; apply Hspec; intros x;
      rewrite ?andb_true_iff, ?Z.leb_le, ?Z.ltb_lt; lia.
  - unfold aging_report. cbn [current days_1_30 days_31_60 days_61_90 over_90].
    rewrite !Hbucket.
    rewrite (Hspec (fun _ => True) _ (fun _ => true)) by done.
    generalize (rows table). intros l.
    induction l as [|x l IH]; [done|].
    cbn [total foldr]. unfold total in IH. rewrite <- IH. clear IH.
    unfold counted.
    destruct (bool_decide (payment_status x = "PENDING"
                           ∨ payment_status x = "PARTIAL"));
      cbn [andb]; [|lia].
    destruct (Z.leb_spec today (due_date x));
      destruct (Z.ltb_spec (due_date x) today); try lia;
      destruct (Z.leb_spec (today - 30) (due_date x));
      destruct (Z.ltb_spec (due_date x) (today - 30)); try lia;
      destruct (Z.leb_spec (today - 60) (due_date x));
      destruct (Z.ltb_spec (due_date x) (today - 60)); try lia;
      destruct (Z.leb_spec (today - 90) (due_date x));
      destruct (Z.ltb_spec (due_date x) (today - 90)); try lia;
      cbn [andb]; lia.
  - intros Hnone.
    assert (∀ due, aging_bucket due table = 0) as Hzero.
    { intros due. rewrite Hbucket.
      assert (∀ i, i ∈ rows table → counted due i = false) as Hrows.
      { intros i Hi. unfold rows in Hi.
        apply list_elem_of_fmap in Hi as [[k i'] [-> Hi]].
        apply elem_of_map_to_list in Hi. destruct (Hnone k i' Hi) as [H1 H2].
        unfold counted. rewrite bool_decide_eq_false_2; [done|].
        cbn [snd]. tauto. }
      revert Hrows. generalize (rows table). intros l Hrows.
      induction l as [|x l IH]; [done|].
      cbn [total foldr]. unfold total in IH.
      rewrite IH by (intros i Hi; apply Hrows; by right).
      rewrite Hrows by left. done. }
    unfold aging_report. by rewrite !Hzero.
Qed.

(** The new-invoice form cannot be opened from an order.  An order's
    amount is the total of its quotation, a [Decimal]; for the types
    ADVANCE (the default) and FINAL, [get_initial] multiplies it by the
    [float] 0.15 (for FINAL, after adding the late penalty, an [int] or a
    [float]) and the request ends in an exception, [TypeError] unless
    the conversion of the days overdue to a [float] overflows first.  For
    any other type the amount is the [int] 0, and the initial values are
    0, 0.0 and 0.0, due in seven days. *)
Theorem invoice_initial_values settings today order_id invoice_type db order
    quotation_pk quotation_ d :
  Hiring.orders db !! order_id = Some order →
  Hiring.quotation order = Some quotation_pk →
  Hiring.quotations db !! quotation_pk = Some quotation_ →
  Hiring.total_amount quotation_ = PyNum.PDecimal d →
  get_initial settings today (Some order_id) None db = Raise TypeError
  ∧ get_initial settings today (Some order_id) (Some "ADVANCE") db = Raise TypeError
  ∧ (get_initial settings today (Some order_id) (Some "FINAL") db = Raise TypeError
     ∨ get_initial settings today (Some order_id) (Some "FINAL") db
       = Raise OverflowError)
  ∧ (invoice_type ≠ "ADVANCE" → invoice_type ≠ "FINAL" →
     get_initial settings today (Some order_id) (Some invoice_type) db
     = Ok (Updated {| initial_hire_order := order_id;
                      initial_invoice_type := invoice_type;
                      initial_subtotal := PyNum.PInt 0;
                      initial_tax_amount := PyNum.PFloat (S754_zero false);
                      initial_total_amount := PyNum.PFloat (S754_zero false);
                      initial_due_date := today + 7 |})).
Proof.
  intros Horder Hq Hquotation Htotal.
  assert (HireOrders.get_total_amount order db = Ok (PyNum.PDecimal d)) as Hamount.
  { unfold HireOrders.get_total_amount. by rewrite Hq, Hquotation, Htotal. }
  unfold get_initial. rewrite Horder. cbn [default].
  rewrite !bool_decide_eq_true_2 by done.
  rewrite (bool_decide_eq_false_2 ("FINAL" = "ADVANCE")) by done.
  rewrite Hamount. split; [done|]. split; [done|]. split.
  - cbn [bind]. unfold HireOrders.calculate_late_penalty.
    destruct (0 <? HireOrders.days_overdue order today); [|by left].
    unfold PyNum.mul.
    destruct (PyNum.float_of_int (HireOrders.days_overdue order today))
      as [f|e] eqn:Hfloat; cbn [bind]; [by left|].
    unfold PyNum.float_of_int in Hfloat.
    destruct (binary_normalize _ _ _ _ _) in Hfloat; simplify_eq. by right.
  - intros Ha Hf. by rewrite !bool_decide_eq_false_2.
Qed.

Lemma invoice_initial_values_witness :
  get_initial {| HireOrders.LATE_RETURN_PENALTY_RATE := None |} 20040 (Some 0%nat) None
    (Scenarios.one_order (Scenarios.stock 100 60 40) "ACTIVE"
       (Scenarios.order_line 40 40 0))
  = Raise TypeError.
Proof.
  apply (invoice_initial_values {| HireOrders.LATE_RETURN_PENALTY_RATE := None |}
           20040 0 "ADVANCE"
           (Scenarios.one_order (Scenarios.stock 100 60 40) "ACTIVE"
              (Scenarios.order_line 40 40 0))
           (Scenarios.order_in "ACTIVE") 1 Scenarios.example_quotation
           (PyNum.Dec 0 (-2)));
    reflexivity.
Defined.

End Payments.

(** ** Client sites and the blacklist *)

Section ClientSites.
Import Accounts ClientRecords.

Lemma main_sites_clear_same (c : nat) (l : list ClientSite) :
  main_sites c (clear_main_site c l) = [].
Proof.
  unfold main_sites, clear_main_site.
  induction l as [|s l IH]; [reflexivity|].
  rewrite fmap_cons, filter_cons, IH.
  destruct (decide _) as [[Hc Hmain]|_]; [|reflexivity].
  exfalso.
  destruct (bool_decide (client s = c)) eqn:Hs, (is_main_site s) eqn:Hm;
    simpl in *; try congruence.
  apply bool_decide_eq_false in Hs. contradiction.
Qed.

Lemma main_sites_clear_other (c c' : nat) (l : list ClientSite) :
  c' ≠ c → main_sites c' (clear_main_site c l) = main_sites c' l.
Proof.
  intros Hne. unfold main_sites, clear_main_site.
  induction l as [|s l IH]; [reflexivity|].
  rewrite fmap_cons, !filter_cons, IH.
  destruct (bool_decide (client s = c) && is_main_site s) eqn:Hs;
    [|reflexivity].
  apply andb_true_iff in Hs as [Hs _]. apply bool_decide_eq_true in Hs.
  destruct (decide _) as [[Hc _]|_], (decide _) as [[Hc' _]|_];
    simpl in *; congruence.
Qed.

Lemma clear_main_site_length (c : nat) (l : list ClientSite) :
  length (clear_main_site c l) = length l.
Proof. unfold clear_main_site. apply length_fmap. Qed.

Lemma clear_main_site_names (c : nat) (l : list ClientSite) (s : ClientSite) :
  s ∈ l →
  ∃ s', s' ∈ clear_main_site c l ∧ client s' = client s
        ∧ site_name s' = site_name s.
Proof.
  intros Hin. unfold clear_main_site.
  destruct (bool_decide (client s = c) && is_main_site s) eqn:Hs.
  - eexists. split.
    + apply list_elem_of_fmap. exists s. split; [|exact Hin].
      rewrite Hs. reflexivity.
    + split; reflexivity.
  - exists s. split; [|split; reflexivity].
    apply list_elem_of_fmap. exists s. split; [|exact Hin].
    rewrite Hs. reflexivity.
Qed.

Lemma main_sites_app (c : nat) (l1 l2 : list ClientSite) :
  main_sites c (l1 ++ l2) = main_sites c l1 ++ main_sites c l2.
Proof. apply filter_app. Qed.

Lemma ClientSite_save_main_sites (self : ClientSite) (l : list ClientSite) :
  (∀ c, (length (main_sites c l) ≤ 1)%nat) →
  ∀ c, (length (main_sites c (snd (ClientSite_save self l))) ≤ 1)%nat.
Proof.
  intros Hinv c. unfold ClientSite_save.
  assert (∀ l', (length (main_sites c l') ≤ 1)%nat →
                is_main_site self = false →
                (length (main_sites c (l' ++ [self])) ≤ 1)%nat) as Hplain.
  { intros l' Hl' Hm. rewrite main_sites_app, length_app.
    unfold main_sites at 2. rewrite filter_cons, filter_nil.
    destruct (decide _) as [[_ Hm']|_]; [congruence|]. simpl. lia. }
  destruct (is_main_site self) eqn:Hmain.
  - assert ((length (main_sites c (clear_main_site (client self) l)) ≤ 1)%nat)
      as Hcleared.
    { destruct (decide (c = client self)) as [->|Hne].
      - rewrite main_sites_clear_same. simpl. lia.
      - rewrite main_sites_clear_other by exact Hne. apply Hinv. }
    destruct (existsb _ _); simpl; [exact Hcleared|].
    rewrite main_sites_app, length_app.
    destruct (decide (c = client self)) as [->|Hne].
    + rewrite main_sites_clear_same. unfold main_sites.
      rewrite filter_cons, filter_nil.
      destruct (decide _); simpl; lia.
    + rewrite main_sites_clear_other by exact Hne.
      unfold main_sites at 2. rewrite filter_cons, filter_nil.
      destruct (decide _) as [[Hc _]|_]; [congruence|].
      specialize (Hinv c). simpl. lia.
  - destruct (existsb _ _); simpl; [apply Hinv|].
    apply Hplain; [apply Hinv|reflexivity].
Qed.

(** [AddClientSiteView] keeps at most one main site per client,
    whatever the request, and a site added as the main one is the
    client's only main site afterwards. *)
Theorem add_site_keeps_one_main_site (request : Request) (pk : nat)
    (form : option ClientSiteForm) (db : DB) :
  (∀ c, (length (main_sites c (sites db)) ≤ 1)%nat) →
  let result := AddClientSiteView_post request pk form db in
  (∀ c, (length (main_sites c (sites (snd result))) ≤ 1)%nat)
  ∧ (∀ site, form = Some site → form_is_main_site site = true →
       fst result = Ok (Redirect (Some msg_success) "clients:client_detail") →
       main_sites pk (sites (snd result))
       = [{| client := pk; site_name := form_site_name site;
             is_main_site := true |}]).
Proof.
  intros Hinv result. subst result.
  unfold AddClientSiteView_post, login_required.
  destruct (is_authenticated (user request)).
  2:{ split; [exact Hinv|]. intros; discriminate. }
  destruct (clients db !! pk) as [client_|].
  2:{ split; [exact Hinv|]. intros; discriminate. }
  destruct form as [site|].
  2:{ split; [exact Hinv|]. intros; discriminate. }
  set (self := {| client := pk; site_name := form_site_name site;
                  is_main_site := form_is_main_site site |}).
  pose proof (ClientSite_save_main_sites self (sites db) Hinv) as Hsave.
  destruct (ClientSite_save self (sites db)) as [[key|e] sites'] eqn:Hresult;
    simpl in *.
  2:{ split; [exact Hsave|]. intros; discriminate. }
  split; [exact Hsave|].
  intros site0 [= <-] Hmain _.
  unfold ClientSite_save in Hresult. subst self. simpl in Hresult.
  rewrite Hmain in Hresult.
  destruct (existsb _ _); [discriminate|].
  injection Hresult as _ <-.
  rewrite main_sites_app, main_sites_clear_same. unfold main_sites.
  rewrite filter_cons, filter_nil. simpl.
  destruct (decide _) as [_|Hn]; [reflexivity|].
  exfalso. apply Hn. split; reflexivity.
Qed.

Lemma add_site_keeps_one_main_site_witness :
  (∀ c, (length (main_sites c (sites Cases.two_sites)) ≤ 1)%nat)
  ∧ main_sites 1 (sites (snd (AddClientSiteView_post
                                (Scenarios.post Scenarios.hce) 1
                                (Some Cases.new_main_site) Cases.two_sites)))
    = [{| client := 1; site_name := "Depot"; is_main_site := true |}].
Proof.
  assert (∀ c, (length (main_sites c (sites Cases.two_sites)) ≤ 1)%nat) as Hinv.
  { intros c. unfold main_sites, Cases.two_sites. simpl.
    rewrite !filter_cons, filter_nil.
    repeat (destruct (decide _) as [[? ?]|?]); simpl in *;
      try discriminate; lia. }
  split; [exact Hinv|].
  exact (proj2 (add_site_keeps_one_main_site (Scenarios.post Scenarios.hce) 1
                  (Some Cases.new_main_site) Cases.two_sites Hinv)
           Cases.new_main_site eq_refl eq_refl eq_refl).
Defined.

(** The form does not see the rule that a client's site names are
    unique, so a second site of the same name reaches the insert and
    the request ends in [IntegrityError]; when the site was posted as
    the main one, the client's former main site has been unmarked by
    then and the client is left without a main site.  No site and no
    history entry is added. *)
Theorem refused_site_unmarks_the_main_site (request : Request) (pk : nat)
    (site : ClientSiteForm) (existing : ClientSite) (db : DB) :
  is_authenticated (user request) = true →
  is_Some (clients db !! pk) →
  existing ∈ sites db →
  client existing = pk →
  site_name existing = form_site_name site →
  form_is_main_site site = true →
  let result := AddClientSiteView_post request pk (Some site) db in
  fst result = Raise IntegrityError
  ∧ main_sites pk (sites (snd result)) = []
  ∧ length (sites (snd result)) = length (sites db)
  ∧ history (snd result) = history db.
Proof.
  intros Hauth [client_ Hclient] Hin Hc Hname Hmain result. subst result.
  unfold AddClientSiteView_post, login_required.
  rewrite Hauth, Hclient. unfold ClientSite_save. simpl.
  rewrite Hmain.
  destruct (clear_main_site_names pk (sites db) existing Hin)
    as (s' & Hs' & Hc' & Hname').
  assert (existsb
            (fun s => bool_decide (client s = pk)
                      && bool_decide (site_name s = form_site_name site))
            (clear_main_site pk (sites db)) = true) as ->.
  { apply existsb_exists. exists s'. split.
    - apply list_elem_of_In. exact Hs'.
    - rewrite !bool_decide_eq_true_2; [reflexivity|congruence|congruence]. }
  simpl. rewrite main_sites_clear_same, clear_main_site_length.
  repeat split.
Qed.

Lemma refused_site_unmarks_the_main_site_witness :
  main_sites 1 (sites Cases.two_sites)
  = [{| client := 1; site_name := "Yard"; is_main_site := true |}]
  ∧ (let result :=
       AddClientSiteView_post (Scenarios.post Scenarios.hce) 1
         (Some {| form_site_name := "Yard"; form_is_main_site := true |})
         Cases.two_sites in
     fst result = Raise IntegrityError
     ∧ main_sites 1 (sites (snd result)) = []
     ∧ length (sites (snd result)) = length (sites Cases.two_sites)
     ∧ history (snd result) = history Cases.two_sites).
Proof.
  split; [reflexivity|].
  apply (refused_site_unmarks_the_main_site (Scenarios.post Scenarios.hce) 1
           {| form_site_name := "Yard"; form_is_main_site := true |}
           {| client := 1; site_name := "Yard"; is_main_site := true |}
           Cases.two_sites); try reflexivity.
  - eexists. reflexivity.
  - unfold Cases.two_sites. simpl. apply list_elem_of_here.
Defined.

End ClientSites.

Section Blacklist.
Import Accounts ClientRecords.

Lemma Client_save_row (signals_connected : bool) (pk : nat) (self : Client)
    (db : DB) :
  clients (Client_save signals_connected pk self db) = <[pk := self]> (clients db)
  ∧ blacklist (Client_save signals_connected pk self db) = blacklist db
  ∧ sites (Client_save signals_connected pk self db) = sites db
  ∧ reasons (Client_save signals_connected pk self db) = reasons db.
Proof.
  unfold Client_save, log_client_changes.
  destruct signals_connected; [|repeat split].
  destruct (clients db !! pk) as [old|]; [|repeat split].
  repeat case_bool_decide; repeat split.
Qed.

Lemma Client_save_status_history (signals_connected : bool) (pk : nat)
    (old : Client) (s : string) (db : DB) :
  clients db !! pk = Some old →
  history (Client_save signals_connected pk (set_status s old) db)
  = history db ++ status_entries signals_connected pk old s.
Proof.
  intros Hold. unfold Client_save, log_client_changes, status_entries.
  destruct signals_connected; simpl; [|by rewrite app_nil_r].
  rewrite Hold. simpl.
  rewrite (bool_decide_eq_false_2 (credit_limit old ≠ credit_limit old))
    by (intros H; by apply H).
  rewrite (bool_decide_eq_false_2 (current_balance old ≠ current_balance old))
    by (intros H; by apply H).
  case_bool_decide; simpl; [reflexivity|by rewrite app_nil_r].
Qed.

Lemma BlacklistClientView_post_listed (signals_connected : bool)
    (request : Request) (pk : nat) (client_ : Client) (reason_pk : nat)
    (db : DB) :
  is_authenticated (user request) = true →
  is_admin (user request) = true ∨ is_fsm (user request) = true →
  clients db !! pk = Some client_ →
  reason_pk ∈ reasons db →
  blacklist db !! pk = None →
  let result :=
    BlacklistClientView_post signals_connected request pk (Some reason_pk) db in
  fst result = Ok (Redirect (Some msg_success) "clients:client_detail")
  ∧ clients (snd result) = <[pk := set_status "BLACKLISTED" client_]> (clients db)
  ∧ blacklist (snd result)
    = <[pk := {| reason := reason_pk; blacklisted_by := user_id (user request);
                 is_active := true |}]> (blacklist db)
  ∧ history (snd result)
    = history db
      ++ status_entries signals_connected pk client_ "BLACKLISTED"
      ++ [{| history_client := pk; action := "STATUS_CHANGE";
             performed_by := user_id (user request);
             old_value := Text "BLACKLISTED";
             new_value := Text "BLACKLISTED" |}].
Proof.
  intros Hauth Hrole Hclient Hreason Hentry result. subst result.
  unfold BlacklistClientView_post, login_required.
  rewrite Hauth.
  assert (negb (is_admin (user request) || is_fsm (user request)) = false) as ->.
  { destruct Hrole as [-> | ->]; [reflexivity|]. by rewrite orb_true_r. }
  rewrite Hclient, (bool_decide_eq_true_2 _ Hreason).
  unfold ClientBlacklist_save. cbn [is_active]. cbv beta iota zeta.
  set (saved := Client_save signals_connected pk
                  (set_status "BLACKLISTED" client_) db).
  destruct (Client_save_row signals_connected pk
              (set_status "BLACKLISTED" client_) db) as (Hc & Hb & _ & _).
  fold saved in Hc, Hb.
  rewrite Hb. rewrite Hentry. cbn [fst snd].
  split; [reflexivity|]. split; [exact Hc|]. split.
  - reflexivity.
  - cbn [history ClientHistory_create with_blacklist]. subst saved.
    rewrite (Client_save_status_history _ _ _ _ _ Hclient), <- app_assoc.
    reflexivity.
Qed.

(** A first blacklisting by the FSM or an administrator succeeds for a
    client in any status: the client becomes BLACKLISTED, the entry is
    stored, and the view's history entry comes last.  The view reads
    [client.status] after the entry's [save] has overwritten it on the
    same object, so its entry gives BLACKLISTED as the old value too:
    the status that the client had is in the history only if the
    [pre_save] receiver is connected and the status was another one. *)
Theorem blacklisting_logs_no_former_status (signals_connected : bool)
    (request : Request) (pk : nat) (client_ : Client) (reason_pk : nat)
    (db : DB) :
  is_authenticated (user request) = true →
  is_admin (user request) = true ∨ is_fsm (user request) = true →
  clients db !! pk = Some client_ →
  reason_pk ∈ reasons db →
  blacklist db !! pk = None →
  let result :=
    BlacklistClientView_post signals_connected request pk (Some reason_pk) db in
  fst result = Ok (Redirect (Some msg_success) "clients:client_detail")
  ∧ clients (snd result) = <[pk := set_status "BLACKLISTED" client_]> (clients db)
  ∧ blacklist (snd result)
    = <[pk := {| reason := reason_pk; blacklisted_by := user_id (user request);
                 is_active := true |}]> (blacklist db)
  ∧ history (snd result)
    = history db
      ++ (if signals_connected && bool_decide (status client_ ≠ "BLACKLISTED")
          then [{| history_client := pk; action := "STATUS_CHANGE";
                   performed_by := created_by client_;
                   old_value := Text (status client_);
                   new_value := Text "BLACKLISTED" |}]
          else [])
      ++ [{| history_client := pk; action := "STATUS_CHANGE";
             performed_by := user_id (user request);
             old_value := Text "BLACKLISTED";
             new_value := Text "BLACKLISTED" |}].
Proof. apply BlacklistClientView_post_listed. Qed.

Lemma blacklisting_logs_no_former_status_witness :
  let result :=
    BlacklistClientView_post false (Scenarios.post Scenarios.fsm) 1
      (Some 4%nat) Cases.two_sites in
  fst result = Ok (Redirect (Some msg_success) "clients:client_detail")
  ∧ clients (snd result)
    = <[1%nat := set_status "BLACKLISTED" Cases.suspended]>
        (clients Cases.two_sites)
  ∧ blacklist (snd result)
    = <[1%nat := {| reason := 4; blacklisted_by := 2; is_active := true |}]>
        (blacklist Cases.two_sites)
  ∧ history (snd result)
    = [{| history_client := 1; action := "STATUS_CHANGE"; performed_by := 2;
          old_value := Text "BLACKLISTED"; new_value := Text "BLACKLISTED" |}].
Proof.
  apply (blacklisting_logs_no_former_status false (Scenarios.post Scenarios.fsm)
           1 Cases.suspended 4 Cases.two_sites).
  - reflexivity.
  - right. reflexivity.
  - reflexivity.
  - unfold Cases.two_sites. simpl. apply elem_of_singleton_2. reflexivity.
  - reflexivity.
Defined.

(** A client who has an entry in the blacklist cannot be blacklisted
    again: the insert breaks the one-to-one rule and the request ends
    in [IntegrityError].  The client has been saved as BLACKLISTED by
    then, whatever the status was, and the view adds nothing to the
    history. *)
Theorem second_blacklisting_fails (signals_connected : bool)
    (request : Request) (pk : nat) (client_ : Client) (reason_pk : nat)
    (db : DB) :
  is_authenticated (user request) = true →
  is_admin (user request) = true ∨ is_fsm (user request) = true →
  clients db !! pk = Some client_ →
  reason_pk ∈ reasons db →
  is_Some (blacklist db !! pk) →
  let result :=
    BlacklistClientView_post signals_connected request pk (Some reason_pk) db in
  fst result = Raise IntegrityError
  ∧ clients (snd result) = <[pk := set_status "BLACKLISTED" client_]> (clients db)
  ∧ blacklist (snd result) = blacklist db
  ∧ history (snd result)
    = history db
      ++ (if signals_connected && bool_decide (status client_ ≠ "BLACKLISTED")
          then [{| history_client := pk; action := "STATUS_CHANGE";
                   performed_by := created_by client_;
                   old_value := Text (status client_);
                   new_value := Text "BLACKLISTED" |}]
          else []).
Proof.
  intros Hauth Hrole Hclient Hreason [entry Hentry] result. subst result.
  unfold BlacklistClientView_post, login_required.
  rewrite Hauth.
  assert (negb (is_admin (user request) || is_fsm (user request)) = false) as ->.
  { destruct Hrole as [-> | ->]; [reflexivity|]. by rewrite orb_true_r. }
  rewrite Hclient, (bool_decide_eq_true_2 _ Hreason).
  unfold ClientBlacklist_save. cbn [is_active]. cbv beta iota zeta.
  set (saved := Client_save signals_connected pk
                  (set_status "BLACKLISTED" client_) db).
  destruct (Client_save_row signals_connected pk
              (set_status "BLACKLISTED" client_) db) as (Hc & Hb & _ & _).
  fold saved in Hc, Hb.
  rewrite Hb, Hentry. cbn [fst snd].
  split; [reflexivity|]. split; [exact Hc|]. split; [exact Hb|].
  apply (Client_save_status_history _ _ _ _ _ Hclient).
Qed.

Lemma second_blacklisting_fails_witness :
  let result :=
    BlacklistClientView_post true (Scenarios.post Scenarios.fsm) 1
      (Some 4%nat) Cases.reactivated_client in
  fst result = Raise IntegrityError
  ∧ clients (snd result)
    = <[1%nat := set_status "BLACKLISTED" Cases.suspended]>
        (clients Cases.reactivated_client)
  ∧ blacklist (snd result) = blacklist Cases.reactivated_client
  ∧ history (snd result)
    = [{| history_client := 1; action := "STATUS_CHANGE"; performed_by := 1;
          old_value := Text "SUSPENDED"; new_value := Text "BLACKLISTED" |}].
Proof.
  apply (second_blacklisting_fails true (Scenarios.post Scenarios.fsm)
           1 Cases.suspended 4 Cases.reactivated_client).
  - reflexivity.
  - right. reflexivity.
  - reflexivity.
  - unfold Cases.reactivated_client. simpl. apply elem_of_singleton_2. reflexivity.
  - eexists. reflexivity.
Defined.

Lemma RemoveFromBlacklistView_post_removed (signals_connected : bool)
    (admin : Request) (pk : nat) (client_ : Client) (db : DB) :
  is_authenticated (user admin) = true →
  is_admin (user admin) = true →
  clients db !! pk = Some client_ →
  let removed := RemoveFromBlacklistView_post signals_connected admin pk db in
  fst removed = Ok (Redirect (Some msg_success) "clients:client_detail")
  ∧ clients (snd removed) = <[pk := set_status "ACTIVE" client_]> (clients db)
  ∧ blacklist (snd removed) = delete pk (blacklist db)
  ∧ last (history (snd removed))
    = Some {| history_client := pk; action := "STATUS_CHANGE";
              performed_by := user_id (user admin);
              old_value := Text "BLACKLISTED"; new_value := Text "ACTIVE" |}.
Proof.
  intros Hauth Hadmin Hclient removed. subst removed.
  unfold RemoveFromBlacklistView_post, login_required.
  rewrite Hauth, Hadmin, Hclient. cbn [negb fst snd].
  split; [reflexivity|].
  cbn [clients blacklist history ClientHistory_create].
  match goal with
  | |- context [Client_save _ _ _ ?d] =>
    destruct (Client_save_row signals_connected pk (set_status "ACTIVE" client_) d)
      as (Hc & Hb & _ & _)
  end.
  rewrite Hc, Hb, last_snoc.
  repeat split.
  - destruct (blacklist db !! pk); reflexivity.
  - destruct (blacklist db !! pk) eqn:Hentry; cbn; [reflexivity|].
    symmetry. apply delete_id. exact Hentry.
Qed.

(** Removing a client from the blacklist makes the client ACTIVE
    whether or not the client was blacklisted, and the view's history
    entry gives BLACKLISTED as the old status in both cases.  Hence
    blacklisting a client and removing the entry does not restore the
    status: a SUSPENDED or INACTIVE client comes back ACTIVE, while the
    blacklist itself is as before. *)
Theorem removal_from_blacklist_activates (signals_connected : bool)
    (admin request : Request) (pk : nat) (client_ : Client) (reason_pk : nat)
    (db : DB) :
  is_authenticated (user admin) = true →
  is_admin (user admin) = true →
  clients db !! pk = Some client_ →
  let removed := RemoveFromBlacklistView_post signals_connected admin pk db in
  (fst removed = Ok (Redirect (Some msg_success) "clients:client_detail")
   ∧ clients (snd removed) = <[pk := set_status "ACTIVE" client_]> (clients db)
   ∧ blacklist (snd removed) = delete pk (blacklist db)
   ∧ last (history (snd removed))
     = Some {| history_client := pk; action := "STATUS_CHANGE";
               performed_by := user_id (user admin);
               old_value := Text "BLACKLISTED"; new_value := Text "ACTIVE" |})
  ∧ (is_authenticated (user request) = true →
     is_admin (user request) = true ∨ is_fsm (user request) = true →
     reason_pk ∈ reasons db →
     blacklist db !! pk = None →
     let listed :=
       snd (BlacklistClientView_post signals_connected request pk
              (Some reason_pk) db) in
     let restored :=
       snd (RemoveFromBlacklistView_post signals_connected admin pk listed) in
     clients restored = <[pk := set_status "ACTIVE" client_]> (clients db)
     ∧ blacklist restored = blacklist db).
Proof.
  intros Hauth Hadmin Hclient removed.
  split; [apply (RemoveFromBlacklistView_post_removed _ _ _ _ _ Hauth Hadmin Hclient)|].
  intros Hauth' Hrole Hreason Hentry listed restored.
  destruct (BlacklistClientView_post_listed signals_connected request pk client_
              reason_pk db Hauth' Hrole Hclient Hreason Hentry) as (_ & Hc & Hb & _).
  fold listed in Hc, Hb.
  assert (clients listed !! pk = Some (set_status "BLACKLISTED" client_)) as Hl.
  { rewrite Hc. apply lookup_insert_eq. }
  destruct (RemoveFromBlacklistView_post_removed signals_connected admin pk _
              listed Hauth Hadmin Hl) as (_ & Hc' & Hb' & _).
  fold restored in Hc', Hb'.
  split.
  - rewrite Hc', Hc, insert_insert_eq. reflexivity.
  - rewrite Hb', Hb, delete_insert_id; [reflexivity|exact Hentry].
Qed.

Lemma removal_from_blacklist_activates_witness :
  status Cases.suspended = "SUSPENDED"
  ∧ (let listed :=
       snd (BlacklistClientView_post false (Scenarios.post Scenarios.fsm) 1
              (Some 4%nat) Cases.two_sites) in
     let restored :=
       snd (RemoveFromBlacklistView_post false (Scenarios.post Cases.admin) 1
              listed) in
     clients restored
     = <[1%nat := set_status "ACTIVE" Cases.suspended]> (clients Cases.two_sites)
     ∧ blacklist restored = blacklist Cases.two_sites).
Proof.
  split; [reflexivity|].
  refine (proj2 (removal_from_blacklist_activates false
                   (Scenarios.post Cases.admin) (Scenarios.post Scenarios.fsm)
                   1 Cases.suspended 4 Cases.two_sites _ _ _) _ _ _ _);
    try reflexivity.
  right. reflexivity.
Defined.

End Blacklist.

(** ** Signatures on a delivery note *)

Section Signatures.
Import Signing.

Lemma signed_in_cons (r role : string) (request : Request)
    (steps : list (Request * string)) :
  bool_decide (r ∈ ((request, role) :: steps).*2)
  = bool_decide (role = r) || bool_decide (r ∈ steps.*2).
Proof.
  rewrite fmap_cons. cbn [snd].
  destruct (bool_decide (role = r)) eqn:Hrole; simpl.
  - apply bool_decide_eq_true in Hrole as ->.
    apply bool_decide_eq_true_2, list_elem_of_here.
  - apply bool_decide_eq_false in Hrole.
    apply bool_decide_ext. rewrite elem_of_cons.
    split; [intros [?|?]; [congruence|assumption]|by right].
Qed.

Lemma sign_delivery_note_flags (request : Request) (pk : nat) (role : string)
    (notes : list DeliveryNote) (note : DeliveryNote) :
  notes !! pk = Some note →
  ∃ note',
    sign_delivery_note request pk role notes
    = (Redirect (Some msg_success) "delivery:delivery_note_detail",
       <[pk := note']> notes)
    ∧ delivery note' = delivery note
    ∧ signed_by_driver note'
      = signed_by_driver note || bool_decide (role = "driver")
    ∧ signed_by_scaffolder note'
      = signed_by_scaffolder note || bool_decide (role = "scaffolder")
    ∧ signed_by_security note'
      = signed_by_security note || bool_decide (role = "security")
    ∧ signed_by_client note'
      = signed_by_client note || bool_decide (role = "client").
Proof.
  intros Hnote. unfold sign_delivery_note. rewrite Hnote.
  eexists. split; [reflexivity|].
  repeat case_bool_decide; subst; try discriminate; cbn;
    rewrite ?orb_true_r, ?orb_false_r; repeat split.
Qed.

(** Signing needs no login and no particular user, and a signature is
    never taken back.  After any sequence of signing requests for a
    note, whoever sends them and with whatever role in the URL, every
    request is answered with the success message, the other notes are
    untouched, and a signature is on the note exactly when it was there
    before or its role is among those requested.  So the note is fully
    signed as soon as driver, scaffolder and security have each been
    requested once, in any order; the client's signature plays no
    part. *)
Theorem signatures_accumulate (steps : list (Request * string)) (pk : nat)
    (notes : list DeliveryNote) (note : DeliveryNote) :
  notes !! pk = Some note →
  let result := sign_each steps pk notes in
  fst result
  = replicate (length steps)
      (Redirect (Some msg_success) "delivery:delivery_note_detail")
  ∧ (∀ k, k ≠ pk → snd result !! k = notes !! k)
  ∧ ∃ note',
      snd result !! pk = Some note'
      ∧ delivery note' = delivery note
      ∧ signed_by_driver note'
        = signed_by_driver note || bool_decide ("driver" ∈ steps.*2)
      ∧ signed_by_scaffolder note'
        = signed_by_scaffolder note || bool_decide ("scaffolder" ∈ steps.*2)
      ∧ signed_by_security note'
        = signed_by_security note || bool_decide ("security" ∈ steps.*2)
      ∧ signed_by_client note'
        = signed_by_client note || bool_decide ("client" ∈ steps.*2)
      ∧ is_fully_signed note'
        = (signed_by_driver note || bool_decide ("driver" ∈ steps.*2))
          && (signed_by_scaffolder note || bool_decide ("scaffolder" ∈ steps.*2))
          && (signed_by_security note || bool_decide ("security" ∈ steps.*2)).
Proof.
  revert notes note.
  induction steps as [|[request role] steps IH]; intros notes note Hnote.
  - cbn. split; [reflexivity|]. split; [reflexivity|].
    exists note. rewrite !orb_false_r. repeat split. exact Hnote.
  - cbn zeta. cbn [sign_each].
    destruct (sign_delivery_note_flags request pk role notes note Hnote)
      as (note1 & -> & Hd1 & Hdr & Hsc & Hse & Hcl).
    assert (<[pk := note1]> notes !! pk = Some note1) as Hnote1.
    { apply list_lookup_insert_eq. eapply lookup_lt_Some. exact Hnote. }
    specialize (IH _ _ Hnote1). cbn zeta in IH.
    destruct (sign_each steps pk (<[pk := note1]> notes))
      as [responses notes'].
    cbn [fst snd] in *.
    destruct IH as (Hresponses & Hother & note' & Hnote' & Hd & H1 & H2 & H3 & H4 & H5).
    split; [cbn; by rewrite Hresponses|].
    split.
    { intros k Hk. rewrite (Hother k Hk).
      apply list_lookup_insert_ne. congruence. }
    exists note'. rewrite !signed_in_cons.
    rewrite H1, H2, H3, H4, H5, Hdr, Hsc, Hse, Hcl, Hd, Hd1, !orb_assoc.
    repeat split. exact Hnote'.
Qed.

Lemma signatures_accumulate_witness :
  let result :=
    sign_each [(Cases.get Cases.visitor, "security");
               (Cases.get Cases.visitor, "driver");
               (Cases.get Cases.visitor, "courier");
               (Cases.get Cases.visitor, "scaffolder")]
      0 [Cases.unsigned_note] in
  fst result
  = replicate 4 (Redirect (Some msg_success) "delivery:delivery_note_detail")
  ∧ (∀ k, k ≠ 0%nat → snd result !! k = [Cases.unsigned_note] !! k)
  ∧ ∃ note',
      snd result !! 0%nat = Some note'
      ∧ delivery note' = 0%nat
      ∧ signed_by_driver note' = true
      ∧ signed_by_scaffolder note' = true
      ∧ signed_by_security note' = true
      ∧ signed_by_client note' = false
      ∧ is_fully_signed note' = true.
Proof.
  exact (signatures_accumulate
           [(Cases.get Cases.visitor, "security");
            (Cases.get Cases.visitor, "driver");
            (Cases.get Cases.visitor, "courier");
            (Cases.get Cases.visitor, "scaffolder")]
           0 [Cases.unsigned_note] Cases.unsigned_note eq_refl).
Defined.

End Signatures.

(** ** Creating and editing a material *)

Section MaterialForms.
Import Accounts Materials.

(** Editing a material through its form writes the new total and
    leaves the counts of available and of hired units alone, except
    that [save] lowers the available count to the total.  Stock added
    this way is therefore not available for hire, and for a material
    whose total was the sum of available and hired units the sum is
    kept only when the total is not changed, or when nothing is hired
    and the total is lowered below the available count. *)
Theorem material_update_keeps_no_ledger (request : Request) (pk : nat)
    (form : MaterialForm) (material : Material)
    (materials : gmap nat Material) :
  is_authenticated (user request) = true →
  method request = POST →
  materials !! pk = Some material →
  MaterialForm_is_valid form = true →
  total_quantity material
  = available_quantity material + hired_quantity material →
  0 <= hired_quantity material →
  let result := material_update request pk form materials in
  fst result = Redirect (Some msg_success) "inventory:material_detail"
  ∧ ∃ material',
      snd result = <[pk := material']> materials
      ∧ total_quantity material' = form_total_quantity form
      ∧ available_quantity material'
        = Z.min (available_quantity material) (form_total_quantity form)
      ∧ hired_quantity material' = hired_quantity material
      ∧ (total_quantity material'
         = available_quantity material' + hired_quantity material'
         ↔ form_total_quantity form = total_quantity material
           ∨ (hired_quantity material = 0
              ∧ form_total_quantity form < available_quantity material)).
Proof.
  intros Hauth Hpost Hmaterial Hvalid Hledger Hhired result. subst result.
  unfold material_update, login_required, attribute_truth.
  rewrite Hauth, Hmaterial, Hpost, Hvalid. cbn [negb andb fst snd].
  split; [reflexivity|].
  eexists. split; [reflexivity|].
  unfold capped, set_minimum, set_total, set_available.
  cbn [total_quantity available_quantity hired_quantity minimum_stock_level].
  destruct (form_total_quantity form <? available_quantity material) eqn:Hlt;
    cbn [total_quantity available_quantity hired_quantity minimum_stock_level];
    [apply Z.ltb_lt in Hlt | apply Z.ltb_ge in Hlt];
    repeat split; try lia.
Qed.

Lemma material_update_keeps_no_ledger_witness :
  let result :=
    material_update (Scenarios.post Scenarios.fsm) 1 (Cases.total_form 150)
      {[ 1%nat := Scenarios.stock 100 60 40 ]} in
  fst result = Redirect (Some msg_success) "inventory:material_detail"
  ∧ ∃ material',
      snd result = <[1%nat := material']> {[ 1%nat := Scenarios.stock 100 60 40 ]}
      ∧ total_quantity material' = 150
      ∧ available_quantity material' = Z.min 60 150
      ∧ hired_quantity material' = 40
      ∧ (total_quantity material'
         = available_quantity material' + hired_quantity material'
         ↔ 150 = 100 ∨ (40 = 0 ∧ 150 < 60)).
Proof.
  apply (material_update_keeps_no_ledger (Scenarios.post Scenarios.fsm) 1
           (Cases.total_form 150) (Scenarios.stock 100 60 40)
           {[ 1%nat := Scenarios.stock 100 60 40 ]});
    first [reflexivity | cbn; lia].
Defined.

(** No request to [material_create] stores a material.  A valid form
    posted by a logged-in user builds an instance whose
    [available_quantity] is [None], and [save] compares it with the
    total: the request ends in [TypeError].  Every other request is
    answered without a write. *)
Theorem material_create_never_stores (request : Request) (form : MaterialForm)
    (materials : gmap nat Material) :
  snd (material_create request form materials) = materials
  ∧ fst (material_create request form materials)
    = (if negb (is_authenticated (user request))
       then Ok (Redirect None "login")
       else match method request with
            | GET => Ok (Render "inventory/material_form.html")
            | POST =>
              if MaterialForm_is_valid form then Raise TypeError
              else Ok (Render "inventory/material_form.html")
            end).
Proof.
  unfold material_create, login_required, attribute_truth.
  destruct (is_authenticated (user request)); [|split; reflexivity].
  cbn [negb andb].
  destruct (method request); [split; reflexivity|].
  destruct (MaterialForm_is_valid form); split; reflexivity.
Qed.

End MaterialForms.
